(** * Exynos thermal management unit (TMU) driver: shallow embedding

    This development embeds the TMU part of
    [drivers/soc/samsung/exynos-pm.c] (calibration, multi-sensor read,
    threshold programming, trip reporting, CPU-hotplug throttling, the PM
    notifier and probe/remove) and states the properties of its
    natural-language specification over that embedding.

    C integers are modelled as [Z] with the conversions of the C types
    written out; device registers are a map from addresses to 32-bit words;
    functions that touch registers, globals or framework collaborators run
    in a small state-and-fault monad over a [world]. *)

From Stdlib Require Import ZArith List String Bool Lia DecimalString.
Import ListNotations.
Open Scope Z_scope.

(** ** Machine integers *)

Module CInt.

Definition to_u8 (z : Z) : Z := z mod 2 ^ 8.
Definition to_u16 (z : Z) : Z := z mod 2 ^ 16.
Definition to_u32 (z : Z) : Z := z mod 2 ^ 32.

(** Conversion to [int]: two's complement on 32 bits. *)
Definition to_int (z : Z) : Z := (z + 2 ^ 31) mod 2 ^ 32 - 2 ^ 31.

Definition int_add (a b : Z) : Z := to_int (a + b).
Definition int_sub (a b : Z) : Z := to_int (a - b).
Definition int_mul (a b : Z) : Z := to_int (a * b).

Definition u32_add (a b : Z) : Z := to_u32 (a + b).
Definition u32_sub (a b : Z) : Z := to_u32 (a - b).
Definition u32_mul (a b : Z) : Z := to_u32 (a * b).
Definition u32_not (a : Z) : Z := Z.lxor (to_u32 a) (2 ^ 32 - 1).
Definition u32_shl (a k : Z) : Z := to_u32 (Z.shiftl a k).

Definition is_u8 (z : Z) : Prop := 0 <= z < 2 ^ 8.
Definition is_u16 (z : Z) : Prop := 0 <= z < 2 ^ 16.
Definition is_u32 (z : Z) : Prop := 0 <= z < 2 ^ 32.
Definition is_int (z : Z) : Prop := - 2 ^ 31 <= z < 2 ^ 31.

End CInt.
Import CInt.

(** ** Faults and results

    The C code has behaviours with no defined result: an integer division
    by zero, a dereference of a NULL pointer, and a read through the
    pointer [LIST_POISON1] that [list_del] leaves in the [next] field of
    an unlinked list node.  They are outcomes of their own. *)

Inductive fault : Type :=
| DivideByZero
| NullPointer
| PoisonedPointer.

Inductive result (A : Type) : Type :=
| Ok (a : A)
| Fault (f : fault).
Arguments Ok {A} a.
Arguments Fault {A} f.

Definition rbind {A B} (r : result A) (k : A -> result B) : result B :=
  match r with
  | Ok a => k a
  | Fault f => Fault f
  end.

(** [a / b] on [int] operands: truncation toward zero, undefined for a zero
    divisor. *)
Definition int_div (a b : Z) : result Z :=
  if b =? 0 then Fault DivideByZero else Ok (to_int (Z.quot a b)).

(** [a / b] on [u32] operands. *)
Definition u32_div (a b : Z) : result Z :=
  if b =? 0 then Fault DivideByZero else Ok (to_u32 (Z.quot a b)).

(** ** Constants of [exynos_tmu.h]

    The header is not part of the sources at hand; the constants the driver
    takes from it are parameters of the development.  Labels of one
    [switch] statement are pairwise distinct, as C requires. *)

Class exynos_tmu_h : Type := {
  EXYNOS_MIN_TEMP : Z;
  EXYNOS_MAX_TEMP : Z;
  TYPE_ONE_POINT_TRIMMING : Z;
  TYPE_TWO_POINT_TRIMMING : Z;
  AVG : Z;
  MAX : Z;
  MIN : Z;
  NR_CPUS : Z;
  NR_HOTPLUG_CPUS : Z;
  cal_type_labels : TYPE_ONE_POINT_TRIMMING <> TYPE_TWO_POINT_TRIMMING;
  sensing_labels : AVG <> MAX /\ AVG <> MIN /\ MAX <> MIN
}.

(** ** Constants defined in the driver *)

Definition EXYNOS_TMU_REG_TRIMINFO : Z := 0x0.
Definition EXYNOS_TMU_REG_TRIMINFO1 : Z := 0x4.
Definition EXYNOS_TMU_REG_TRIMINFO2 : Z := 0x8.
Definition EXYNOS_TMU_REG_CONTROL : Z := 0x20.
Definition EXYNOS_TMU_REG_CURRENT_TEMP1_0 : Z := 0x40.
Definition EXYNOS_TMU_REG_INTEN : Z := 0x110.

Definition EXYNOS_TMU_REF_VOLTAGE_SHIFT : Z := 24.
Definition EXYNOS_TMU_REF_VOLTAGE_MASK : Z := 0x1f.
Definition EXYNOS_TMU_BUF_SLOPE_SEL_MASK : Z := 0xf.
Definition EXYNOS_TMU_BUF_SLOPE_SEL_SHIFT : Z := 8.
Definition EXYNOS_TMU_CORE_EN_SHIFT : Z := 0.
Definition EXYNOS_TMU_TRIP_MODE_SHIFT : Z := 13.
Definition EXYNOS_TMU_TRIP_MODE_MASK : Z := 0x7.
Definition EXYNOS_TMU_THERM_TRIP_EN_SHIFT : Z := 12.
Definition EXYNOS_TMU_INTEN_FALL0_SHIFT : Z := 16.

Definition EXYNOS_THD_TEMP_RISE7_6 : Z := 0x50.
Definition EXYNOS_THD_TEMP_FALL7_6 : Z := 0x60.
Definition EXYNOS_THD_TEMP_R_OFFSET : Z := 0x120.

Definition EXYNOS_TMU_CALIB_SEL_SHIFT : Z := 23.
Definition EXYNOS_TMU_CALIB_SEL_MASK : Z := 0x1.
Definition EXYNOS_TMU_TEMP_SHIFT : Z := 9.
Definition EXYNOS_TMU_TEMP_MASK : Z := 0x1ff.
Definition EXYNOS_TMU_TRIMINFO_85_P0_SHIFT : Z := 9.
Definition EXYNOS_TMU_T_BUF_VREF_SEL_SHIFT : Z := 18.
Definition EXYNOS_TMU_T_BUF_VREF_SEL_MASK : Z := 0x1F.
Definition EXYNOS_TMU_T_BUF_SLOPE_SEL_SHIFT : Z := 18.
Definition EXYNOS_TMU_T_BUF_SLOPE_SEL_MASK : Z := 0xF.

Definition EXYNOS_TMU_REG_INTPEND0 : Z := 0x118.
Definition EXYNOS_TMU_REG_INTPEND5 : Z := 0x318.
Definition EXYNOS_TMU_REG_INTPEN_OFFSET : Z := 0x10.

Definition EXYNOS_TMU_REG_AVG_CON : Z := 0x38.
Definition EXYNOS_TMU_AVG_CON_SHIFT : Z := 18.
Definition EXYNOS_TMU_AVG_CON_MASK : Z := 0x3.
Definition EXYNOS_TMU_AVG_MODE_MASK : Z := 0x7.
Definition EXYNOS_TMU_AVG_MODE_DEFAULT : Z := 0x0.
Definition EXYNOS_TMU_AVG_MODE_4 : Z := 0x6.

Definition MCELSIUS : Z := 1000.
Definition TOTAL_SENSORS : nat := 8.

Definition EINVAL : Z := 22.
Definition ENOMEM : Z := 12.
Definition EPROBE_DEFER : Z := 517.

(** ** Data model *)

Inductive soc_type : Type :=
| SOC_ARCH_EXYNOS8890
| SOC_ARCH_EXYNOS8895.

(** One trip point of a thermal zone, as the [get_trip_temp] and
    [get_trip_hyst] operations of the zone report it (milli-Celsius). *)
Record thermal_trip : Type := {
  trip_temperature : Z;
  trip_hysteresis : Z
}.

(** The part of [struct thermal_zone_device] the driver looks at. *)
Record thermal_zone_device : Type := {
  last_temperature : Z;
  trips : list thermal_trip;
  governor_name : string
}.

(** A cooling device: [cdev_handle] identifies the object, and
    [has_set_cur_temp] tells whether [ops->set_cur_temp] is non-NULL. *)
Record thermal_cooling_device : Type := {
  cdev_handle : nat;
  has_set_cur_temp : bool
}.

Record exynos_tmu_platform_data : Type := {
  gain : Z;
  reference_voltage : Z;
  noise_cancel_mode : Z;
  efuse_value : Z;
  first_point_trim : Z;
  second_point_trim : Z;
  default_temp_offset : Z;
  cal_type : Z
}.

Record remote_sensor_info : Type := {
  rs_cal_type : Z;
  rs_temp_error1 : Z;
  rs_temp_error2 : Z
}.

(** [struct exynos_tmu_data].  The bound methods ([tmu_initialize],
    [tmu_control], [tmu_read], [tmu_clear_irqs]) are determined by [soc];
    [remote_sensors] is indexed by sensor number, as the driver indexes
    it, and the size of its allocation is not modelled; locks, the work
    item and the list node are left out. *)
Record exynos_tmu_data : Type := {
  id : Z;
  hotplug_enable : bool;
  hotplug_in_threshold : Z;
  hotplug_out_threshold : Z;
  pdata : exynos_tmu_platform_data;
  base : Z;
  irq : Z;
  soc : soc_type;
  temp_error1 : Z;
  temp_error2 : Z;
  tzd : option thermal_zone_device;
  cool_dev : option thermal_cooling_device;
  sensors : Z;
  remote_sensors : nat -> remote_sensor_info;
  sensing_mode : Z
}.

(** The fields read by the calibration functions hold values of their C
    types: [u16] fused codes and [u8] trim points and offset. *)
Definition calib_fields_typed (data : exynos_tmu_data) : Prop :=
  is_u16 (temp_error1 data) /\ is_u16 (temp_error2 data) /\
  is_u8 (first_point_trim (pdata data)) /\
  is_u8 (second_point_trim (pdata data)) /\
  is_u8 (default_temp_offset (pdata data)).

(** ** Calibration engine *)

Section Calibration.

Context {hdr : exynos_tmu_h}.

(** [static int temp_to_code(struct exynos_tmu_data *data, u8 temp)]
    (exynos-pm.c, lines 719-745).  The argument is converted to [u8] on
    entry; the arithmetic is on [int]. *)
Definition temp_to_code (data : exynos_tmu_data) (temp : Z) : result Z :=
  let pdata := pdata data in
  let temp := to_u8 temp in
  let temp :=
    if temp >? EXYNOS_MAX_TEMP then to_u8 EXYNOS_MAX_TEMP
    else if temp <? EXYNOS_MIN_TEMP then to_u8 EXYNOS_MIN_TEMP
    else temp in
  if cal_type pdata =? TYPE_TWO_POINT_TRIMMING then
    rbind
      (int_div
         (int_mul (int_sub temp (first_point_trim pdata))
                  (int_sub (temp_error2 data) (temp_error1 data)))
         (int_sub (second_point_trim pdata) (first_point_trim pdata)))
      (fun q => Ok (int_add q (temp_error1 data)))
  else if cal_type pdata =? TYPE_ONE_POINT_TRIMMING then
    Ok (int_sub (int_add temp (temp_error1 data)) (first_point_trim pdata))
  else
    Ok (int_add temp (default_temp_offset pdata)).

(** [static int code_to_temp(struct exynos_tmu_data *data, u16 temp_code)]
    (lines 751-778).  The argument is converted to [u16] on entry. *)
Definition code_to_temp (data : exynos_tmu_data) (temp_code : Z) : result Z :=
  let pdata := pdata data in
  let temp_code := to_u16 temp_code in
  rbind
    (if cal_type pdata =? TYPE_TWO_POINT_TRIMMING then
       rbind
         (int_div
            (int_mul (int_sub temp_code (temp_error1 data))
                     (int_sub (second_point_trim pdata)
                              (first_point_trim pdata)))
            (int_sub (temp_error2 data) (temp_error1 data)))
         (fun q => Ok (int_add q (first_point_trim pdata)))
     else if cal_type pdata =? TYPE_ONE_POINT_TRIMMING then
       Ok (int_add (int_sub temp_code (temp_error1 data))
                   (first_point_trim pdata))
     else
       Ok (int_sub temp_code (default_temp_offset pdata)))
    (fun temp =>
       Ok (if temp >? EXYNOS_MAX_TEMP then EXYNOS_MAX_TEMP
           else if temp <? EXYNOS_MIN_TEMP then EXYNOS_MIN_TEMP
           else temp)).

(** Conversion to a code and back, as one fallible function. *)
Definition round_trip (data : exynos_tmu_data) (temp : Z) : result Z :=
  rbind (temp_to_code data temp) (code_to_temp data).

End Calibration.

(** ** The world the driver runs in

    Device registers, the driver's file-scope variables, and the calls made
    to collaborators (register writes, uevents, PM-QoS requests, cooling
    device operations), in the order they happen. *)

Inductive event : Type :=
| EvWritel (val addr : Z)
| EvUevent (env : string)
| EvEnableIrq (irq : Z)
| EvPmQosAddRequest
| EvPmQosUpdateRequest (value : Z)
| EvSetCurTemp (cdev : thermal_cooling_device) (suspended : bool) (temp : Z)
| EvRegisterPmNotifier
| EvUnregisterPmNotifier
| EvSensorUnregister
| EvSetMode.

Record world : Type := {
  (** device registers by address, 32 bits each *)
  mmio : Z -> Z;
  suspended : bool;
  is_cpu_hotplugged_out : bool;
  (** the devices linked on [dtm_dev_list], first to last *)
  dtm_dev_list : list exynos_tmu_data;
  (** how many times [exynos_tmu_pm_notifier] is on the PM notifier chain *)
  pm_notifier_registered : nat;
  (** [cpufreq_state] of the cpufreq cooling device behind a handle *)
  cpufreq_state : nat -> Z;
  trace : list event
}.

Definition M (A : Type) : Type := world -> result (A * world).

Definition ret {A} (a : A) : M A := fun w => Ok (a, w).

Definition bind {A B} (m : M A) (k : A -> M B) : M B :=
  fun w =>
    match m w with
    | Ok (a, w') => k a w'
    | Fault f => Fault f
    end.

Definition lift {A} (r : result A) : M A :=
  fun w =>
    match r with
    | Ok a => Ok (a, w)
    | Fault f => Fault f
    end.

Declare Scope tmu_scope.
Delimit Scope tmu_scope with tmu.
Notation "x <- m ;; k" := (bind m (fun x => k))
  (at level 61, m at next level, right associativity) : tmu_scope.
Notation "m ;;; k" := (bind m (fun _ => k))
  (at level 61, right associativity) : tmu_scope.
Open Scope tmu_scope.

(** Dereference of a pointer that may be NULL. *)
Definition deref {A} (p : option A) : M A :=
  fun w =>
    match p with
    | Some a => Ok (a, w)
    | None => Fault NullPointer
    end.

Definition emit (e : event) : M unit :=
  fun w =>
    Ok (tt, {| mmio := mmio w; suspended := suspended w;
               is_cpu_hotplugged_out := is_cpu_hotplugged_out w;
               dtm_dev_list := dtm_dev_list w;
               pm_notifier_registered := pm_notifier_registered w;
               cpufreq_state := cpufreq_state w;
               trace := trace w ++ [e] |}).

Definition readl (addr : Z) : M Z := fun w => Ok (mmio w addr, w).

(** [readw] returns the low half of the little-endian word at [addr]. *)
Definition readw (addr : Z) : M Z := fun w => Ok (to_u16 (mmio w addr), w).

Definition store (val addr : Z) : M unit :=
  fun w =>
    Ok (tt, {| mmio := fun a => if a =? addr then to_u32 val else mmio w a;
               suspended := suspended w;
               is_cpu_hotplugged_out := is_cpu_hotplugged_out w;
               dtm_dev_list := dtm_dev_list w;
               pm_notifier_registered := pm_notifier_registered w;
               cpufreq_state := cpufreq_state w;
               trace := trace w |}).

Definition writel (val addr : Z) : M unit :=
  store val addr ;;; emit (EvWritel (to_u32 val) addr).

Definition get_suspended : M bool := fun w => Ok (suspended w, w).

Definition set_suspended (b : bool) : M unit :=
  fun w =>
    Ok (tt, {| mmio := mmio w; suspended := b;
               is_cpu_hotplugged_out := is_cpu_hotplugged_out w;
               dtm_dev_list := dtm_dev_list w;
               pm_notifier_registered := pm_notifier_registered w;
               cpufreq_state := cpufreq_state w;
               trace := trace w |}).

Definition get_is_cpu_hotplugged_out : M bool :=
  fun w => Ok (is_cpu_hotplugged_out w, w).

Definition set_is_cpu_hotplugged_out (b : bool) : M unit :=
  fun w =>
    Ok (tt, {| mmio := mmio w; suspended := suspended w;
               is_cpu_hotplugged_out := b;
               dtm_dev_list := dtm_dev_list w;
               pm_notifier_registered := pm_notifier_registered w;
               cpufreq_state := cpufreq_state w;
               trace := trace w |}).

Definition get_dtm_dev_list : M (list exynos_tmu_data) :=
  fun w => Ok (dtm_dev_list w, w).

Definition set_dtm_dev_list (l : list exynos_tmu_data) : M unit :=
  fun w =>
    Ok (tt, {| mmio := mmio w; suspended := suspended w;
               is_cpu_hotplugged_out := is_cpu_hotplugged_out w;
               dtm_dev_list := l;
               pm_notifier_registered := pm_notifier_registered w;
               cpufreq_state := cpufreq_state w;
               trace := trace w |}).

Definition set_pm_notifier_registered (f : nat -> nat) : M unit :=
  fun w =>
    Ok (tt, {| mmio := mmio w; suspended := suspended w;
               is_cpu_hotplugged_out := is_cpu_hotplugged_out w;
               dtm_dev_list := dtm_dev_list w;
               pm_notifier_registered := f (pm_notifier_registered w);
               cpufreq_state := cpufreq_state w;
               trace := trace w |}).

Definition set_cpufreq_state (handle : nat) (state : Z) : M unit :=
  fun w =>
    Ok (tt, {| mmio := mmio w; suspended := suspended w;
               is_cpu_hotplugged_out := is_cpu_hotplugged_out w;
               dtm_dev_list := dtm_dev_list w;
               pm_notifier_registered := pm_notifier_registered w;
               cpufreq_state :=
                 fun h => if Nat.eqb h handle then state else cpufreq_state w h;
               trace := trace w |}).

(** [register_pm_notifier(&exynos_tmu_pm_notifier)] *)
Definition register_pm_notifier : M unit :=
  set_pm_notifier_registered S ;;; emit EvRegisterPmNotifier.

(** [unregister_pm_notifier(&exynos_tmu_pm_notifier)] *)
Definition unregister_pm_notifier : M unit :=
  set_pm_notifier_registered Nat.pred ;;; emit EvUnregisterPmNotifier.

(** A [for] loop over the values of [l], threading the loop-carried
    variables [s]. *)
Fixpoint for_each {A S : Type} (l : list A) (body : A -> S -> M S) (s : S)
  : M S :=
  match l with
  | [] => ret s
  | a :: l' => s' <- body a s ;; for_each l' body s'
  end.

(** The values of [i] in [for (i = 0; i < TOTAL_SENSORS; i++)]. *)
Definition sensor_indices : list nat := seq 0 TOTAL_SENSORS.

(** [data->sensors & (1 << i)] *)
Definition sensor_active (data : exynos_tmu_data) (i : nat) : bool :=
  negb (Z.land (sensors data) (Z.shiftl 1 (Z.of_nat i)) =? 0).

(** Framework queries on a thermal zone. *)
Definition of_thermal_get_ntrips (tz : thermal_zone_device) : nat :=
  List.length (trips tz).

Definition of_thermal_is_trip_valid (tz : thermal_zone_device) (trip : nat)
  : bool :=
  Nat.ltb trip (of_thermal_get_ntrips tz).

Definition get_trip_temp (tz : thermal_zone_device) (trip : nat) : Z :=
  trip_temperature
    (nth trip (trips tz) {| trip_temperature := 0; trip_hysteresis := 0 |}).

Definition get_trip_hyst (tz : thermal_zone_device) (trip : nat) : Z :=
  trip_hysteresis
    (nth trip (trips tz) {| trip_temperature := 0; trip_hysteresis := 0 |}).

(** [strcmp(tz->tzp->governor_name, "power_allocator")] is zero. *)
Definition governor_is_power_allocator (tz : thermal_zone_device) : bool :=
  String.eqb (governor_name tz) "power_allocator".

(** Updates of the fields the driver assigns after [exynos_map_dt_data]. *)
Definition set_cal_type (data : exynos_tmu_data) (v : Z) : exynos_tmu_data :=
  let p := pdata data in
  {| id := id data; hotplug_enable := hotplug_enable data;
     hotplug_in_threshold := hotplug_in_threshold data;
     hotplug_out_threshold := hotplug_out_threshold data;
     pdata := {| gain := gain p; reference_voltage := reference_voltage p;
                 noise_cancel_mode := noise_cancel_mode p;
                 efuse_value := efuse_value p;
                 first_point_trim := first_point_trim p;
                 second_point_trim := second_point_trim p;
                 default_temp_offset := default_temp_offset p;
                 cal_type := v |};
     base := base data; irq := irq data; soc := soc data;
     temp_error1 := temp_error1 data; temp_error2 := temp_error2 data;
     tzd := tzd data; cool_dev := cool_dev data; sensors := sensors data;
     remote_sensors := remote_sensors data;
     sensing_mode := sensing_mode data |}.

Definition set_temp_error1 (data : exynos_tmu_data) (v : Z) : exynos_tmu_data :=
  {| id := id data; hotplug_enable := hotplug_enable data;
     hotplug_in_threshold := hotplug_in_threshold data;
     hotplug_out_threshold := hotplug_out_threshold data;
     pdata := pdata data;
     base := base data; irq := irq data; soc := soc data;
     temp_error1 := to_u16 v; temp_error2 := temp_error2 data;
     tzd := tzd data; cool_dev := cool_dev data; sensors := sensors data;
     remote_sensors := remote_sensors data;
     sensing_mode := sensing_mode data |}.

Definition set_temp_error2 (data : exynos_tmu_data) (v : Z) : exynos_tmu_data :=
  {| id := id data; hotplug_enable := hotplug_enable data;
     hotplug_in_threshold := hotplug_in_threshold data;
     hotplug_out_threshold := hotplug_out_threshold data;
     pdata := pdata data;
     base := base data; irq := irq data; soc := soc data;
     temp_error1 := temp_error1 data; temp_error2 := to_u16 v;
     tzd := tzd data; cool_dev := cool_dev data; sensors := sensors data;
     remote_sensors := remote_sensors data;
     sensing_mode := sensing_mode data |}.

Definition set_remote_sensor (data : exynos_tmu_data) (i : nat)
  (f : remote_sensor_info -> remote_sensor_info) : exynos_tmu_data :=
  {| id := id data; hotplug_enable := hotplug_enable data;
     hotplug_in_threshold := hotplug_in_threshold data;
     hotplug_out_threshold := hotplug_out_threshold data;
     pdata := pdata data;
     base := base data; irq := irq data; soc := soc data;
     temp_error1 := temp_error1 data; temp_error2 := temp_error2 data;
     tzd := tzd data; cool_dev := cool_dev data; sensors := sensors data;
     remote_sensors :=
       fun k => if Nat.eqb k i then f (remote_sensors data k)
                else remote_sensors data k;
     sensing_mode := sensing_mode data |}.

Definition set_tzd (data : exynos_tmu_data) (tz : option thermal_zone_device)
  : exynos_tmu_data :=
  {| id := id data; hotplug_enable := hotplug_enable data;
     hotplug_in_threshold := hotplug_in_threshold data;
     hotplug_out_threshold := hotplug_out_threshold data;
     pdata := pdata data;
     base := base data; irq := irq data; soc := soc data;
     temp_error1 := temp_error1 data; temp_error2 := temp_error2 data;
     tzd := tz; cool_dev := cool_dev data; sensors := sensors data;
     remote_sensors := remote_sensors data;
     sensing_mode := sensing_mode data |}.

Definition set_cool_dev (data : exynos_tmu_data)
  (cdev : option thermal_cooling_device) : exynos_tmu_data :=
  {| id := id data; hotplug_enable := hotplug_enable data;
     hotplug_in_threshold := hotplug_in_threshold data;
     hotplug_out_threshold := hotplug_out_threshold data;
     pdata := pdata data;
     base := base data; irq := irq data; soc := soc data;
     temp_error1 := temp_error1 data; temp_error2 := temp_error2 data;
     tzd := tzd data; cool_dev := cdev; sensors := sensors data;
     remote_sensors := remote_sensors data;
     sensing_mode := sensing_mode data |}.

(** ** Threshold placement

    [reg_off = ((7 - i) / 2) * 4; bit_off = ((8 - i) % 2);] with [i] an
    [int] and the results stored in [unsigned int] variables. *)

Definition reg_off (i : Z) : Z :=
  to_u32 (int_mul (to_int (Z.quot (int_sub 7 i) 2)) 4).

Definition bit_off (i : Z) : Z :=
  to_u32 (to_int (Z.rem (int_sub 8 i) 2)).

(** The register offset used for trip [i] of sensor [j] by the 8895 variant:
    [if (j > 0) reg_off = reg_off + EXYNOS_THD_TEMP_R_OFFSET;] *)
Definition reg_off_sensor (j : nat) (i : Z) : Z :=
  if Nat.ltb 0 j then u32_add (reg_off i) EXYNOS_THD_TEMP_R_OFFSET
  else reg_off i.

(** ** Trip level of a reading

    [for (i = 0; i < of_thermal_get_ntrips(tz); i++) {
       tz->ops->get_trip_temp(tz, i, &temp);
       if (tz->last_temperature < temp) break; }]
    with [n] iterations left and the loop variable at [i]. *)
Fixpoint trip_scan (tz : thermal_zone_device) (n i : nat) : nat :=
  match n with
  | O => i
  | S n' =>
      if last_temperature tz <? get_trip_temp tz i then i
      else trip_scan tz n' (S i)
  end.

Definition trip_level (tz : thermal_zone_device) : nat :=
  trip_scan tz (of_thermal_get_ntrips tz) 0.

(** [snprintf(data, size, "%u", i)]: the decimal digits of [i], cut to
    [size - 1] characters. *)
Definition snprintf_u (size : nat) (i : nat) : string :=
  substring 0 (size - 1) (NilEmpty.string_of_uint (Nat.to_uint i)).

(** ** The driver *)

Section Driver.

Context {hdr : exynos_tmu_h}.

(** [thermal_zone_device_update] belongs to the thermal framework: it reads
    the sensor through the zone's callbacks, refreshes
    [tz->last_temperature] and runs the governor.  The driver only relies
    on it handing back the zone. *)
Variable thermal_zone_device_update :
  thermal_zone_device -> M thermal_zone_device.

(** [static u32 get_con_reg(struct exynos_tmu_data *data, u32 con)]
    (lines 792-808) *)
Definition get_con_reg (data : exynos_tmu_data) (con : Z) : Z :=
  let pdata := pdata data in
  let con :=
    Z.land con (u32_not (Z.shiftl EXYNOS_TMU_REF_VOLTAGE_MASK
                                  EXYNOS_TMU_REF_VOLTAGE_SHIFT)) in
  let con :=
    Z.lor con (u32_shl (reference_voltage pdata)
                       EXYNOS_TMU_REF_VOLTAGE_SHIFT) in
  let con :=
    Z.land con (u32_not (Z.shiftl EXYNOS_TMU_BUF_SLOPE_SEL_MASK
                                  EXYNOS_TMU_BUF_SLOPE_SEL_SHIFT)) in
  let con :=
    Z.lor con (u32_shl (gain pdata) EXYNOS_TMU_BUF_SLOPE_SEL_SHIFT) in
  if noise_cancel_mode pdata =? 0 then con
  else
    let con :=
      Z.land con (u32_not (Z.shiftl EXYNOS_TMU_TRIP_MODE_MASK
                                    EXYNOS_TMU_TRIP_MODE_SHIFT)) in
    Z.lor con (u32_shl (noise_cancel_mode pdata) EXYNOS_TMU_TRIP_MODE_SHIFT).

(** The value of [interrupt_en] built from the valid trips:
    [(of_thermal_is_trip_valid(tz, 7) << EXYNOS_TMU_INTEN_RISE7_SHIFT) | ...
     | (of_thermal_is_trip_valid(tz, 0) << EXYNOS_TMU_INTEN_RISE0_SHIFT)],
    then [interrupt_en |= interrupt_en << EXYNOS_TMU_INTEN_FALL0_SHIFT]. *)
Definition interrupt_en_on (tz : thermal_zone_device) : Z :=
  let bit (i : nat) :=
    Z.shiftl (Z.b2z (of_thermal_is_trip_valid tz i)) (Z.of_nat i) in
  let interrupt_en :=
    Z.lor (bit 7%nat) (Z.lor (bit 6%nat) (Z.lor (bit 5%nat) (Z.lor (bit 4%nat)
      (Z.lor (bit 3%nat) (Z.lor (bit 2%nat) (Z.lor (bit 1%nat) (bit 0%nat))))))) in
  Z.lor interrupt_en (u32_shl interrupt_en EXYNOS_TMU_INTEN_FALL0_SHIFT).

(** [static void exynos8890_tmu_clear_irqs(struct exynos_tmu_data *data)]
    (lines 1297-1303) *)
Definition exynos8890_tmu_clear_irqs (data : exynos_tmu_data) : M unit :=
  val_irq <- readl (base data + EXYNOS_TMU_REG_INTPEND0) ;;
  writel val_irq (base data + EXYNOS_TMU_REG_INTPEND0).

(** [static void exynos8895_tmu_clear_irqs(struct exynos_tmu_data *data)]
    (lines 1305-1321) *)
Definition exynos8895_tmu_clear_irqs (data : exynos_tmu_data) : M unit :=
  for_each sensor_indices
    (fun i (_ : unit) =>
       if sensor_active data i then
         let pend_reg :=
           if Nat.ltb i 5 then
             u32_add EXYNOS_TMU_REG_INTPEND0
                     (u32_mul EXYNOS_TMU_REG_INTPEN_OFFSET (Z.of_nat i))
           else
             u32_add EXYNOS_TMU_REG_INTPEND5
                     (u32_mul EXYNOS_TMU_REG_INTPEN_OFFSET (Z.of_nat i)) in
         val_irq <- readl (base data + pend_reg) ;;
         writel val_irq (base data + pend_reg)
       else ret tt)
    tt.

(** [data->tmu_clear_irqs(data)], bound by [exynos_map_dt_data]. *)
Definition tmu_clear_irqs (data : exynos_tmu_data) : M unit :=
  match soc data with
  | SOC_ARCH_EXYNOS8890 => exynos8890_tmu_clear_irqs data
  | SOC_ARCH_EXYNOS8895 => exynos8895_tmu_clear_irqs data
  end.

(** The body of the threshold loop for trip [i], the same text in both
    variants, writing at register offset [reg_off] and half-word
    [bit_off]; [falling_threshold] is carried from one iteration to the
    next. *)
Definition program_trip (data : exynos_tmu_data) (tz : thermal_zone_device)
  (reg_off bit_off : Z) (i : nat) (falling_threshold : Z) : M Z :=
  let temp := get_trip_temp tz i in
  temp <- lift (int_div temp MCELSIUS) ;;
  let temp_hist := get_trip_hyst tz i in
  q <- lift (int_div temp_hist MCELSIUS) ;;
  let temp_hist := int_sub temp q in
  threshold_code <- lift (temp_to_code data temp) ;;
  rising_threshold <- readl (base data + EXYNOS_THD_TEMP_RISE7_6 + reg_off) ;;
  let rising_threshold :=
    Z.land rising_threshold
           (u32_not (Z.shiftl EXYNOS_TMU_TEMP_MASK (16 * bit_off))) in
  let rising_threshold :=
    Z.lor rising_threshold (u32_shl threshold_code (16 * bit_off)) in
  writel rising_threshold (base data + EXYNOS_THD_TEMP_RISE7_6 + reg_off) ;;;
  threshold_code <- lift (temp_to_code data temp_hist) ;;
  let falling_threshold :=
    Z.land falling_threshold
           (u32_not (Z.shiftl EXYNOS_TMU_TEMP_MASK (16 * bit_off))) in
  let falling_threshold :=
    Z.lor falling_threshold (u32_shl threshold_code (16 * bit_off)) in
  writel falling_threshold (base data + EXYNOS_THD_TEMP_FALL7_6 + reg_off) ;;;
  ret falling_threshold.

(** The values of [i] in
    [for (i = (of_thermal_get_ntrips(tz) - 1); i >= 0; i--)]. *)
Definition trip_indices_down (tz : thermal_zone_device) : list nat :=
  rev (seq 0 (of_thermal_get_ntrips tz)).

(** [static int exynos8890_tmu_initialize(struct platform_device *pdev)]
    (lines 819-899); the data it leaves behind is returned with the
    status. *)
Definition exynos8890_tmu_initialize (data : exynos_tmu_data)
  : M (Z * exynos_tmu_data) :=
  trim_info <- readl (base data + EXYNOS_TMU_REG_TRIMINFO) ;;
  let data :=
    set_cal_type data
      (Z.land (Z.shiftr trim_info EXYNOS_TMU_CALIB_SEL_SHIFT)
              EXYNOS_TMU_CALIB_SEL_MASK) in
  let data := set_temp_error1 data (Z.land trim_info EXYNOS_TMU_TEMP_MASK) in
  let data :=
    set_temp_error2 data
      (Z.land (Z.shiftr trim_info EXYNOS_TMU_TRIMINFO_85_P0_SHIFT)
              EXYNOS_TMU_TEMP_MASK) in
  let data :=
    if temp_error1 data =? 0 then
      set_temp_error1 data
        (Z.land (efuse_value (pdata data)) EXYNOS_TMU_TEMP_MASK)
    else data in
  let data :=
    if temp_error2 data =? 0 then
      set_temp_error2 data
        (Z.land (Z.shiftr (efuse_value (pdata data))
                          EXYNOS_TMU_TRIMINFO_85_P0_SHIFT)
                EXYNOS_TMU_TEMP_MASK)
    else data in
  tz <- deref (tzd data) ;;
  for_each (trip_indices_down tz)
    (fun i falling_threshold =>
       program_trip data tz (reg_off (Z.of_nat i)) (bit_off (Z.of_nat i))
                    i falling_threshold)
    0 ;;;
  tmu_clear_irqs data ;;;
  ret (0, data).

(** The first loop of [exynos8895_tmu_initialize]: calibration data of the
    main sensor ([i = 0]) and of the remote sensors. *)
Definition read_trim_info (i : nat) (data : exynos_tmu_data)
  : M exynos_tmu_data :=
  if sensor_active data i then
    trim_info <- readl (base data + EXYNOS_TMU_REG_TRIMINFO + 0x4 * Z.of_nat i) ;;
    let cal :=
      Z.land (Z.shiftr trim_info EXYNOS_TMU_CALIB_SEL_SHIFT)
             EXYNOS_TMU_CALIB_SEL_MASK in
    let err1 :=
      let e := Z.land trim_info EXYNOS_TMU_TEMP_MASK in
      if e =? 0 then Z.land (efuse_value (pdata data)) EXYNOS_TMU_TEMP_MASK
      else e in
    let err2 :=
      let e :=
        Z.land (Z.shiftr trim_info EXYNOS_TMU_TRIMINFO_85_P0_SHIFT)
               EXYNOS_TMU_TEMP_MASK in
      if e =? 0 then
        Z.land (Z.shiftr (efuse_value (pdata data))
                         EXYNOS_TMU_TRIMINFO_85_P0_SHIFT)
               EXYNOS_TMU_TEMP_MASK
      else e in
    if Nat.eqb i 0 then
      let data := set_cal_type data cal in
      let data := set_temp_error1 data err1 in
      ret (if cal_type (pdata data) =? TYPE_TWO_POINT_TRIMMING
           then set_temp_error2 data err2 else data)
    else
      let data :=
        set_remote_sensor data i
          (fun r => {| rs_cal_type := to_u16 cal;
                       rs_temp_error1 := err1;
                       rs_temp_error2 := rs_temp_error2 r |}) in
      ret (if cal_type (pdata data) =? TYPE_TWO_POINT_TRIMMING
           then set_remote_sensor data i
                  (fun r => {| rs_cal_type := rs_cal_type r;
                               rs_temp_error1 := rs_temp_error1 r;
                               rs_temp_error2 := err2 |})
           else data)
  else ret data.

(** [static int exynos8895_tmu_initialize(struct platform_device *pdev)]
    (lines 954-1071) *)
Definition exynos8895_tmu_initialize (data : exynos_tmu_data)
  : M (Z * exynos_tmu_data) :=
  data <- for_each sensor_indices read_trim_info data ;;
  tz <- deref (tzd data) ;;
  (if negb (governor_is_power_allocator tz) then
     for_each sensor_indices
       (fun j falling_threshold =>
          if sensor_active data j then
            for_each (trip_indices_down tz)
              (fun i falling_threshold =>
                 program_trip data tz (reg_off_sensor j (Z.of_nat i))
                              (bit_off (Z.of_nat i)) i falling_threshold)
              falling_threshold
          else ret falling_threshold)
       0 ;;;
     ret tt
   else ret tt) ;;;
  tmu_clear_irqs data ;;;
  ret (0, data).

(** [data->tmu_initialize(pdev)] under [data->lock]:
    [static int exynos_tmu_initialize(struct platform_device *pdev)]
    (lines 780-790) *)
Definition exynos_tmu_initialize (data : exynos_tmu_data)
  : M (Z * exynos_tmu_data) :=
  match soc data with
  | SOC_ARCH_EXYNOS8890 => exynos8890_tmu_initialize data
  | SOC_ARCH_EXYNOS8895 => exynos8895_tmu_initialize data
  end.

(** The [on]/[off] settings of [con] and [interrupt_en], the same text in
    both variants of [tmu_control]. *)
Definition control_bits (tz : option thermal_zone_device) (on : bool)
  (con t_buf_vref_sel t_buf_slope_sel : Z) : M (Z * Z) :=
  if on then
    let con := Z.lor con (u32_shl t_buf_vref_sel EXYNOS_TMU_REF_VOLTAGE_SHIFT) in
    let con :=
      Z.lor con (u32_shl t_buf_slope_sel EXYNOS_TMU_BUF_SLOPE_SEL_SHIFT) in
    let con := Z.lor con (Z.shiftl 1 EXYNOS_TMU_CORE_EN_SHIFT) in
    let con := Z.lor con (Z.shiftl 1 EXYNOS_TMU_THERM_TRIP_EN_SHIFT) in
    tz <- deref tz ;;
    ret (con, interrupt_en_on tz)
  else
    let con := Z.land con (u32_not (Z.shiftl 1 EXYNOS_TMU_CORE_EN_SHIFT)) in
    let con :=
      Z.land con (u32_not (Z.shiftl 1 EXYNOS_TMU_THERM_TRIP_EN_SHIFT)) in
    ret (con, 0).

(** [static void exynos8890_tmu_control(struct platform_device *pdev, bool on)]
    (lines 901-952) *)
Definition exynos8890_tmu_control (data : exynos_tmu_data) (on : bool)
  : M unit :=
  trim_info <- readl (base data + EXYNOS_TMU_REG_TRIMINFO) ;;
  trim_info1 <- readl (base data + EXYNOS_TMU_REG_TRIMINFO1) ;;
  let t_buf_vref_sel :=
    Z.land (Z.shiftr trim_info EXYNOS_TMU_T_BUF_VREF_SEL_SHIFT)
           EXYNOS_TMU_T_BUF_VREF_SEL_MASK in
  let t_buf_slope_sel :=
    Z.land (Z.shiftr trim_info1 EXYNOS_TMU_T_BUF_SLOPE_SEL_SHIFT)
           EXYNOS_TMU_T_BUF_SLOPE_SEL_MASK in
  con <- readl (base data + EXYNOS_TMU_REG_CONTROL) ;;
  let con := get_con_reg data con in
  ci <- control_bits (tzd data) on con t_buf_vref_sel t_buf_slope_sel ;;
  let '(con, interrupt_en) := ci in
  writel interrupt_en (base data + EXYNOS_TMU_REG_INTEN) ;;;
  writel con (base data + EXYNOS_TMU_REG_CONTROL).

(** [static void exynos8895_tmu_control(struct platform_device *pdev, bool on)]
    (lines 1073-1147) *)
Definition exynos8895_tmu_control (data : exynos_tmu_data) (on : bool)
  : M unit :=
  con <- readl (base data + EXYNOS_TMU_REG_CONTROL) ;;
  let con := Z.land con (u32_not (Z.shiftl 1 EXYNOS_TMU_CORE_EN_SHIFT)) in
  let con := Z.land con (u32_not (Z.shiftl 1 EXYNOS_TMU_THERM_TRIP_EN_SHIFT)) in
  writel con (base data + EXYNOS_TMU_REG_CONTROL) ;;;
  trim_info <- readl (base data + EXYNOS_TMU_REG_TRIMINFO) ;;
  trim_info1 <- readl (base data + EXYNOS_TMU_REG_TRIMINFO1) ;;
  trim_info2 <- readl (base data + EXYNOS_TMU_REG_TRIMINFO2) ;;
  let t_buf_vref_sel :=
    Z.land (Z.shiftr trim_info EXYNOS_TMU_T_BUF_VREF_SEL_SHIFT)
           EXYNOS_TMU_T_BUF_VREF_SEL_MASK in
  let t_buf_slope_sel :=
    Z.land (Z.shiftr trim_info1 EXYNOS_TMU_T_BUF_SLOPE_SEL_SHIFT)
           EXYNOS_TMU_T_BUF_SLOPE_SEL_MASK in
  let avg_sel :=
    Z.land (Z.shiftr trim_info2 EXYNOS_TMU_AVG_CON_SHIFT)
           EXYNOS_TMU_AVG_CON_MASK in
  con <- readl (base data + EXYNOS_TMU_REG_CONTROL) ;;
  let con := get_con_reg data con in
  avg_con <- readl (base data + EXYNOS_TMU_REG_AVG_CON) ;;
  let avg_con :=
    if avg_sel =? 0 then
      Z.lor avg_con (Z.lor (Z.land avg_con EXYNOS_TMU_AVG_MODE_MASK)
                           EXYNOS_TMU_AVG_MODE_4)
    else
      Z.lor avg_con (Z.lor (Z.land avg_con EXYNOS_TMU_AVG_MODE_MASK)
                           EXYNOS_TMU_AVG_MODE_DEFAULT) in
  ci <- control_bits (tzd data) on con t_buf_vref_sel t_buf_slope_sel ;;
  let '(con, interrupt_en) := ci in
  tz <- deref (tzd data) ;;
  (if negb (governor_is_power_allocator tz) then
     for_each sensor_indices
       (fun i (_ : unit) =>
          if sensor_active data i then
            writel interrupt_en
                   (base data + EXYNOS_TMU_REG_INTEN + 0x10 * Z.of_nat i)
          else ret tt)
       tt
   else ret tt) ;;;
  writel con (base data + EXYNOS_TMU_REG_CONTROL) ;;;
  writel avg_con (base data + EXYNOS_TMU_REG_AVG_CON).

(** [data->tmu_control(pdev, on)] under [data->lock]:
    [static void exynos_tmu_control(struct platform_device *pdev, bool on)]
    (lines 810-817) *)
Definition exynos_tmu_control (data : exynos_tmu_data) (on : bool) : M unit :=
  match soc data with
  | SOC_ARCH_EXYNOS8890 => exynos8890_tmu_control data on
  | SOC_ARCH_EXYNOS8895 => exynos8895_tmu_control data on
  end.

(** [static int exynos8890_tmu_read(struct exynos_tmu_data *data)]
    (lines 1229-1233) *)
Definition exynos8890_tmu_read (data : exynos_tmu_data) : M Z :=
  v <- readw (base data + EXYNOS_TMU_REG_CURRENT_TEMP1_0) ;;
  ret (Z.land v EXYNOS_TMU_TEMP_MASK).

(** The code of sensor [i]:
    [(readl(data->base + EXYNOS_TMU_REG_CURRENT_TEMP1_0 + reg_offset)
      >> bit_offset) & EXYNOS_TMU_TEMP_MASK] *)
Definition read_sensor_code (data : exynos_tmu_data) (i : nat) : M Z :=
  let i := Z.of_nat i in
  let reg_offset :=
    if i <? 2 then 0
    else to_u32 (int_mul (int_add (Z.quot (int_sub i 2) 3) 1) 4) in
  let bit_offset :=
    if i <? 2 then to_u32 (int_mul EXYNOS_TMU_TEMP_SHIFT i)
    else to_u32 (int_mul EXYNOS_TMU_TEMP_SHIFT (Z.rem (int_sub i 2) 3)) in
  v <- readl (base data + EXYNOS_TMU_REG_CURRENT_TEMP1_0 + reg_offset) ;;
  ret (Z.land (Z.shiftr v bit_offset) EXYNOS_TMU_TEMP_MASK).

(** [static int exynos8895_tmu_read(struct exynos_tmu_data *data)]
    (lines 1235-1280); the loop carries [(count, result)], both [u32] and
    both starting at 0, and the final [result / count] of the AVG policy
    has no guard on [count]. *)
Definition exynos8895_tmu_read (data : exynos_tmu_data) : M Z :=
  cr <- for_each sensor_indices
          (fun i (cr : Z * Z) =>
             let '(count, result) := cr in
             if sensor_active data i then
               temp_data_i <- read_sensor_code data i ;;
               let count := u32_add count 1 in
               let result :=
                 if sensing_mode data =? AVG then u32_add result temp_data_i
                 else if sensing_mode data =? MAX then
                   (if result >? temp_data_i then result else temp_data_i)
                 else if sensing_mode data =? MIN then
                   (if result <? temp_data_i then result else temp_data_i)
                 else temp_data_i in
               ret (count, result)
             else ret (count, result))
          (0, 0) ;;
  let '(count, result) := cr in
  result <- (if sensing_mode data =? AVG then lift (u32_div result count)
             else ret result) ;;
  ret (to_int result).

(** [data->tmu_read(data)] *)
Definition tmu_read (data : exynos_tmu_data) : M Z :=
  match soc data with
  | SOC_ARCH_EXYNOS8890 => exynos8890_tmu_read data
  | SOC_ARCH_EXYNOS8895 => exynos8895_tmu_read data
  end.

(** [static int exynos_get_temp(void *p, int *temp)] (lines 1148-1175):
    the status and the value stored through [temp], if any.  [p] is [None] for a NULL pointer;
    [data->tmu_read] is bound for every [soc_type]. *)
Definition exynos_get_temp (p : option exynos_tmu_data) : M (Z * option Z) :=
  match p with
  | None => ret (- EINVAL, None)
  | Some data =>
      code <- tmu_read data ;;
      t <- lift (code_to_temp data code) ;;
      let temp := int_mul t MCELSIUS in
      match cool_dev data with
      | None => ret (0, Some temp)
      | Some cdev =>
          (if has_set_cur_temp cdev && negb (id data =? 1) then
             s <- get_suspended ;;
             q <- lift (int_div temp 1000) ;;
             emit (EvSetCurTemp cdev s q)
           else ret tt) ;;;
          ret (0, Some temp)
      end
  end.

(** [static void exynos_report_trigger(struct exynos_tmu_data *p)]
    (lines 688-713); the [pr_err] of the NULL branch leaves no mark on the
    world. *)
Definition exynos_report_trigger (p : exynos_tmu_data) : M unit :=
  match tzd p with
  | None => ret tt
  | Some tz =>
      tz <- thermal_zone_device_update tz ;;
      let i := trip_level tz in
      emit (EvUevent (snprintf_u 10 i))
  end.

(** [static void exynos_tmu_work(struct work_struct *work)]
    (lines 1282-1295) *)
Definition exynos_tmu_work (data : exynos_tmu_data) : M unit :=
  exynos_report_trigger data ;;;
  tmu_clear_irqs data ;;;
  emit (EvEnableIrq (irq data)).

(** Values of [linux/suspend.h] and [linux/notifier.h]. *)
Definition PM_SUSPEND_PREPARE : Z := 0x0003.
Definition PM_POST_SUSPEND : Z := 0x0004.
Definition NOTIFY_OK : Z := 0x0001.

(** [static int exynos_pm_notifier(struct notifier_block *notifier,
                                   unsigned long event, void *v)]
    (lines 1333-1359) *)
Definition exynos_pm_notifier (event : Z) : M Z :=
  (if event =? PM_SUSPEND_PREPARE then
     set_suspended true ;;;
     l <- get_dtm_dev_list ;;
     for_each l
       (fun devnode (_ : unit) =>
          match cool_dev devnode with
          | Some cdev =>
              if has_set_cur_temp cdev && negb (id devnode =? 1) then
                s <- get_suspended ;;
                emit (EvSetCurTemp cdev s 0)
              else ret tt
          | None => ret tt
          end)
       tt
   else if event =? PM_POST_SUSPEND then set_suspended false
   else ret tt) ;;;
  ret NOTIFY_OK.

(** [static int exynos_throttle_cpu_hotplug(void *p, int temp)]
    (lines 1601-1634).  [data->cool_dev] is dereferenced on entry. *)
Definition exynos_throttle_cpu_hotplug (data : exynos_tmu_data) (temp : Z)
  : M Z :=
  cdev <- deref (cool_dev data) ;;
  let cpufreq_device := cdev_handle cdev in
  temp <- lift (int_div temp MCELSIUS) ;;
  hotplugged_out <- get_is_cpu_hotplugged_out ;;
  (if hotplugged_out then
     if temp <? hotplug_in_threshold data then
       emit (EvPmQosUpdateRequest NR_CPUS) ;;;
       set_is_cpu_hotplugged_out false ;;;
       set_cpufreq_state cpufreq_device 0
     else ret tt
   else
     if temp >=? hotplug_out_threshold data then
       set_is_cpu_hotplugged_out true ;;;
       emit (EvPmQosUpdateRequest NR_HOTPLUG_CPUS)
     else ret tt) ;;;
  ret 0.

(** What the collaborators of [exynos_tmu_probe] answer for one platform
    device: the cpufreq table lookup, the allocation, [exynos_map_dt_data]
    (status and the data it fills in), the cooling table and cooling device
    registration for the device's id, the thermal zone registration
    ([inl] is an [IS_ERR] value) and [devm_request_irq]. *)
Record platform_device : Type := {
  pd_cpufreq_table : bool;
  pd_kzalloc : bool;
  pd_map_dt_data : Z * exynos_tmu_data;
  pd_cooling_table_init : Z;
  pd_cooling_register : Z * option thermal_cooling_device;
  pd_sensor_register : Z + thermal_zone_device;
  pd_request_irq : Z
}.

(** [list_is_singular(&dtm_dev_list)] *)
Definition list_is_singular {A} (l : list A) : bool :=
  match l with
  | [_] => true
  | _ => false
  end.

(** The cooling registration step of [exynos_tmu_probe], by device id. *)
Definition cooling_register (pdev : platform_device) (data : exynos_tmu_data)
  : Z * exynos_tmu_data :=
  let '(r, cdev) := pd_cooling_register pdev in
  if (id data =? 0) || (id data =? 1) then (r, set_cool_dev data cdev)
  else if (id data =? 2) || (id data =? 3) then
    if negb (pd_cooling_table_init pdev =? 0)
    then (pd_cooling_table_init pdev, data)
    else (r, set_cool_dev data cdev)
  else (0, data).

(** [static int exynos_tmu_probe(struct platform_device *pdev)]
    (lines 1770-1871) *)
Definition exynos_tmu_probe (pdev : platform_device) : M Z :=
  if negb (pd_cpufreq_table pdev) then ret (- EPROBE_DEFER)
  else if negb (pd_kzalloc pdev) then ret (- ENOMEM)
  else
    let '(r, data) := pd_map_dt_data pdev in
    if negb (r =? 0) then ret r
    else
      let '(r, data) := cooling_register pdev data in
      if negb (r =? 0) then ret r
      else
        (if hotplug_enable data then emit EvPmQosAddRequest else ret tt) ;;;
        match pd_sensor_register pdev with
        | inl err => ret err
        | inr tz =>
            let data := set_tzd data (Some tz) in
            rd <- exynos_tmu_initialize data ;;
            let '(r, data) := rd in
            if negb (r =? 0) then emit EvSensorUnregister ;;; ret r
            else if negb (pd_request_irq pdev =? 0) then
              emit EvSensorUnregister ;;; ret (pd_request_irq pdev)
            else
              exynos_tmu_control data true ;;;
              l <- get_dtm_dev_list ;;
              set_dtm_dev_list (l ++ [data]) ;;;
              l <- get_dtm_dev_list ;;
              (if list_is_singular l then register_pm_notifier else ret tt) ;;;
              emit EvSetMode ;;;
              ret 0
        end.

(** The loop of lines 1886-1890,

      [list_for_each_entry(devnode, &dtm_dev_list, node) {
         if (devnode->id == data->id) list_del(&devnode->node); }]

    at the entries [rest] that are still ahead, [before] being the
    entries already passed.  The traversal is the plain one, not
    [list_for_each_entry_safe]: after the body it moves on through
    [devnode->node.next].  [list_del] unlinks the entry from the list and
    sets that field to [LIST_POISON1], so after an unlink the cursor is at
    no entry of the list; the comparison with the list head does not stop
    the loop, and the body reads [devnode->id] through the poisoned
    pointer.  Without a matching entry the loop ends at the list head. *)
Fixpoint remove_loop (data : exynos_tmu_data)
  (before rest : list exynos_tmu_data) : M unit :=
  match rest with
  | [] => ret tt
  | devnode :: rest' =>
      if id devnode =? id data then
        set_dtm_dev_list (before ++ rest') ;;;
        lift (Fault PoisonedPointer)
      else remove_loop data (before ++ [devnode]) rest'
  end.

(** [static int exynos_tmu_remove(struct platform_device *pdev)]
    (lines 1873-1894), on the device data of [pdev]. *)
Definition exynos_tmu_remove (data : exynos_tmu_data) : M Z :=
  l <- get_dtm_dev_list ;;
  (if list_is_singular l then unregister_pm_notifier else ret tt) ;;;
  emit EvSensorUnregister ;;;
  exynos_tmu_control data false ;;;
  l <- get_dtm_dev_list ;;
  remove_loop data [] l ;;;
  ret 0.

(** [static int exynos_tmu_suspend(struct device *dev)] (lines 1897-1902) *)
Definition exynos_tmu_suspend (data : exynos_tmu_data) : M Z :=
  exynos_tmu_control data false ;;;
  ret 0.

(** [static int exynos_tmu_resume(struct device *dev)] (lines 1904-1912) *)
Definition exynos_tmu_resume (data : exynos_tmu_data) : M Z :=
  rd <- exynos_tmu_initialize data ;;
  exynos_tmu_control (snd rd) true ;;;
  ret 0.

End Driver.

(** ** Concrete inputs

    A header with sample values for the constants of [exynos_tmu.h], and
    devices and register files on which the driver is evaluated. *)

Definition sample_header : exynos_tmu_h :=
  {| EXYNOS_MIN_TEMP := 10;
     EXYNOS_MAX_TEMP := 125;
     TYPE_ONE_POINT_TRIMMING := 0;
     TYPE_TWO_POINT_TRIMMING := 1;
     AVG := 0;
     MAX := 1;
     MIN := 2;
     NR_CPUS := 8;
     NR_HOTPLUG_CPUS := 4;
     cal_type_labels := ltac:(discriminate);
     sensing_labels :=
       ltac:(repeat split; discriminate) |}.

Definition sample_pdata (cal te_off : Z) : exynos_tmu_platform_data :=
  {| gain := 5; reference_voltage := 16; noise_cancel_mode := 4;
     efuse_value := 0; first_point_trim := 25; second_point_trim := 85;
     default_temp_offset := te_off; cal_type := cal |}.

Definition sample_zone (gov : string) : thermal_zone_device :=
  {| last_temperature := 0;
     trips := [ {| trip_temperature := 76000; trip_hysteresis := 2000 |};
                {| trip_temperature := 81000; trip_hysteresis := 2000 |};
                {| trip_temperature := 86000; trip_hysteresis := 2000 |} ];
     governor_name := gov |}.

Definition sample_cdev (h : nat) : thermal_cooling_device :=
  {| cdev_handle := h; has_set_cur_temp := true |}.

(** A device of the given variant, id, calibration and sensor setup. *)
Definition sample_data (s : soc_type) (dev_id cal te1 te2 mask mode : Z)
  (gov : string) : exynos_tmu_data :=
  {| id := dev_id; hotplug_enable := true;
     hotplug_in_threshold := 70; hotplug_out_threshold := 85;
     pdata := sample_pdata cal 50;
     base := 0x10060000; irq := 40; soc := s;
     temp_error1 := te1; temp_error2 := te2;
     tzd := Some (sample_zone gov);
     cool_dev := Some (sample_cdev (Z.to_nat dev_id));
     sensors := mask;
     remote_sensors :=
       fun _ => {| rs_cal_type := 0; rs_temp_error1 := 0; rs_temp_error2 := 0 |};
     sensing_mode := mode |}.

(** A world whose registers read [f] and where nothing has happened yet. *)
Definition initial_world (f : Z -> Z) : world :=
  {| mmio := f; suspended := false; is_cpu_hotplugged_out := false;
     dtm_dev_list := []; pm_notifier_registered := 0%nat;
     cpufreq_state := fun _ => 0; trace := [] |}.

(** Registers in which sensors 0, 1 and 2 of the device at [b] report the
    codes 10, 20 and 30. *)
Definition regs_10_20_30 (b : Z) : Z -> Z :=
  fun a =>
    if a =? b + 0x40 then Z.lor 10 (Z.shiftl 20 9)
    else if a =? b + 0x44 then 30
    else 0.


(** ** Notions used to state the properties *)

(** The outcome of running [m] from [w]: [Q] holds of the value and final
    world when there is one, and [F] says whether a fault is tolerated
    ([True]: partial correctness, [False]: the run must complete). *)
Definition post {A} (F : Prop) (m : M A) (w : world)
  (Q : A -> world -> Prop) : Prop :=
  match m w with
  | Ok (a, w') => Q a w'
  | Fault _ => F
  end.

(** The file-scope variables are the same in both worlds. *)
Definition same_globals (w w' : world) : Prop :=
  suspended w' = suspended w /\
  is_cpu_hotplugged_out w' = is_cpu_hotplugged_out w /\
  dtm_dev_list w' = dtm_dev_list w /\
  pm_notifier_registered w' = pm_notifier_registered w /\
  cpufreq_state w' = cpufreq_state w.

(** From [w] to [w'] only registers allowed by [ok] were written: the
    events added are such writes, the other registers and the file-scope
    variables are as before. *)
Definition only_writes (ok : Z -> bool) (w w' : world) : Prop :=
  same_globals w w' /\
  (exists new, trace w' = trace w ++ new /\
               Forall (fun e => exists val addr,
                                  e = EvWritel val addr /\ ok addr = true) new) /\
  (forall addr, ok addr = false -> mmio w' addr = mmio w addr).

(** The trip indices the hardware has thresholds for. *)
Definition trip_slots : list Z := [0; 1; 2; 3; 4; 5; 6; 7].

(** Offsets of the rising and falling threshold registers: the ones
    [program_trip] is given, by either variant, for a sensor index and a
    trip slot. *)
Definition threshold_offsets : list Z :=
  flat_map
    (fun j =>
       flat_map
         (fun i => [EXYNOS_THD_TEMP_RISE7_6 + reg_off_sensor j i;
                    EXYNOS_THD_TEMP_FALL7_6 + reg_off_sensor j i])
         trip_slots)
    sensor_indices.

(** Offsets of the interrupt-enable registers:
    [EXYNOS_TMU_REG_INTEN + 0x10 * i] for a sensor index [i]. *)
Definition inten_offsets : list Z :=
  map (fun i => EXYNOS_TMU_REG_INTEN + 0x10 * Z.of_nat i) sensor_indices.

(** Offsets of the pending-interrupt registers written by
    [exynos8895_tmu_clear_irqs] and [exynos8890_tmu_clear_irqs]. *)
Definition intpend_offsets : list Z :=
  map
    (fun i =>
       if Nat.ltb i 5 then
         u32_add EXYNOS_TMU_REG_INTPEND0
                 (u32_mul EXYNOS_TMU_REG_INTPEN_OFFSET (Z.of_nat i))
       else
         u32_add EXYNOS_TMU_REG_INTPEND5
                 (u32_mul EXYNOS_TMU_REG_INTPEN_OFFSET (Z.of_nat i)))
    sensor_indices.

(** Offsets of the control and averaging registers. *)
Definition control_offsets : list Z :=
  [EXYNOS_TMU_REG_CONTROL; EXYNOS_TMU_REG_AVG_CON].

(** [addr] is a register of the device at one of the offsets [offs]. *)
Definition reg_among (offs : list Z) (data : exynos_tmu_data) (addr : Z)
  : bool :=
  existsb (Z.eqb (addr - base data)) offs.

Definition is_threshold_reg := reg_among threshold_offsets.
Definition is_inten_reg := reg_among inten_offsets.
Definition is_intpend_reg := reg_among intpend_offsets.
Definition is_control_reg := reg_among control_offsets.

(** The calibration loop may change [data], but not the fields that say
    which device it is. *)
Definition same_device (d d' : exynos_tmu_data) : Prop :=
  tzd d' = tzd d /\ base d' = base d /\ soc d' = soc d /\
  sensors d' = sensors d /\ id d' = id d /\ cool_dev d' = cool_dev d.

(** No sensor index has its bit set in [data->sensors]. *)
Definition no_active_sensor (data : exynos_tmu_data) : Prop :=
  forall i, In i sensor_indices -> sensor_active data i = false.

(** What PM_SUSPEND_PREPARE pushes to the cooling device of one registered
    device, in the words of the specification: nothing for device id 1,
    and [set_cur_temp(cdev, true, 0)] for any other device bound to a
    cooling device that has the operation. *)
Definition suspend_push (d : exynos_tmu_data) : list event :=
  if id d =? 1 then []
  else
    match cool_dev d with
    | Some cdev =>
        if has_set_cur_temp cdev then [EvSetCurTemp cdev true 0] else []
    | None => []
    end.

(** The PM notifier is on the chain once if the registry has a device, and
    not at all if it has none. *)
Definition notifier_inv (w : world) : Prop :=
  pm_notifier_registered w =
  match dtm_dev_list w with
  | [] => 0%nat
  | _ :: _ => 1%nat
  end.

Definition with_thresholds (data : exynos_tmu_data) (t_in t_out : Z)
  : exynos_tmu_data :=
  {| id := id data; hotplug_enable := hotplug_enable data;
     hotplug_in_threshold := t_in;
     hotplug_out_threshold := t_out;
     pdata := pdata data;
     base := base data; irq := irq data; soc := soc data;
     temp_error1 := temp_error1 data; temp_error2 := temp_error2 data;
     tzd := tzd data; cool_dev := cool_dev data; sensors := sensors data;
     remote_sensors := remote_sensors data;
     sensing_mode := sensing_mode data |}.

Definition set_sensing_mode (data : exynos_tmu_data) (mode : Z)
  : exynos_tmu_data :=
  {| id := id data; hotplug_enable := hotplug_enable data;
     hotplug_in_threshold := hotplug_in_threshold data;
     hotplug_out_threshold := hotplug_out_threshold data;
     pdata := pdata data;
     base := base data; irq := irq data; soc := soc data;
     temp_error1 := temp_error1 data; temp_error2 := temp_error2 data;
     tzd := tzd data; cool_dev := cool_dev data; sensors := sensors data;
     remote_sensors := remote_sensors data;
     sensing_mode := mode |}.

(** A framework update that finds the zone at temperature [t]. *)
Definition sample_update (t : Z) : thermal_zone_device -> M thermal_zone_device :=
  fun tz =>
    ret {| last_temperature := t; trips := trips tz;
           governor_name := governor_name tz |}.

(** A world with the given throttle state and device registry, whose
    registers read [f]. *)
Definition sample_world (f : Z -> Z) (hotplugged_out : bool)
  (devs : list exynos_tmu_data) (registered : nat) : world :=
  {| mmio := f; suspended := false; is_cpu_hotplugged_out := hotplugged_out;
     dtm_dev_list := devs; pm_notifier_registered := registered;
     cpufreq_state := fun _ => 0; trace := [] |}.

(** Every register. *)
Definition any_reg : Z -> bool := fun _ => true.

(** The registry and the notifier registration are the same in both
    worlds. *)
Definition same_registry (w w' : world) : Prop :=
  dtm_dev_list w' = dtm_dev_list w /\
  pm_notifier_registered w' = pm_notifier_registered w.

(** A platform device for which every collaborator of probe succeeds and
    [exynos_map_dt_data] yields [d]. *)
Definition sample_pdev (d : exynos_tmu_data) : platform_device :=
  {| pd_cpufreq_table := true;
     pd_kzalloc := true;
     pd_map_dt_data := (0, d);
     pd_cooling_table_init := 0;
     pd_cooling_register := (0, cool_dev d);
     pd_sensor_register := inr (sample_zone "step_wise");
     pd_request_irq := 0 |}.

(** The ids in the registry and the number of notifier registrations at
    the end of a run. *)
Definition registry_view {A} (r : result (A * world)) : option (list Z * nat) :=
  match r with
  | Ok (_, w) => Some (map id (dtm_dev_list w), pm_notifier_registered w)
  | Fault _ => None
  end.

(** The device [data] mapped at another base address. *)
Definition at_base (data : exynos_tmu_data) (b : Z) : exynos_tmu_data :=
  {| id := id data; hotplug_enable := hotplug_enable data;
     hotplug_in_threshold := hotplug_in_threshold data;
     hotplug_out_threshold := hotplug_out_threshold data;
     pdata := pdata data;
     base := b; irq := irq data; soc := soc data;
     temp_error1 := temp_error1 data; temp_error2 := temp_error2 data;
     tzd := tzd data; cool_dev := cool_dev data; sensors := sensors data;
     remote_sensors := remote_sensors data;
     sensing_mode := sensing_mode data |}.

(** Some event of [t] is a write to a register at one of the offsets
    [offs] of the device. *)
Definition writes_among (offs : list Z) (data : exynos_tmu_data)
  (t : list event) : bool :=
  existsb
    (fun e =>
       match e with
       | EvWritel _ addr => reg_among offs data addr
       | _ => false
       end)
    t.

(** The trace at the end of a run. *)
Definition trace_of {A} (r : result (A * world)) : list event :=
  match r with
  | Ok (_, w) => trace w
  | Fault _ => []
  end.

(** Every device of the registry has a thermal zone. *)
Definition registered_have_zone (l : list exynos_tmu_data) : Prop :=
  Forall (fun d => tzd d <> None) l.

(** A device calibrated in mode [cal] with trim points [p1], [p2] and
    fused codes [e1], [e2]. *)
Definition calibrated (cal p1 p2 e1 e2 : Z) : exynos_tmu_data :=
  {| id := 0; hotplug_enable := false;
     hotplug_in_threshold := 0; hotplug_out_threshold := 0;
     pdata := {| gain := 5; reference_voltage := 16; noise_cancel_mode := 4;
                 efuse_value := 0; first_point_trim := p1;
                 second_point_trim := p2; default_temp_offset := 50;
                 cal_type := cal |};
     base := 0x10060000; irq := 40; soc := SOC_ARCH_EXYNOS8895;
     temp_error1 := e1; temp_error2 := e2;
     tzd := None; cool_dev := None; sensors := 1;
     remote_sensors :=
       fun _ => {| rs_cal_type := 0; rs_temp_error1 := 0; rs_temp_error2 := 0 |};
     sensing_mode := 0 |}.

(** The throttle state and the requests made so far, at the end of a
    run. *)
Definition throttle_view {A} (r : result (A * world))
  : option (bool * list event) :=
  match r with
  | Ok (_, w) => Some (is_cpu_hotplugged_out w, trace w)
  | Fault _ => None
  end.

(** The bounds of the valid temperature range are [u8] values in order. *)
Definition temp_range_typed {hdr : exynos_tmu_h} : Prop :=
  0 <= EXYNOS_MIN_TEMP /\ EXYNOS_MIN_TEMP <= EXYNOS_MAX_TEMP /\
  EXYNOS_MAX_TEMP <= 255.

(** [temp] brought into the valid range. *)
Definition clamp_temp {hdr : exynos_tmu_h} (temp : Z) : Z :=
  Z.max EXYNOS_MIN_TEMP (Z.min EXYNOS_MAX_TEMP temp).

(** The code that sensor [i] of [data] reports in the world [w]: the value
    [temp_data[i]] of the read loop. *)
Definition sensor_code (data : exynos_tmu_data) (w : world) (i : nat) : Z :=
  match read_sensor_code data i w with
  | Ok (code, _) => code
  | Fault _ => 0
  end.

(** The codes of the active sensors among the indices [l], in the order of
    [l]. *)
Definition active_codes (data : exynos_tmu_data) (w : world) (l : list nat)
  : list Z :=
  map (sensor_code data w) (filter (sensor_active data) l).

Definition sum_codes (l : list Z) : Z := fold_right Z.add 0 l.

(** The pending-interrupt register of sensor [i], as
    [exynos8895_tmu_clear_irqs] computes [pend_reg]. *)
Definition pend_reg (i : nat) : Z :=
  if Nat.ltb i 5 then
    u32_add EXYNOS_TMU_REG_INTPEND0
            (u32_mul EXYNOS_TMU_REG_INTPEN_OFFSET (Z.of_nat i))
  else
    u32_add EXYNOS_TMU_REG_INTPEND5
            (u32_mul EXYNOS_TMU_REG_INTPEN_OFFSET (Z.of_nat i)).

(** The write that acknowledges what is pending in the register at
    [addr]: the value read is written back. *)
Definition ack (w : world) (addr : Z) : event :=
  EvWritel (to_u32 (mmio w addr)) addr.

(** The acknowledgements [data->tmu_clear_irqs] makes from the world
    [w]. *)
Definition ack_events (data : exynos_tmu_data) (w : world) : list event :=
  match soc data with
  | SOC_ARCH_EXYNOS8890 => [ack w (base data + EXYNOS_TMU_REG_INTPEND0)]
  | SOC_ARCH_EXYNOS8895 =>
      map (fun i => ack w (base data + pend_reg i))
          (filter (sensor_active data) sensor_indices)
  end.

(** ** Temperature emulation ([CONFIG_THERMAL_EMULATION]) *)

Definition EXYNOS_EMUL_DATA_SHIFT : Z := 7.
Definition EXYNOS_EMUL_DATA_MASK : Z := 0x1FF.
Definition EXYNOS_EMUL_ENABLE : Z := 0x1.
Definition EXYNOS_TMU_REG_EMUL_CON : Z := 0x160.

(** [static u32 get_emul_con_reg(struct exynos_tmu_data *data,
                                 unsigned int val, int temp)]
    (lines 1178-1193).  The code is an [int], shifted and or-ed as an
    [int], and converted to [unsigned int] when it is or-ed into [val]. *)
Definition get_emul_con_reg {hdr : exynos_tmu_h} (data : exynos_tmu_data)
  (val temp : Z) : result Z :=
  if negb (temp =? 0) then
    rbind (int_div temp MCELSIUS) (fun temp =>
    let val :=
      Z.land val (u32_not (Z.shiftl EXYNOS_EMUL_DATA_MASK
                                    EXYNOS_EMUL_DATA_SHIFT)) in
    rbind (temp_to_code data temp) (fun code =>
    Ok (Z.lor val
              (to_u32 (Z.lor (to_int (Z.shiftl code EXYNOS_EMUL_DATA_SHIFT))
                             EXYNOS_EMUL_ENABLE)))))
  else Ok (Z.land val (u32_not EXYNOS_EMUL_ENABLE)).

(** [static void exynos8890_tmu_set_emulation(struct exynos_tmu_data *data,
                                              int temp)]
    (lines 1195-1206), bound to [data->tmu_set_emulation] for both
    variants. *)
Definition exynos8890_tmu_set_emulation {hdr : exynos_tmu_h}
  (data : exynos_tmu_data) (temp : Z) : M unit :=
  let emul_con := EXYNOS_TMU_REG_EMUL_CON in
  val <- readl (base data + emul_con) ;;
  val <- lift (get_emul_con_reg data val temp) ;;
  writel val (base data + emul_con).

(** [static int exynos_tmu_set_emulation(void *drv_data, int temp)]
    (lines 1208-1222) *)
Definition exynos_tmu_set_emulation {hdr : exynos_tmu_h}
  (data : exynos_tmu_data) (temp : Z) : M Z :=
  if negb (temp =? 0) && (temp <? MCELSIUS) then ret (- EINVAL)
  else
    exynos8890_tmu_set_emulation data temp ;;;
    ret 0.

(** The number of remote sensors that [exynos_map_dt_data] counts
    (lines 1447-1454):
    [for (i = 1; i < 8; i++) if (data->sensors & (1 << i))
       data->num_of_remotes++;]
    from the 0 of the zeroed [data]; [data->remote_sensors] is then
    allocated with that many entries. *)
Definition num_of_remotes (data : exynos_tmu_data) : nat :=
  fold_left (fun n i => if sensor_active data i then S n else n)
            (seq 1 7) 0%nat.

(** ** Threshold fields

    A threshold register holds two 9-bit codes: field 0 in bits 8..0 and
    field 1 in bits 24..16. *)
Definition threshold_field (k v : Z) : Z :=
  Z.land (Z.shiftr v (16 * k)) EXYNOS_TMU_TEMP_MASK.

(** [v &= ~(EXYNOS_TMU_TEMP_MASK << (16 * bit_off));
     v |= threshold_code << (16 * bit_off);] *)
Definition put_field (k code v : Z) : Z :=
  Z.lor (Z.land v (u32_not (Z.shiftl EXYNOS_TMU_TEMP_MASK (16 * k))))
        (u32_shl code (16 * k)).

(** The codes [program_trip] computes for trip [i]: of the trip
    temperature, and of the trip temperature less the hysteresis, both in
    whole degrees. *)
Definition rising_code {hdr : exynos_tmu_h} (data : exynos_tmu_data)
  (tz : thermal_zone_device) (i : nat) : result Z :=
  rbind (int_div (get_trip_temp tz i) MCELSIUS) (fun temp =>
  temp_to_code data temp).

Definition falling_code {hdr : exynos_tmu_h} (data : exynos_tmu_data)
  (tz : thermal_zone_device) (i : nat) : result Z :=
  rbind (int_div (get_trip_temp tz i) MCELSIUS) (fun temp =>
  rbind (int_div (get_trip_hyst tz i) MCELSIUS) (fun q =>
  temp_to_code data (int_sub temp q))).

(** The calibration [exynos8890_tmu_initialize] takes from the value
    [trim_info] of the TRIMINFO register, before it programs the
    thresholds. *)
Definition trimmed_8890 (data : exynos_tmu_data) (trim_info : Z)
  : exynos_tmu_data :=
  let data :=
    set_cal_type data
      (Z.land (Z.shiftr trim_info EXYNOS_TMU_CALIB_SEL_SHIFT)
              EXYNOS_TMU_CALIB_SEL_MASK) in
  let data := set_temp_error1 data (Z.land trim_info EXYNOS_TMU_TEMP_MASK) in
  let data :=
    set_temp_error2 data
      (Z.land (Z.shiftr trim_info EXYNOS_TMU_TRIMINFO_85_P0_SHIFT)
              EXYNOS_TMU_TEMP_MASK) in
  let data :=
    if temp_error1 data =? 0 then
      set_temp_error1 data
        (Z.land (efuse_value (pdata data)) EXYNOS_TMU_TEMP_MASK)
    else data in
  if temp_error2 data =? 0 then
    set_temp_error2 data
      (Z.land (Z.shiftr (efuse_value (pdata data))
                        EXYNOS_TMU_TRIMINFO_85_P0_SHIFT)
              EXYNOS_TMU_TEMP_MASK)
  else data.

(** The threshold registers at the offsets [ro] hold the codes [cr] and
    [cf] of the trips [m] to [n - 1], each in the field of its trip. *)
Definition thresholds_hold (data : exynos_tmu_data) (ro : nat -> Z)
  (cr cf : nat -> Z) (m n : nat) (w : world) : Prop :=
  forall i, (m <= i < n)%nat ->
    threshold_field (bit_off (Z.of_nat i))
      (mmio w (base data + EXYNOS_THD_TEMP_RISE7_6 + ro i)) = cr i /\
    threshold_field (bit_off (Z.of_nat i))
      (mmio w (base data + EXYNOS_THD_TEMP_FALL7_6 + ro i)) = cf i.

(** ** The system power-management driver

    The first part of [exynos-pm.c]: the syscore suspend and resume
    callbacks, the platform suspend [enter] callback and the report of the
    wake-up reason.  [pm_info] and [pm_dbg] are the two file-scope
    records; the PMU, the power-mode layer, PSCI and the GPIO layer are
    collaborators, whose answers are given by a [platform] and whose calls
    are recorded in order.  [pr_debug] lines leave no mark. *)

Module Pm.

Definition WAKEUP_STAT_EINT : Z := Z.shiftl 1 0.
Definition WAKEUP_STAT_RTC_ALARM : Z := Z.shiftl 1 1.
Definition EXYNOS_PMU_WAKEUP_STAT : Z := 0x0600.
Definition EXYNOS_PMU_EINT_WAKEUP_MASK : Z := 0x060C.

(** [#define EXYNOS_EINT_PEND(b, x) ((b) + 0xA00 + (((x) >> 3) * 4))] *)
Definition EXYNOS_EINT_PEND (b x : Z) : Z := b + 0xA00 + Z.shiftr x 3 * 4.

(** [struct exynos_pm_info] *)
Record exynos_pm_info : Type := {
  eint_base : Z;
  gic_base : Z;
  num_eint : Z;
  num_gic : Z;
  is_early_wakeup : bool;
  is_cp_call : bool;
  suspend_mode_idx : Z;
  suspend_psci_idx : Z;
  cp_call_mode_idx : Z;
  cp_call_psci_idx : Z
}.

(** [struct exynos_pm_dbg] *)
Record exynos_pm_dbg : Type := {
  test_early_wakeup : Z;
  test_cp_call : Z
}.

(** The [pr_info] lines of the driver. *)
Inductive message : Type :=
| MsgSleepCanceled
| MsgEarlyWakeup
| MsgEintPendHeader
| MsgPendValue (v : Z)
| MsgGicPendHeader
| MsgGicPend (i v : Z)
| MsgDone
| MsgRtcAlarm
| MsgUnknownEint
| MsgWakeupStat (v : Z)
| MsgReturnToOriginator.

(** Calls made to collaborators. *)
Inductive call : Type :=
| PrepareSysPowerdown (mode : Z) (is_suspend : bool)
| WakeupSysPowerdown (mode : Z) (early_wakeup : bool)
| SendCallFunctionSingleIpi (cpu : Z)
| CpuidleSuspend (index : Z)
| LogWakeupReason (irq : Z)
| UpdateWakeupReasonStats (irq eint : Z)
| PrInfo (m : message).

(** What the collaborators answer. *)
Record platform : Type := {
  exynos_check_cp_status : Z;
  is_cp_aud_enabled : bool;
  arm_cpuidle_suspend : Z -> Z;
  exynos_pmu_read : Z -> Z;
  raw_readl : Z -> Z;
  exynos_eint_to_pin_num : Z -> Z;
  gpio_to_irq : Z -> Z
}.

Record state : Type := {
  pm_info : exynos_pm_info;
  pm_dbg : exynos_pm_dbg;
  calls : list call
}.

Definition record (l : list call) (s : state) : state :=
  {| pm_info := pm_info s; pm_dbg := pm_dbg s; calls := calls s ++ l |}.

Definition set_is_cp_call (s : state) (b : bool) : state :=
  {| pm_info :=
       {| eint_base := eint_base (pm_info s); gic_base := gic_base (pm_info s);
          num_eint := num_eint (pm_info s); num_gic := num_gic (pm_info s);
          is_early_wakeup := is_early_wakeup (pm_info s);
          is_cp_call := b;
          suspend_mode_idx := suspend_mode_idx (pm_info s);
          suspend_psci_idx := suspend_psci_idx (pm_info s);
          cp_call_mode_idx := cp_call_mode_idx (pm_info s);
          cp_call_psci_idx := cp_call_psci_idx (pm_info s) |};
     pm_dbg := pm_dbg s; calls := calls s |}.

Definition set_is_early_wakeup (s : state) (b : bool) : state :=
  {| pm_info :=
       {| eint_base := eint_base (pm_info s); gic_base := gic_base (pm_info s);
          num_eint := num_eint (pm_info s); num_gic := num_gic (pm_info s);
          is_early_wakeup := b;
          is_cp_call := is_cp_call (pm_info s);
          suspend_mode_idx := suspend_mode_idx (pm_info s);
          suspend_psci_idx := suspend_psci_idx (pm_info s);
          cp_call_mode_idx := cp_call_mode_idx (pm_info s);
          cp_call_psci_idx := cp_call_psci_idx (pm_info s) |};
     pm_dbg := pm_dbg s; calls := calls s |}.

(** [pm_info->is_cp_call || pm_dbg->test_cp_call] *)
Definition cp_call_scenario (s : state) : bool :=
  is_cp_call (pm_info s) || negb (test_cp_call (pm_dbg s) =? 0).

(** The values of [i] in
    [for (i = 0, size = 8; i < pm_info->num_eint; i += size)]. *)
Definition eint_groups (n : Z) : list Z :=
  map (fun k => 8 * Z.of_nat k) (seq 0 (Z.to_nat ((n + 7) / 8))).

(** [for_each_set_bit(bit, &v, size)]: the set bits among the lowest
    [size] bits of [v], in rising order. *)
Definition for_each_set_bit (v : Z) (size : nat) : list Z :=
  filter (Z.testbit v) (map Z.of_nat (seq 0 size)).

(** The body of the inner loop of [exynos_show_wakeup_reason_eint] for the
    pending bit [bit] of group [i], on the loop-carried [found] and the
    calls made so far; [None] when [1 << (i + bit)] is not defined for an
    [int]. *)
Definition report_eint (p : platform) (eint_wakeup_mask i : Z)
  (acc : option (bool * list call)) (bit : Z) : option (bool * list call) :=
  match acc with
  | None => None
  | Some (found, l) =>
      if 31 <=? i + bit then None
      else if negb (Z.land eint_wakeup_mask (Z.shiftl 1 (i + bit)) =? 0)
      then Some (found, l)
      else
        let gpio := exynos_eint_to_pin_num p (i + bit) in
        let irq := gpio_to_irq p gpio in
        Some (true,
              l ++ [LogWakeupReason irq; UpdateWakeupReasonStats irq (i + bit)])
  end.

(** [static void exynos_show_wakeup_reason_eint(void)] (lines 66-102),
    with [CONFIG_SUSPEND]. *)
Definition exynos_show_wakeup_reason_eint (p : platform) (s : state)
  : option state :=
  let val := exynos_pmu_read p EXYNOS_PMU_EINT_WAKEUP_MASK in
  let eint_wakeup_mask := val in
  let r :=
    fold_left
      (fun acc i =>
         let ext_int_pend :=
           raw_readl p (EXYNOS_EINT_PEND (eint_base (pm_info s)) i) in
         fold_left (report_eint p eint_wakeup_mask i)
                   (for_each_set_bit ext_int_pend 8) acc)
      (eint_groups (num_eint (pm_info s)))
      (Some (false, [])) in
  match r with
  | None => None
  | Some (found, l) =>
      Some (record (l ++ if found then [] else [PrInfo MsgUnknownEint]) s)
  end.

(** [static void exynos_show_wakeup_reason(bool sleep_abort)]
    (lines 104-133) *)
Definition exynos_show_wakeup_reason (p : platform) (sleep_abort : bool)
  (s : state) : option state :=
  if sleep_abort then
    Some
      (record
         ([PrInfo MsgEarlyWakeup; PrInfo MsgEintPendHeader]
          ++ map (fun i =>
                    PrInfo (MsgPendValue
                              (raw_readl p
                                 (EXYNOS_EINT_PEND (eint_base (pm_info s)) i))))
                 (eint_groups (num_eint (pm_info s)))
          ++ [PrInfo MsgGicPendHeader]
          ++ map (fun i =>
                    PrInfo (MsgGicPend (Z.of_nat i)
                              (raw_readl p
                                 (gic_base (pm_info s) + Z.of_nat i * 4))))
                 (seq 0 (Z.to_nat (num_gic (pm_info s))))
          ++ [PrInfo MsgDone])
         s)
  else
    let wakeup_stat := exynos_pmu_read p EXYNOS_PMU_WAKEUP_STAT in
    if negb (Z.land wakeup_stat WAKEUP_STAT_RTC_ALARM =? 0) then
      Some (record [PrInfo MsgRtcAlarm] s)
    else if negb (Z.land wakeup_stat WAKEUP_STAT_EINT =? 0) then
      exynos_show_wakeup_reason_eint p s
    else Some (record [PrInfo (MsgWakeupStat wakeup_stat)] s).

(** [static int exynos_pm_syscore_suspend(void)] (lines 232-252) *)
Definition exynos_pm_syscore_suspend (p : platform) (s : state)
  : Z * state :=
  if exynos_check_cp_status p =? 0 then
    (- EINVAL, record [PrInfo MsgSleepCanceled] s)
  else
    let s := set_is_cp_call s (is_cp_aud_enabled p) in
    if cp_call_scenario s then
      (0, record [PrepareSysPowerdown (cp_call_mode_idx (pm_info s)) true] s)
    else
      (0, record [PrepareSysPowerdown (suspend_mode_idx (pm_info s)) true] s).

(** [static void exynos_pm_syscore_resume(void)] (lines 254-266) *)
Definition exynos_pm_syscore_resume (p : platform) (s : state)
  : option state :=
  let s :=
    if cp_call_scenario s then
      record [WakeupSysPowerdown (cp_call_mode_idx (pm_info s))
                                 (is_early_wakeup (pm_info s))] s
    else
      record [WakeupSysPowerdown (suspend_mode_idx (pm_info s))
                                 (is_early_wakeup (pm_info s))] s in
  exynos_show_wakeup_reason p (is_early_wakeup (pm_info s)) s.

(** [static int exynos_pm_enter(suspend_state_t state)] (lines 273-295) *)
Definition exynos_pm_enter (p : platform) (s : state) : Z * state :=
  let psci_index :=
    if cp_call_scenario s then cp_call_psci_idx (pm_info s)
    else suspend_psci_idx (pm_info s) in
  let s :=
    if negb (test_early_wakeup (pm_dbg s) =? 0)
    then record [SendCallFunctionSingleIpi 0] s else s in
  let s := record [CpuidleSuspend psci_index] s in
  let s :=
    set_is_early_wakeup s (negb (arm_cpuidle_suspend p psci_index =? 0)) in
  let s :=
    if is_early_wakeup (pm_info s)
    then record [PrInfo MsgReturnToOriginator] s else s in
  (Z.b2z (is_early_wakeup (pm_info s)), s).

(** The external interrupt [e] is pending, and is masked as a wake-up
    source. *)
Definition eint_pending (p : platform) (s : state) (e : Z) : bool :=
  Z.testbit (raw_readl p (EXYNOS_EINT_PEND (eint_base (pm_info s)) e))
            (e mod 8).

Definition eint_masked (p : platform) (e : Z) : bool :=
  Z.testbit (exynos_pmu_read p EXYNOS_PMU_EINT_WAKEUP_MASK) e.

(** What is reported for the external interrupt [e]. *)
Definition eint_report (p : platform) (e : Z) : list call :=
  let irq := gpio_to_irq p (exynos_eint_to_pin_num p e) in
  [LogWakeupReason irq; UpdateWakeupReasonStats irq e].

(** A platform and a state to run the callbacks on. *)
Definition sample_platform (cp_status : Z) (aud : bool) (wake pend : Z)
  : platform :=
  {| exynos_check_cp_status := cp_status;
     is_cp_aud_enabled := aud;
     arm_cpuidle_suspend := fun _ => 0;
     exynos_pmu_read :=
       fun r => if r =? EXYNOS_PMU_WAKEUP_STAT then wake else 0x4;
     raw_readl := fun _ => pend;
     exynos_eint_to_pin_num := fun e => 100 + e;
     gpio_to_irq := fun g => 2 * g |}.

Definition sample_state (test_cp : Z) : state :=
  {| pm_info :=
       {| eint_base := 0x11000000; gic_base := 0x10100000;
          num_eint := 12; num_gic := 2;
          is_early_wakeup := false; is_cp_call := false;
          suspend_mode_idx := 8; suspend_psci_idx := 1024;
          cp_call_mode_idx := 4; cp_call_psci_idx := 133 |};
     pm_dbg := {| test_early_wakeup := 0; test_cp_call := test_cp |};
     calls := [] |}.

End Pm.

(** The calls that only report: log lines and wake-up statistics. *)
Definition is_report (c : Pm.call) : bool :=
  match c with
  | Pm.PrInfo _ | Pm.LogWakeupReason _ | Pm.UpdateWakeupReasonStats _ _ => true
  | _ => false
  end.

(** The reports for the external interrupts among [l] that are pending
    and not masked, in the order of [l]. *)
Definition eint_reports (p : Pm.platform) (s : Pm.state) (l : list Z)
  : list Pm.call :=
  flat_map
    (fun e =>
       if Pm.eint_pending p s e && negb (Pm.eint_masked p e)
       then Pm.eint_report p e else [])
    l.

(** The external interrupts the scan looks at: whole groups of eight. *)
Definition scanned_eints (s : Pm.state) : list Z :=
  map Z.of_nat
      (seq 0 (8 * Z.to_nat ((Pm.num_eint (Pm.pm_info s) + 7) / 8))).

(** ** Sensor configuration from the device tree *)

(** [of_property_read_u32(np, name, &out)] on a node given by its [u32]
    properties: the value of the property when the node has it; [out] is
    left as it was otherwise. *)
Definition of_property_read_u32 (np : string -> option Z) (name : string)
  (out : Z) : Z :=
  match np name with
  | Some v => to_u32 v
  | None => out
  end.

(** [static int exynos_of_sensor_conf(struct device_node *np,
                                      struct exynos_tmu_platform_data *pdata)]
    (lines 1382-1411).  The local [value] is not initialised: it holds
    [value0] on entry.  The results of the reads are not looked at. *)
Definition exynos_of_sensor_conf (np : string -> option Z)
  (pdata : exynos_tmu_platform_data) (value0 : Z)
  : Z * exynos_tmu_platform_data :=
  let value := of_property_read_u32 np "samsung,tmu_gain" value0 in
  let pdata_gain := to_u8 value in
  let value :=
    of_property_read_u32 np "samsung,tmu_reference_voltage" value in
  let pdata_reference_voltage := to_u8 value in
  let value :=
    of_property_read_u32 np "samsung,tmu_noise_cancel_mode" value in
  let pdata_noise_cancel_mode := to_u8 value in
  let pdata_efuse_value :=
    of_property_read_u32 np "samsung,tmu_efuse_value" (efuse_value pdata) in
  let value :=
    of_property_read_u32 np "samsung,tmu_first_point_trim" value in
  let pdata_first_point_trim := to_u8 value in
  let value :=
    of_property_read_u32 np "samsung,tmu_second_point_trim" value in
  let pdata_second_point_trim := to_u8 value in
  let value :=
    of_property_read_u32 np "samsung,tmu_default_temp_offset" value in
  let pdata_default_temp_offset := to_u8 value in
  let pdata_cal_type :=
    of_property_read_u32 np "samsung,tmu_cal_type" (cal_type pdata) in
  (0,
   {| gain := pdata_gain;
      reference_voltage := pdata_reference_voltage;
      noise_cancel_mode := pdata_noise_cancel_mode;
      efuse_value := pdata_efuse_value;
      first_point_trim := pdata_first_point_trim;
      second_point_trim := pdata_second_point_trim;
      default_temp_offset := pdata_default_temp_offset;
      cal_type := pdata_cal_type |}).

(** [data] with the platform data [p]. *)
Definition with_pdata (data : exynos_tmu_data) (p : exynos_tmu_platform_data)
  : exynos_tmu_data :=
  {| id := id data; hotplug_enable := hotplug_enable data;
     hotplug_in_threshold := hotplug_in_threshold data;
     hotplug_out_threshold := hotplug_out_threshold data;
     pdata := p;
     base := base data; irq := irq data; soc := soc data;
     temp_error1 := temp_error1 data; temp_error2 := temp_error2 data;
     tzd := tzd data; cool_dev := cool_dev data; sensors := sensors data;
     remote_sensors := remote_sensors data;
     sensing_mode := sensing_mode data |}.

(** A device-tree node with the properties listed. *)
Definition sample_node (props : list (string * Z)) : string -> option Z :=
  fun name =>
    match find (fun kv => String.eqb (fst kv) name) props with
    | Some kv => Some (snd kv)
    | None => None
    end.

(** The value that [exynos8890_tmu_control] and [exynos8895_tmu_control]
    write to the control register for [on]: [get_con_reg] of the value
    [con] read from it, with the fused selections of [trim_info] and
    [trim_info1] and the two enable bits or-ed in. *)
Definition enable_con (data : exynos_tmu_data) (con trim_info trim_info1 : Z)
  : Z :=
  let t_buf_vref_sel :=
    Z.land (Z.shiftr trim_info EXYNOS_TMU_T_BUF_VREF_SEL_SHIFT)
           EXYNOS_TMU_T_BUF_VREF_SEL_MASK in
  let t_buf_slope_sel :=
    Z.land (Z.shiftr trim_info1 EXYNOS_TMU_T_BUF_SLOPE_SEL_SHIFT)
           EXYNOS_TMU_T_BUF_SLOPE_SEL_MASK in
  let con := get_con_reg data con in
  let con := Z.lor con (u32_shl t_buf_vref_sel EXYNOS_TMU_REF_VOLTAGE_SHIFT) in
  let con := Z.lor con (u32_shl t_buf_slope_sel EXYNOS_TMU_BUF_SLOPE_SEL_SHIFT) in
  let con := Z.lor con (Z.shiftl 1 EXYNOS_TMU_CORE_EN_SHIFT) in
  Z.lor con (Z.shiftl 1 EXYNOS_TMU_THERM_TRIP_EN_SHIFT).

(** * Properties *)

(** ** Integer conversions *)

Lemma to_u8_id z : is_u8 z -> to_u8 z = z.
Proof. unfold is_u8, to_u8. intros H. apply Z.mod_small. exact H. Qed.

Lemma to_u16_id z : is_u16 z -> to_u16 z = z.
Proof. unfold is_u16, to_u16. intros H. apply Z.mod_small. exact H. Qed.

Lemma to_u32_id z : is_u32 z -> to_u32 z = z.
Proof. unfold is_u32, to_u32. intros H. apply Z.mod_small. exact H. Qed.

Lemma to_int_id z : is_int z -> to_int z = z.
Proof.
  unfold is_int, to_int. intros H.
  rewrite Z.mod_small by lia. lia.
Qed.

Lemma quot_abs_le a b : Z.abs (Z.quot a b) <= Z.abs a.
Proof.
  destruct (Z.eq_dec b 0) as [-> | Hb].
  - destruct a; cbn; lia.
  - rewrite <- Z.quot_abs by exact Hb.
    apply Z.quot_le_upper_bound; nia.
Qed.

(** Scaling by [dc / dp] and back by [dp / dc], both truncating, moves a
    value by at most one when the first ratio is at least 1 in size. *)
Lemma quot_there_and_back x dc dp :
  dp <> 0 -> Z.abs dp <= Z.abs dc ->
  Z.abs (Z.quot (Z.quot (x * dc) dp * dp) dc - x) <= 1.
Proof.
  intros Hdp Hle.
  assert (Hdc : dc <> 0) by lia.
  pose proof (Z.quot_rem' (x * dc) dp) as E1.
  pose proof (Z.rem_bound_abs (x * dc) dp Hdp) as B1.
  set (y := Z.quot (x * dc) dp) in *.
  pose proof (Z.quot_rem' (y * dp) dc) as E2.
  pose proof (Z.rem_bound_abs (y * dp) dc Hdc) as B2.
  set (q := Z.quot (y * dp) dc) in *.
  set (r1 := Z.rem (x * dc) dp) in *.
  set (r2 := Z.rem (y * dp) dc) in *.
  assert (E : dc * (x - q) = r1 + r2) by lia.
  assert (B : Z.abs (r1 + r2) < 2 * Z.abs dc) by lia.
  rewrite <- E in B. rewrite Z.abs_mul in B.
  assert (Z.abs (x - q) < 2) by nia.
  lia.
Qed.

(** ** Calibration round trip *)

Section CalibrationFacts.

Context {hdr : exynos_tmu_h}.

Lemma clamp_keeps_close (t temp : Z) :
  EXYNOS_MIN_TEMP <= temp <= EXYNOS_MAX_TEMP ->
  Z.abs (t - temp) <= 1 ->
  Z.abs ((if t >? EXYNOS_MAX_TEMP then EXYNOS_MAX_TEMP
          else if t <? EXYNOS_MIN_TEMP then EXYNOS_MIN_TEMP
          else t) - temp) <= 1.
Proof.
  intros Hr Ht.
  destruct (Z.gtb_spec t EXYNOS_MAX_TEMP); [lia|].
  destruct (Z.ltb_spec t EXYNOS_MIN_TEMP); lia.
Qed.

Lemma temp_not_clamped (temp : Z) :
  is_u8 temp -> EXYNOS_MIN_TEMP <= temp <= EXYNOS_MAX_TEMP ->
  (if to_u8 temp >? EXYNOS_MAX_TEMP then to_u8 EXYNOS_MAX_TEMP
   else if to_u8 temp <? EXYNOS_MIN_TEMP then to_u8 EXYNOS_MIN_TEMP
   else to_u8 temp) = temp.
Proof.
  intros Hu Hr. rewrite (to_u8_id temp Hu).
  destruct (Z.gtb_spec temp EXYNOS_MAX_TEMP); [lia|].
  destruct (Z.ltb_spec temp EXYNOS_MIN_TEMP); [lia|reflexivity].
Qed.

(** DEFAULT_OFFSET mode: the round trip is exact. *)
Lemma round_trip_default_offset (data : exynos_tmu_data) (temp : Z) :
  calib_fields_typed data ->
  is_u8 temp -> EXYNOS_MIN_TEMP <= temp <= EXYNOS_MAX_TEMP ->
  cal_type (pdata data) <> TYPE_TWO_POINT_TRIMMING ->
  cal_type (pdata data) <> TYPE_ONE_POINT_TRIMMING ->
  round_trip data temp = Ok temp.
Proof.
  intros (_ & _ & _ & _ & Hoff) Hu Hr H2 H1.
  unfold round_trip, temp_to_code, code_to_temp.
  rewrite (temp_not_clamped temp Hu Hr).
  apply Z.eqb_neq in H2, H1. rewrite H2, H1. cbn [rbind].
  unfold is_u8 in *.
  unfold int_add, int_sub.
  rewrite (to_int_id (temp + _)) by (unfold is_int; lia).
  rewrite to_u16_id by (unfold is_u16; lia).
  rewrite to_int_id by (unfold is_int; lia).
  replace (temp + default_temp_offset (pdata data)
           - default_temp_offset (pdata data)) with temp by lia.
  destruct (Z.gtb_spec temp EXYNOS_MAX_TEMP); [lia|].
  destruct (Z.ltb_spec temp EXYNOS_MIN_TEMP); [lia|reflexivity].
Qed.

(** ONE_POINT mode: exact as long as the code fits the [u16] parameter. *)
Lemma round_trip_one_point (data : exynos_tmu_data) (temp : Z) :
  calib_fields_typed data ->
  is_u8 temp -> EXYNOS_MIN_TEMP <= temp <= EXYNOS_MAX_TEMP ->
  cal_type (pdata data) = TYPE_ONE_POINT_TRIMMING ->
  (forall code, temp_to_code data temp = Ok code -> is_u16 code) ->
  round_trip data temp = Ok temp.
Proof.
  intros (He1 & _ & Hp1 & _ & _) Hu Hr H1 Hfit.
  pose proof cal_type_labels as Hlab.
  unfold round_trip, code_to_temp. revert Hfit. unfold temp_to_code.
  rewrite (temp_not_clamped temp Hu Hr).
  assert (H2 : (cal_type (pdata data) =? TYPE_TWO_POINT_TRIMMING) = false)
    by (apply Z.eqb_neq; congruence).
  rewrite H2. apply Z.eqb_eq in H1. rewrite H1. cbn [rbind].
  unfold is_u8, is_u16 in *.
  unfold int_add, int_sub.
  rewrite (to_int_id (temp + _)) by (unfold is_int; lia).
  rewrite (to_int_id (temp + _ - _)) by (unfold is_int; lia).
  intros Hfit. specialize (Hfit _ eq_refl).
  rewrite to_u16_id by exact Hfit.
  rewrite (to_int_id (_ - temp_error1 data)) by (unfold is_int; lia).
  rewrite to_int_id by (unfold is_int; lia).
  replace (temp + temp_error1 data - first_point_trim (pdata data)
           - temp_error1 data + first_point_trim (pdata data)) with temp by lia.
  destruct (Z.gtb_spec temp EXYNOS_MAX_TEMP); [lia|].
  destruct (Z.ltb_spec temp EXYNOS_MIN_TEMP); [lia|reflexivity].
Qed.

(** TWO_POINT mode: within one degree when the trim points differ, the code
    span is at least the temperature span, and the code fits the [u16]
    parameter. *)
Lemma round_trip_two_point (data : exynos_tmu_data) (temp : Z) :
  calib_fields_typed data ->
  is_u8 temp -> EXYNOS_MIN_TEMP <= temp <= EXYNOS_MAX_TEMP ->
  cal_type (pdata data) = TYPE_TWO_POINT_TRIMMING ->
  second_point_trim (pdata data) <> first_point_trim (pdata data) ->
  Z.abs (second_point_trim (pdata data) - first_point_trim (pdata data))
    <= Z.abs (temp_error2 data - temp_error1 data) ->
  (forall code, temp_to_code data temp = Ok code -> is_u16 code) ->
  exists t, round_trip data temp = Ok t /\ Z.abs (t - temp) <= 1.
Proof.
  intros (He1 & He2 & Hp1 & Hp2 & _) Hu Hr H2 Hne Hspan.
  unfold round_trip, code_to_temp, temp_to_code.
  rewrite (temp_not_clamped temp Hu Hr).
  apply Z.eqb_eq in H2. rewrite H2.
  set (p1 := first_point_trim (pdata data)) in *.
  set (p2 := second_point_trim (pdata data)) in *.
  set (e1 := temp_error1 data) in *.
  set (e2 := temp_error2 data) in *.
  unfold is_u8, is_u16 in *.
  unfold int_sub, int_mul, int_add, int_div.
  rewrite (to_int_id (temp - p1)) by (unfold is_int; lia).
  rewrite (to_int_id (e2 - e1)) by (unfold is_int; lia).
  rewrite (to_int_id (p2 - p1)) by (unfold is_int; lia).
  rewrite (to_int_id ((temp - p1) * (e2 - e1))) by (unfold is_int; nia).
  assert (Hdp : (p2 - p1 =? 0) = false) by (apply Z.eqb_neq; lia).
  assert (Hdc : (e2 - e1 =? 0) = false) by (apply Z.eqb_neq; lia).
  rewrite Hdp. cbn [rbind].
  pose proof (quot_abs_le ((temp - p1) * (e2 - e1)) (p2 - p1)) as Hy.
  set (y := Z.quot ((temp - p1) * (e2 - e1)) (p2 - p1)) in *.
  assert (Hyb : Z.abs y < 2 ^ 24) by nia.
  rewrite (to_int_id y) by (unfold is_int; lia).
  rewrite (to_int_id (y + e1)) by (unfold is_int; lia).
  intros Hfit. specialize (Hfit _ eq_refl).
  rewrite to_u16_id by exact Hfit.
  rewrite (to_int_id (y + e1 - e1)) by (unfold is_int; lia).
  replace (y + e1 - e1) with y by lia.
  assert (Hyc : Z.abs y < 2 ^ 16) by lia.
  rewrite (to_int_id (y * (p2 - p1))) by (unfold is_int; nia).
  rewrite Hdc. cbn [rbind].
  pose proof (quot_abs_le (y * (p2 - p1)) (e2 - e1)) as Hq.
  pose proof (quot_there_and_back (temp - p1) (e2 - e1) (p2 - p1)
                ltac:(lia) Hspan) as Hback.
  fold y in Hback.
  set (q := Z.quot (y * (p2 - p1)) (e2 - e1)) in *.
  assert (Hqb : Z.abs q < 2 ^ 24) by nia.
  rewrite (to_int_id q) by (unfold is_int; lia).
  rewrite (to_int_id (q + p1)) by (unfold is_int; lia).
  eexists. split; [reflexivity|].
  apply clamp_keeps_close; [exact Hr | lia].
Qed.

(** C1 (amended): converting a temperature of the valid range to a code and
    back gives a temperature within one degree of it, in DEFAULT_OFFSET
    mode always, and in the trimming modes provided the code produced is
    representable in the [u16] parameter of [code_to_temp] and, for
    TWO_POINT, the trim points differ and the fused codes are at least as
    far apart as the trim points. *)
Theorem round_trip_within_one_degree (data : exynos_tmu_data) (temp : Z) :
  calib_fields_typed data ->
  is_u8 temp -> EXYNOS_MIN_TEMP <= temp <= EXYNOS_MAX_TEMP ->
  (cal_type (pdata data) = TYPE_TWO_POINT_TRIMMING ->
   second_point_trim (pdata data) <> first_point_trim (pdata data) /\
   Z.abs (second_point_trim (pdata data) - first_point_trim (pdata data))
     <= Z.abs (temp_error2 data - temp_error1 data)) ->
  (cal_type (pdata data) = TYPE_TWO_POINT_TRIMMING \/
   cal_type (pdata data) = TYPE_ONE_POINT_TRIMMING ->
   forall code, temp_to_code data temp = Ok code -> is_u16 code) ->
  exists t, round_trip data temp = Ok t /\ Z.abs (t - temp) <= 1.
Proof.
  intros Hty Hu Hr Htwo Hfit.
  destruct (Z.eq_dec (cal_type (pdata data)) TYPE_TWO_POINT_TRIMMING) as [E2|N2].
  - destruct (Htwo E2) as [Hne Hspan].
    apply round_trip_two_point; auto.
  - destruct (Z.eq_dec (cal_type (pdata data)) TYPE_ONE_POINT_TRIMMING)
      as [E1|N1].
    + exists temp. split; [|lia].
      apply round_trip_one_point; auto.
    + exists temp. split; [|lia].
      apply round_trip_default_offset; auto.
Qed.

(** Whatever the valid range is, as long as it spans three degrees: with
    trim points at its ends and fused codes 0 and 1, the temperature one
    below the maximum comes back as the minimum. *)
Lemma round_trip_fails_in_any_range :
  0 <= EXYNOS_MIN_TEMP -> EXYNOS_MIN_TEMP + 3 <= EXYNOS_MAX_TEMP ->
  EXYNOS_MAX_TEMP <= 255 ->
  let data :=
    calibrated TYPE_TWO_POINT_TRIMMING EXYNOS_MIN_TEMP EXYNOS_MAX_TEMP 0 1 in
  let temp := EXYNOS_MAX_TEMP - 1 in
  calib_fields_typed data /\
  temp_error2 data <> temp_error1 data /\
  EXYNOS_MIN_TEMP <= temp <= EXYNOS_MAX_TEMP /\
  round_trip data temp = Ok EXYNOS_MIN_TEMP /\
  1 < Z.abs (EXYNOS_MIN_TEMP - temp).
Proof.
  intros Hmin Hspan Hmax data temp.
  assert (Hu : is_u8 temp) by (unfold is_u8, temp; lia).
  assert (Hr : EXYNOS_MIN_TEMP <= temp <= EXYNOS_MAX_TEMP)
    by (unfold temp; lia).
  split; [|split; [|split; [|split]]].
  - unfold calib_fields_typed, is_u16, is_u8. cbn. lia.
  - cbn. lia.
  - exact Hr.
  - unfold round_trip, temp_to_code.
    rewrite (temp_not_clamped temp Hu Hr).
    cbn [data calibrated pdata cal_type first_point_trim second_point_trim
         temp_error1 temp_error2].
    rewrite Z.eqb_refl.
    unfold int_sub, int_mul, int_add, int_div, temp.
    rewrite (to_int_id (EXYNOS_MAX_TEMP - 1 - EXYNOS_MIN_TEMP))
      by (unfold is_int; lia).
    rewrite (to_int_id (1 - 0)) by (unfold is_int; lia).
    rewrite (to_int_id (EXYNOS_MAX_TEMP - EXYNOS_MIN_TEMP))
      by (unfold is_int; lia).
    replace ((EXYNOS_MAX_TEMP - 1 - EXYNOS_MIN_TEMP) * (1 - 0))
      with (EXYNOS_MAX_TEMP - 1 - EXYNOS_MIN_TEMP) by lia.
    rewrite (to_int_id (EXYNOS_MAX_TEMP - 1 - EXYNOS_MIN_TEMP))
      by (unfold is_int; lia).
    replace (EXYNOS_MAX_TEMP - EXYNOS_MIN_TEMP =? 0) with false
      by (symmetry; apply Z.eqb_neq; lia).
    rewrite Z.quot_small by lia.
    cbn [rbind]. unfold code_to_temp.
    cbn [data calibrated pdata cal_type first_point_trim second_point_trim
         temp_error1 temp_error2].
    rewrite Z.eqb_refl.
    unfold int_sub, int_mul, int_add, int_div.
    change (to_u16 (to_int (to_int 0 + 0))) with 0.
    change (to_int (0 - 0)) with 0.
    rewrite (to_int_id (EXYNOS_MAX_TEMP - EXYNOS_MIN_TEMP))
      by (unfold is_int; lia).
    change (to_int (1 - 0) =? 0) with false.
    change (to_int (1 - 0)) with 1.
    rewrite Z.mul_0_l. change (to_int 0) with 0.
    rewrite Z.quot_0_l by lia. change (to_int 0) with 0.
    cbn [rbind]. rewrite Z.add_0_l.
    rewrite (to_int_id EXYNOS_MIN_TEMP) by (unfold is_int; lia).
    cbn [rbind].
    destruct (Z.gtb_spec EXYNOS_MIN_TEMP EXYNOS_MAX_TEMP); [lia|].
    rewrite Z.ltb_irrefl. reflexivity.
  - unfold temp. lia.
Qed.

End CalibrationFacts.

Lemma round_trip_within_one_degree_witness :
  exists t,
    @round_trip sample_header
      (sample_data SOC_ARCH_EXYNOS8895 0 1 75 135 7 0 "step_wise") 50 = Ok t /\
    Z.abs (t - 50) <= 1.
Proof.
  apply (@round_trip_within_one_degree sample_header
           (sample_data SOC_ARCH_EXYNOS8895 0 1 75 135 7 0 "step_wise") 50).
  - unfold calib_fields_typed, is_u16, is_u8. cbn. lia.
  - unfold is_u8. lia.
  - cbn. lia.
  - intros _. cbn. lia.
  - intros _ code H. vm_compute in H. injection H as <-.
    unfold is_u16. lia.
Defined.

(** C1 (as stated) fails: in TWO_POINT mode with fused codes 100 and 101
    (different, as the claim asks) and trim points 25 and 85, the
    temperature 50 of the valid range comes back as 25. *)
Lemma round_trip_far_off :
  let data := sample_data SOC_ARCH_EXYNOS8895 0 1 100 101 7 0 "step_wise" in
  cal_type (pdata data) = @TYPE_TWO_POINT_TRIMMING sample_header /\
  temp_error2 data <> temp_error1 data /\
  @EXYNOS_MIN_TEMP sample_header <= 50 <= @EXYNOS_MAX_TEMP sample_header /\
  @temp_to_code sample_header data 50 = Ok 100 /\
  @code_to_temp sample_header data 100 = Ok 25 /\
  ~ Z.abs (25 - 50) <= 1.
Proof.
  cbn zeta. repeat split; try reflexivity; try (cbn; lia); discriminate.
Qed.

(** ** Reasoning about runs *)

Section Rules.

Variable F : Prop.

Lemma post_ret {A} (a : A) w (Q : A -> world -> Prop) :
  Q a w -> post F (ret a) w Q.
Proof. intros H. exact H. Qed.

Lemma post_bind {A B} (m : M A) (k : A -> M B) w (Q : B -> world -> Prop) :
  post F m w (fun a w' => post F (k a) w' Q) -> post F (bind m k) w Q.
Proof.
  unfold post, bind. destruct (m w) as [[a w']|f]; intros H; exact H.
Qed.

Lemma post_conseq {A} (m : M A) w (Q Q' : A -> world -> Prop) :
  (forall a w', Q a w' -> Q' a w') -> post F m w Q -> post F m w Q'.
Proof.
  unfold post. intros HQ. destruct (m w) as [[a w']|f]; auto.
Qed.

Lemma post_lift {A} (r : result A) w (Q : A -> world -> Prop) :
  match r with Ok a => Q a w | Fault _ => F end -> post F (lift r) w Q.
Proof. unfold post, lift. destruct r; intros H; exact H. Qed.

Lemma post_deref {A} (p : option A) w (Q : A -> world -> Prop) :
  match p with Some a => Q a w | None => F end -> post F (deref p) w Q.
Proof. unfold post, deref. destruct p; intros H; exact H. Qed.

Lemma post_readl addr w (Q : Z -> world -> Prop) :
  Q (mmio w addr) w -> post F (readl addr) w Q.
Proof. intros H. exact H. Qed.

(** A loop keeps an invariant of its carried variables and the world. *)
Lemma post_for_each {A S} (l : list A) (body : A -> S -> M S)
  (I : S -> world -> Prop) :
  (forall a s w, In a l -> I s w -> post F (body a s) w I) ->
  forall s w, I s w -> post F (for_each l body s) w I.
Proof.
  induction l as [|a l IH]; intros Hbody s w HI.
  - exact HI.
  - cbn [for_each]. apply post_bind.
    apply post_conseq with (Q := I).
    + intros s' w' HI'. apply IH; [|exact HI'].
      intros a' s0 w0 Hin. apply Hbody. right. exact Hin.
    + apply Hbody; [left; reflexivity | exact HI].
Qed.

End Rules.

Lemma post_total {A} (m : M A) w (Q : A -> world -> Prop) :
  post False m w Q -> exists a w', m w = Ok (a, w') /\ Q a w'.
Proof.
  unfold post. destruct (m w) as [[a w']|f]; intros H; [|contradiction].
  exists a, w'. split; [reflexivity | exact H].
Qed.

Lemma post_partial {A} (m : M A) w (Q : A -> world -> Prop) a w' :
  post True m w Q -> m w = Ok (a, w') -> Q a w'.
Proof. unfold post. intros H E. rewrite E in H. exact H. Qed.

Lemma bind_Ok {A B} (m : M A) (k : A -> M B) w a w' :
  m w = Ok (a, w') -> bind m k w = k a w'.
Proof. unfold bind. intros ->. reflexivity. Qed.

(** A loop whose body leaves the carried variables and the world alone
    does the same. *)
Lemma for_each_skip {A S} (l : list A) (body : A -> S -> M S) (s : S) w :
  (forall a, In a l -> body a s w = Ok (s, w)) ->
  for_each l body s w = Ok (s, w).
Proof.
  induction l as [|a l IH]; intros H; [reflexivity|].
  cbn [for_each]. unfold bind. rewrite (H a (or_introl eq_refl)).
  apply IH. intros a' Hin. apply H. right. exact Hin.
Qed.

(** ** Multi-sensor read *)

Section SensorRead.

Context {hdr : exynos_tmu_h}.

Lemma active_mask_7 (data : exynos_tmu_data) (i : nat) :
  sensors data = 7 -> In i sensor_indices ->
  sensor_active data i = Nat.ltb i 3.
Proof.
  intros H Hi. unfold sensor_active. rewrite H.
  unfold sensor_indices, TOTAL_SENSORS in Hi. cbn [seq In] in Hi.
  repeat (destruct Hi as [<- | Hi]; [reflexivity|]). contradiction.
Qed.

(** The read on sensors 0, 1 and 2 with codes 10, 20 and 30, whatever the
    policy is: the sum 60 is divided by 3 for AVG, the maximum is 30, and
    the minimum, folded from the initial [result = 0], is 0. *)
Lemma tmu_read_10_20_30 (data : exynos_tmu_data) (w : world) :
  sensors data = 7 ->
  read_sensor_code data 0 w = Ok (10, w) ->
  read_sensor_code data 1 w = Ok (20, w) ->
  read_sensor_code data 2 w = Ok (30, w) ->
  exynos8895_tmu_read data w =
  (let mode := sensing_mode data in
   let result :=
     if mode =? AVG then 60 else if mode =? MAX then 30
     else if mode =? MIN then 0 else 30 in
   result <- (if mode =? AVG then lift (u32_div result 3) else ret result) ;;
   ret (to_int result)) w.
Proof.
  intros Hs H0 H1 H2.
  unfold exynos8895_tmu_read, sensor_indices, TOTAL_SENSORS.
  cbn [seq for_each].
  rewrite !(active_mask_7 data _ Hs)
    by (unfold sensor_indices, TOTAL_SENSORS; cbn; tauto).
  cbn [Nat.ltb Nat.leb].
  cbv beta iota zeta delta [bind ret].
  rewrite H0. cbv beta iota. rewrite H1. cbv beta iota. rewrite H2.
  cbv beta iota.
  destruct (sensing_mode data =? AVG); [reflexivity|].
  destruct (sensing_mode data =? MAX); [reflexivity|].
  destruct (sensing_mode data =? MIN); reflexivity.
Qed.

(** C2: with the sensor bitmask 0b00000111 and the codes 10, 20 and 30, the
    read gives 20 under AVG and 30 under MAX; under MIN it gives 0, not
    the 10 the specification asks for. *)
Theorem tmu_read_three_sensors (data : exynos_tmu_data) (w : world) :
  sensors data = 7 ->
  read_sensor_code data 0 w = Ok (10, w) ->
  read_sensor_code data 1 w = Ok (20, w) ->
  read_sensor_code data 2 w = Ok (30, w) ->
  exynos8895_tmu_read (set_sensing_mode data AVG) w = Ok (20, w) /\
  exynos8895_tmu_read (set_sensing_mode data MAX) w = Ok (30, w) /\
  exynos8895_tmu_read (set_sensing_mode data MIN) w = Ok (0, w).
Proof.
  intros Hs H0 H1 H2.
  pose proof sensing_labels as (L1 & L2 & L3).
  assert (N1 : (MAX =? AVG) = false) by (apply Z.eqb_neq; congruence).
  assert (N2 : (MIN =? AVG) = false) by (apply Z.eqb_neq; congruence).
  assert (N3 : (MIN =? MAX) = false) by (apply Z.eqb_neq; congruence).
  repeat split.
  - rewrite (tmu_read_10_20_30 (set_sensing_mode data AVG) w Hs H0 H1 H2).
    cbn [sensing_mode set_sensing_mode]. cbv zeta.
    rewrite Z.eqb_refl. reflexivity.
  - rewrite (tmu_read_10_20_30 (set_sensing_mode data MAX) w Hs H0 H1 H2).
    cbn [sensing_mode set_sensing_mode]. cbv zeta.
    rewrite N1, Z.eqb_refl. reflexivity.
  - rewrite (tmu_read_10_20_30 (set_sensing_mode data MIN) w Hs H0 H1 H2).
    cbn [sensing_mode set_sensing_mode]. cbv zeta.
    rewrite N2, N3, Z.eqb_refl. reflexivity.
Qed.

Lemma read_loop_no_sensor (data : exynos_tmu_data) (w : world) (cr : Z * Z) :
  no_active_sensor data ->
  for_each sensor_indices
    (fun i (cr : Z * Z) =>
       let '(count, result) := cr in
       if sensor_active data i then
         temp_data_i <- read_sensor_code data i ;;
         let count := u32_add count 1 in
         let result :=
           if sensing_mode data =? AVG then u32_add result temp_data_i
           else if sensing_mode data =? MAX then
             (if result >? temp_data_i then result else temp_data_i)
           else if sensing_mode data =? MIN then
             (if result <? temp_data_i then result else temp_data_i)
           else temp_data_i in
         ret (count, result)
       else ret (count, result))
    cr w = Ok (cr, w).
Proof.
  intros Hno. apply for_each_skip.
  intros i Hi. destruct cr as [count result].
  rewrite (Hno i Hi). reflexivity.
Qed.

(** C3 (amended): with no active sensor, the read under any policy other
    than AVG reports no error and divides nothing: it returns the initial
    value 0 of [result] as the code and leaves the world as it was. *)
Theorem tmu_read_no_sensor (data : exynos_tmu_data) (w : world) :
  no_active_sensor data ->
  sensing_mode data <> AVG ->
  exynos8895_tmu_read data w = Ok (0, w).
Proof.
  intros Hno Hmode.
  unfold exynos8895_tmu_read.
  rewrite (bind_Ok _ _ _ _ _ (read_loop_no_sensor data w (0, 0) Hno)).
  apply Z.eqb_neq in Hmode. rewrite Hmode. reflexivity.
Qed.

(** Under AVG the same read divides the sum 0 by the count 0. *)
Lemma tmu_read_no_sensor_avg (data : exynos_tmu_data) (w : world) :
  no_active_sensor data ->
  sensing_mode data = AVG ->
  exynos8895_tmu_read data w = Fault DivideByZero.
Proof.
  intros Hno Hmode.
  unfold exynos8895_tmu_read.
  rewrite (bind_Ok _ _ _ _ _ (read_loop_no_sensor data w (0, 0) Hno)).
  rewrite Hmode, Z.eqb_refl. reflexivity.
Qed.

Lemma sensor_code_nonneg (data : exynos_tmu_data) (i : nat) w :
  exists code, read_sensor_code data i w = Ok (code, w) /\ 0 <= code.
Proof.
  unfold read_sensor_code, bind, readl, ret. cbv zeta.
  eexists. split; [reflexivity|].
  apply Z.land_nonneg. right. unfold EXYNOS_TMU_TEMP_MASK. lia.
Qed.

Lemma min_loop_stays_zero (data : exynos_tmu_data) (w : world)
  (l : list nat) :
  sensing_mode data = MIN ->
  forall count, exists count',
    for_each l
      (fun i (cr : Z * Z) =>
         let '(count, result) := cr in
         if sensor_active data i then
           temp_data_i <- read_sensor_code data i ;;
           let count := u32_add count 1 in
           let result :=
             if sensing_mode data =? AVG then u32_add result temp_data_i
             else if sensing_mode data =? MAX then
               (if result >? temp_data_i then result else temp_data_i)
             else if sensing_mode data =? MIN then
               (if result <? temp_data_i then result else temp_data_i)
             else temp_data_i in
           ret (count, result)
         else ret (count, result))
      (count, 0) w = Ok ((count', 0), w).
Proof.
  intros Hmode.
  pose proof sensing_labels as (L1 & L2 & L3).
  assert (N1 : (MIN =? AVG) = false) by (apply Z.eqb_neq; congruence).
  assert (N2 : (MIN =? MAX) = false) by (apply Z.eqb_neq; congruence).
  induction l as [|i l IH]; intros count.
  - exists count. reflexivity.
  - cbn [for_each].
    destruct (sensor_active data i).
    + destruct (sensor_code_nonneg data i w) as (code & Hcode & Hpos).
      destruct (IH (u32_add count 1)) as (count' & E).
      exists count'.
      erewrite bind_Ok; [exact E|].
      rewrite (bind_Ok _ _ _ _ _ Hcode).
      rewrite Hmode, N1, N2, Z.eqb_refl. unfold ret.
      destruct (Z.ltb_spec 0 code) as [Hlt|Hge]; [reflexivity|].
      replace code with 0 by lia. reflexivity.
    + destruct (IH count) as (count' & E). exists count'.
      erewrite bind_Ok; [exact E | reflexivity].
Qed.

(** The MIN policy reads 0 whatever the sensors report: the fold starts
    from [result = 0] and no code is below it. *)
Lemma min_policy_reads_zero (data : exynos_tmu_data) (w : world) :
  sensing_mode data = MIN ->
  exynos8895_tmu_read data w = Ok (0, w).
Proof.
  intros Hmode.
  pose proof sensing_labels as (L1 & L2 & L3).
  destruct (min_loop_stays_zero data w sensor_indices Hmode 0) as (count & E).
  unfold exynos8895_tmu_read.
  rewrite (bind_Ok _ _ _ _ _ E).
  rewrite Hmode.
  replace (MIN =? AVG) with false by (symmetry; apply Z.eqb_neq; congruence).
  reflexivity.
Qed.

End SensorRead.

Lemma tmu_read_three_sensors_witness :
  let data := sample_data SOC_ARCH_EXYNOS8895 0 1 75 135 7 0 "step_wise" in
  let w := initial_world (regs_10_20_30 (base data)) in
  @exynos8895_tmu_read sample_header
    (set_sensing_mode data (@AVG sample_header)) w = Ok (20, w) /\
  @exynos8895_tmu_read sample_header
    (set_sensing_mode data (@MAX sample_header)) w = Ok (30, w) /\
  @exynos8895_tmu_read sample_header
    (set_sensing_mode data (@MIN sample_header)) w = Ok (0, w).
Proof.
  cbv zeta.
  apply (@tmu_read_three_sensors sample_header); reflexivity.
Defined.

Lemma no_active_sensor_mask_0 (data : exynos_tmu_data) :
  sensors data = 0 -> no_active_sensor data.
Proof.
  intros H i _. unfold sensor_active. rewrite H. reflexivity.
Qed.

Lemma tmu_read_no_sensor_witness :
  let data := sample_data SOC_ARCH_EXYNOS8895 0 1 75 135 0 1 "step_wise" in
  let w := initial_world (regs_10_20_30 (base data)) in
  @exynos8895_tmu_read sample_header data w = Ok (0, w).
Proof.
  cbv zeta.
  apply (@tmu_read_no_sensor sample_header).
  - apply no_active_sensor_mask_0. reflexivity.
  - cbn. discriminate.
Defined.

(** C3 (as stated) fails: with the empty bitmask the read under MAX returns
    the code 0 as a normal result, and under AVG it divides by zero. *)
Lemma tmu_read_empty_mask_unguarded :
  let w := initial_world (regs_10_20_30 0x10060000) in
  @exynos8895_tmu_read sample_header
    (sample_data SOC_ARCH_EXYNOS8895 0 1 75 135 0 (@MAX sample_header)
                 "step_wise") w = Ok (0, w) /\
  @exynos8895_tmu_read sample_header
    (sample_data SOC_ARCH_EXYNOS8895 0 1 75 135 0 (@AVG sample_header)
                 "step_wise") w = Fault DivideByZero.
Proof. split; reflexivity. Qed.

(** ** Threshold placement *)

(** C4 (amended): trip 7 is placed at register offset 0, bit offset 1;
    trip 6 at register offset 0, bit offset 0; trip 5 at register offset 4,
    bit offset 1. *)
Theorem threshold_placement :
  (reg_off 7 = 0 /\ bit_off 7 = 1) /\
  (reg_off 6 = 0 /\ bit_off 6 = 0) /\
  (reg_off 5 = 4 /\ bit_off 5 = 1).
Proof. repeat split; reflexivity. Qed.

(** C4 (as stated) fails: the bit offset of trip 7 is not 0. *)
Lemma threshold_placement_trip_7 : reg_off 7 = 0 /\ bit_off 7 <> 0.
Proof. split; [reflexivity | discriminate]. Qed.

(** The placement of every trip slot: the register offset falls with the
    trip index, and odd trips take the upper half-word. *)
Lemma threshold_placement_all (i : Z) :
  0 <= i <= 7 ->
  reg_off i = 4 * ((7 - i) / 2) /\ bit_off i = i mod 2.
Proof.
  intros H.
  assert (C : i = 0 \/ i = 1 \/ i = 2 \/ i = 3 \/ i = 4 \/ i = 5 \/ i = 6
              \/ i = 7) by lia.
  repeat (destruct C as [-> | C]; [split; reflexivity|]).
  subst i. split; reflexivity.
Qed.

(** ** Register writes *)

Lemma only_writes_refl (ok : Z -> bool) w : only_writes ok w w.
Proof.
  split; [|split].
  - repeat split.
  - exists []. split; [symmetry; apply app_nil_r | constructor].
  - reflexivity.
Qed.

Lemma only_writes_trans (ok : Z -> bool) w1 w2 w3 :
  only_writes ok w1 w2 -> only_writes ok w2 w3 -> only_writes ok w1 w3.
Proof.
  intros ((S1 & S2 & S3 & S4 & S5) & (n1 & T1 & F1) & M1)
         ((R1 & R2 & R3 & R4 & R5) & (n2 & T2 & F2) & M2).
  split; [|split].
  - repeat split; congruence.
  - exists (n1 ++ n2). split.
    + rewrite T2, T1. symmetry. apply app_assoc.
    + apply Forall_app. split; assumption.
  - intros addr Hok. rewrite (M2 addr Hok). apply M1. exact Hok.
Qed.

Lemma only_writes_mono (ok ok' : Z -> bool) w w' :
  (forall addr, ok addr = true -> ok' addr = true) ->
  only_writes ok w w' -> only_writes ok' w w'.
Proof.
  intros Hsub (G & (new & T & Fa) & Mm).
  split; [exact G|split].
  - exists new. split; [exact T|].
    apply Forall_impl with (2 := Fa).
    intros e (val & addr & -> & Hok). exists val, addr. auto.
  - intros addr Hok. apply Mm.
    destruct (ok addr) eqn:E; [|reflexivity].
    rewrite (Hsub addr E) in Hok. discriminate.
Qed.

Lemma only_writes_writel (F : Prop) (ok : Z -> bool) val addr w0 w :
  ok addr = true -> only_writes ok w0 w ->
  post F (writel val addr) w (fun _ w' => only_writes ok w0 w').
Proof.
  intros Hok H0. unfold post, writel, bind, store, emit.
  apply only_writes_trans with (1 := H0).
  split; [|split]; cbn.
  - repeat split.
  - exists [EvWritel (to_u32 val) addr]. split; [reflexivity|].
    constructor; [|constructor]. exists (to_u32 val), addr. auto.
  - intros a Ha. destruct (Z.eqb_spec a addr) as [->|]; [|reflexivity].
    congruence.
Qed.

Lemma reg_among_offset (offs : list Z) (data : exynos_tmu_data) (o : Z) :
  In o offs -> reg_among offs data (base data + o) = true.
Proof.
  intros Hin. unfold reg_among. apply existsb_exists.
  exists o. split; [exact Hin | apply Z.eqb_eq; lia].
Qed.

(** Registers at offsets of [offs] are none of those at offsets of [offs'],
    when the two lists have no offset in common. *)
Lemma reg_among_disjoint (offs offs' : list Z) (data : exynos_tmu_data)
  (addr : Z) :
  forallb (fun o => negb (existsb (Z.eqb o) offs')) offs = true ->
  reg_among offs data addr = true -> reg_among offs' data addr = false.
Proof.
  intros Hdis Hin. unfold reg_among in *.
  apply existsb_exists in Hin. destruct Hin as (o & Ho & E).
  apply Z.eqb_eq in E. rewrite E.
  rewrite forallb_forall in Hdis. specialize (Hdis o Ho).
  apply Bool.negb_true_iff in Hdis. exact Hdis.
Qed.

Lemma intpend_reg_of_index (data : exynos_tmu_data) (i : nat) :
  In i sensor_indices ->
  is_intpend_reg data
    (base data +
     (if Nat.ltb i 5 then
        u32_add EXYNOS_TMU_REG_INTPEND0
                (u32_mul EXYNOS_TMU_REG_INTPEN_OFFSET (Z.of_nat i))
      else
        u32_add EXYNOS_TMU_REG_INTPEND5
                (u32_mul EXYNOS_TMU_REG_INTPEN_OFFSET (Z.of_nat i)))) = true.
Proof.
  intros Hi. apply reg_among_offset. unfold intpend_offsets.
  apply (in_map (fun i : nat =>
                   if Nat.ltb i 5 then
                     u32_add EXYNOS_TMU_REG_INTPEND0
                             (u32_mul EXYNOS_TMU_REG_INTPEN_OFFSET (Z.of_nat i))
                   else
                     u32_add EXYNOS_TMU_REG_INTPEND5
                             (u32_mul EXYNOS_TMU_REG_INTPEN_OFFSET (Z.of_nat i)))).
  exact Hi.
Qed.

(** Clearing the pending interrupts completes and writes only
    pending-interrupt registers. *)
Lemma clear_irqs_only_writes (F : Prop) (data : exynos_tmu_data) w :
  post F (tmu_clear_irqs data) w
       (fun _ w' => only_writes (is_intpend_reg data) w w').
Proof.
  unfold tmu_clear_irqs. destruct (soc data).
  - unfold exynos8890_tmu_clear_irqs.
    apply post_bind, post_readl.
    apply only_writes_writel; [|apply only_writes_refl].
    apply (intpend_reg_of_index data 0).
    unfold sensor_indices, TOTAL_SENSORS. cbn. tauto.
  - unfold exynos8895_tmu_clear_irqs.
    apply (post_for_each F sensor_indices _
             (fun _ w' => only_writes (is_intpend_reg data) w w')).
    + intros i [] w1 Hi H1.
      destruct (sensor_active data i).
      * apply post_bind, post_readl.
        apply only_writes_writel; [|exact H1].
        apply intpend_reg_of_index. exact Hi.
      * apply post_ret. exact H1.
    + apply only_writes_refl.
Qed.

(** ** Trip report *)

Lemma trip_scan_spec (tz : thermal_zone_device) (n i : nat) :
  (i <= trip_scan tz n i <= i + n)%nat /\
  (forall j, (i <= j < trip_scan tz n i)%nat ->
             ~ last_temperature tz < get_trip_temp tz j) /\
  ((trip_scan tz n i < i + n)%nat ->
   last_temperature tz < get_trip_temp tz (trip_scan tz n i)).
Proof.
  revert i. induction n as [|n IH]; intros i; cbn [trip_scan].
  - repeat split; lia.
  - destruct (Z.ltb_spec (last_temperature tz) (get_trip_temp tz i)) as [Hlt|Hge].
    + split; [lia|]. split; [intros j Hj; lia | intros _; exact Hlt].
    + destruct (IH (S i)) as (Hb & Hbelow & Hat).
      split; [lia|]. split.
      * intros j Hj. destruct (Nat.eq_dec j i) as [->|Hne]; [lia|].
        apply Hbelow. lia.
      * intros Hk. apply Hat. lia.
Qed.

Lemma snprintf_u_index (i : nat) :
  (i <= 8)%nat ->
  snprintf_u 10 i = NilEmpty.string_of_uint (Nat.to_uint i).
Proof.
  intros H.
  do 9 (destruct i as [|i]; [reflexivity|]). lia.
Qed.

Section TripReport.

Variable thermal_zone_device_update :
  thermal_zone_device -> M thermal_zone_device.

(** C5: the index reported by the deferred trip handler is the least trip
    index whose temperature the zone's current temperature is strictly
    below, or the number of trips if there is none; the one uevent the
    handler emits carries that index, printed with ["%u"] (its decimal
    digits, for the at most eight trips of a TMU). *)
Theorem trip_report_least_index (p : exynos_tmu_data)
  (tz tz' : thermal_zone_device) (w w' : world) :
  tzd p = Some tz ->
  thermal_zone_device_update tz w = Ok (tz', w') ->
  let i := trip_level tz' in
  ((i <= of_thermal_get_ntrips tz')%nat /\
   (forall j, (j < i)%nat -> ~ last_temperature tz' < get_trip_temp tz' j) /\
   ((i < of_thermal_get_ntrips tz')%nat ->
    last_temperature tz' < get_trip_temp tz' i)) /\
  exynos_report_trigger thermal_zone_device_update p w =
    emit (EvUevent (snprintf_u 10 i)) w' /\
  ((i <= 8)%nat ->
   snprintf_u 10 i = NilEmpty.string_of_uint (Nat.to_uint i)) /\
  exists w'' rest,
    exynos_tmu_work thermal_zone_device_update p w = Ok (tt, w'') /\
    trace w'' = trace w' ++ EvUevent (snprintf_u 10 i) :: rest /\
    (forall s, ~ In (EvUevent s) rest).
Proof.
  intros Htz Hupd i.
  destruct (trip_scan_spec tz' (of_thermal_get_ntrips tz') 0) as (Hb & Hbelow & Hat).
  fold (trip_level tz') in Hb, Hbelow, Hat. fold i in Hb, Hbelow, Hat.
  assert (Hreport :
    exynos_report_trigger thermal_zone_device_update p w =
    emit (EvUevent (snprintf_u 10 i)) w').
  { unfold exynos_report_trigger. rewrite Htz.
    rewrite (bind_Ok _ _ _ _ _ Hupd). reflexivity. }
  split; [|split; [|split]].
  - split; [lia|].
    split; [intros j Hj; apply Hbelow; lia | intros Hi; apply Hat; lia].
  - exact Hreport.
  - apply snprintf_u_index.
  - unfold exynos_tmu_work.
    set (e := EvUevent (snprintf_u 10 i)) in *.
    assert (Hemit : exists w1, emit e w' = Ok (tt, w1) /\
                               trace w1 = trace w' ++ [e])
      by (eexists; split; reflexivity).
    destruct Hemit as (w1 & He & Ht1).
    rewrite (bind_Ok _ _ _ tt w1) by (rewrite Hreport; exact He).
    destruct (post_total _ _ _ (clear_irqs_only_writes False p w1))
      as ([] & w2 & Hc & (_ & (new & Tn & Fn) & _)).
    rewrite (bind_Ok _ _ _ _ _ Hc).
    eexists. exists (new ++ [EvEnableIrq (irq p)]).
    split; [reflexivity|]. split.
    + cbn. rewrite Tn, Ht1. rewrite <- !app_assoc. reflexivity.
    + intros s Hin. apply in_app_or in Hin. destruct Hin as [Hin|Hin].
      * rewrite Forall_forall in Fn.
        destruct (Fn _ Hin) as (val & addr & Habs & _). discriminate.
      * destruct Hin as [Habs|[]]. discriminate.
Qed.

End TripReport.

Lemma trip_report_least_index_witness :
  let p := sample_data SOC_ARCH_EXYNOS8895 0 1 75 135 7 0 "step_wise" in
  let w := initial_world (fun _ => 0) in
  exynos_report_trigger (sample_update 80000) p w = emit (EvUevent "1") w.
Proof.
  cbv zeta.
  exact (proj1 (proj2
    (trip_report_least_index (sample_update 80000)
       (sample_data SOC_ARCH_EXYNOS8895 0 1 75 135 7 0 "step_wise")
       (sample_zone "step_wise")
       {| last_temperature := 80000; trips := trips (sample_zone "step_wise");
          governor_name := "step_wise" |}
       (initial_world (fun _ => 0)) (initial_world (fun _ => 0))
       eq_refl eq_refl))).
Defined.

(** ** CPU-hotplug throttling *)

Section Throttle.

Context {hdr : exynos_tmu_h}.

(** One call of the throttle policy, as the branch it takes. *)
Lemma throttle_step (data : exynos_tmu_data) (temp : Z) (w : world)
  (cdev : thermal_cooling_device) :
  cool_dev data = Some cdev ->
  exynos_throttle_cpu_hotplug data temp w =
  (let t := to_int (Z.quot temp MCELSIUS) in
   if is_cpu_hotplugged_out w then
     if t <? hotplug_in_threshold data then
       (emit (EvPmQosUpdateRequest NR_CPUS) ;;;
        set_is_cpu_hotplugged_out false ;;;
        set_cpufreq_state (cdev_handle cdev) 0 ;;;
        ret 0) w
     else Ok (0, w)
   else
     if t >=? hotplug_out_threshold data then
       (set_is_cpu_hotplugged_out true ;;;
        emit (EvPmQosUpdateRequest NR_HOTPLUG_CPUS) ;;;
        ret 0) w
     else Ok (0, w)).
Proof.
  intros Hc.
  unfold exynos_throttle_cpu_hotplug. rewrite Hc.
  unfold bind at 1. cbn [deref].
  unfold bind at 1. unfold int_div. cbn [MCELSIUS Z.eqb lift]. fold MCELSIUS.
  unfold bind at 1. unfold get_is_cpu_hotplugged_out at 1.
  cbv zeta.
  destruct (is_cpu_hotplugged_out w).
  - destruct (_ <? _); reflexivity.
  - destruct (_ >=? _); reflexivity.
Qed.

(** C6 (amended): the throttle policy is a two-state hysteresis machine on
    the reported temperature divided by 1000 (truncating): from NORMAL it
    goes to THROTTLED, requesting [NR_HOTPLUG_CPUS] cores, exactly when
    that quotient is at least [hotplug_out_threshold]; from THROTTLED it
    goes back to NORMAL, requesting [NR_CPUS] cores, exactly when the
    quotient is below [hotplug_in_threshold]; otherwise nothing changes. *)
Theorem hotplug_hysteresis (data : exynos_tmu_data) (temp : Z) (w : world)
  (cdev : thermal_cooling_device) :
  cool_dev data = Some cdev ->
  let t := to_int (Z.quot temp MCELSIUS) in
  exists w',
    exynos_throttle_cpu_hotplug data temp w = Ok (0, w') /\
    (is_cpu_hotplugged_out w = false ->
     (hotplug_out_threshold data <= t ->
      is_cpu_hotplugged_out w' = true /\
      trace w' = trace w ++ [EvPmQosUpdateRequest NR_HOTPLUG_CPUS]) /\
     (t < hotplug_out_threshold data -> w' = w)) /\
    (is_cpu_hotplugged_out w = true ->
     (t < hotplug_in_threshold data ->
      is_cpu_hotplugged_out w' = false /\
      trace w' = trace w ++ [EvPmQosUpdateRequest NR_CPUS]) /\
     (hotplug_in_threshold data <= t -> w' = w)).
Proof.
  intros Hc t.
  rewrite (throttle_step data temp w cdev Hc). cbv zeta. fold t.
  destruct (is_cpu_hotplugged_out w) eqn:Hstate.
  - destruct (Z.ltb_spec t (hotplug_in_threshold data)) as [Hlt|Hge].
    + eexists. split; [reflexivity|]. split; [discriminate|].
      intros _. split; [|lia]. intros _. split; reflexivity.
    + exists w. split; [reflexivity|]. split; [discriminate|].
      intros _. split; [lia|]. intros _. reflexivity.
  - destruct (Z.geb_spec t (hotplug_out_threshold data)) as [Hge|Hlt].
    + eexists. split; [reflexivity|]. split; [|discriminate].
      intros _. split; [|lia]. intros _. split; reflexivity.
    + exists w. split; [reflexivity|]. split; [|discriminate].
      intros _. split; [lia|]. intros _. reflexivity.
Qed.

(** C9: the throttle state is one variable for all devices.  Once a device
    has driven it to THROTTLED, the policy of any other device runs from
    THROTTLED: it releases the CPUs if its own temperature is below its
    in-threshold, and does nothing otherwise, however hot it is. *)
Theorem hotplug_state_shared (d1 d2 : exynos_tmu_data) (temp1 temp2 : Z)
  (w : world) (c1 c2 : thermal_cooling_device) :
  cool_dev d1 = Some c1 -> cool_dev d2 = Some c2 ->
  is_cpu_hotplugged_out w = false ->
  hotplug_out_threshold d1 <= to_int (Z.quot temp1 MCELSIUS) ->
  exists w1,
    exynos_throttle_cpu_hotplug d1 temp1 w = Ok (0, w1) /\
    is_cpu_hotplugged_out w1 = true /\
    exists w2,
      exynos_throttle_cpu_hotplug d2 temp2 w1 = Ok (0, w2) /\
      (to_int (Z.quot temp2 MCELSIUS) < hotplug_in_threshold d2 ->
       is_cpu_hotplugged_out w2 = false /\
       trace w2 = trace w1 ++ [EvPmQosUpdateRequest NR_CPUS]) /\
      (hotplug_in_threshold d2 <= to_int (Z.quot temp2 MCELSIUS) ->
       w2 = w1).
Proof.
  intros H1 H2 Hnormal Hhot.
  rewrite (throttle_step d1 temp1 w c1 H1). cbv zeta.
  rewrite Hnormal.
  destruct (Z.geb_spec (to_int (Z.quot temp1 MCELSIUS))
                       (hotplug_out_threshold d1)) as [_|Hlt]; [|lia].
  eexists. split; [reflexivity|]. split; [reflexivity|].
  rewrite (throttle_step d2 temp2 _ c2 H2). cbv zeta.
  cbn [is_cpu_hotplugged_out set_is_cpu_hotplugged_out emit bind ret].
  destruct (Z.ltb_spec (to_int (Z.quot temp2 MCELSIUS))
                       (hotplug_in_threshold d2)) as [Hlt|Hge].
  - eexists. split; [reflexivity|]. split; [|lia].
    intros _. split; reflexivity.
  - eexists. split; [reflexivity|]. split; [lia|].
    intros _. reflexivity.
Qed.

End Throttle.

Lemma hotplug_hysteresis_witness :
  exists w',
    @exynos_throttle_cpu_hotplug sample_header
      (sample_data SOC_ARCH_EXYNOS8895 0 1 75 135 7 0 "step_wise") 86000
      (sample_world (fun _ => 0) false [] 0) = Ok (0, w') /\
    is_cpu_hotplugged_out w' = true.
Proof.
  destruct (@hotplug_hysteresis sample_header
              (sample_data SOC_ARCH_EXYNOS8895 0 1 75 135 7 0 "step_wise")
              86000 (sample_world (fun _ => 0) false [] 0)
              (sample_cdev 0) eq_refl) as (w' & E & Hn & _).
  exists w'. split; [exact E|].
  apply (Hn eq_refl). cbn. lia.
Defined.

(** C6 (as stated) fails: with the thresholds 70000 and 85000 and the
    state NORMAL, a reported temperature of 86000 is at least
    [hotplug_out_threshold], yet the state stays NORMAL and no request is
    made, because 86000 / 1000 = 86 is what the threshold is compared
    with. *)
Lemma hotplug_reported_temperature_not_compared :
  let data :=
    with_thresholds
      (sample_data SOC_ARCH_EXYNOS8895 0 1 75 135 7 0 "step_wise")
      70000 85000 in
  let w := sample_world (fun _ => 0) false [] 0 in
  is_cpu_hotplugged_out w = false /\
  hotplug_out_threshold data <= 86000 /\
  @exynos_throttle_cpu_hotplug sample_header data 86000 w = Ok (0, w).
Proof. cbv zeta. split; [reflexivity|]. split; [cbn; lia | reflexivity]. Qed.

Lemma hotplug_state_shared_witness :
  exists w1 w2,
    @exynos_throttle_cpu_hotplug sample_header
      (sample_data SOC_ARCH_EXYNOS8895 0 1 75 135 7 0 "step_wise") 86000
      (sample_world (fun _ => 0) false [] 0) = Ok (0, w1) /\
    @exynos_throttle_cpu_hotplug sample_header
      (sample_data SOC_ARCH_EXYNOS8895 1 1 75 135 7 0 "step_wise") 90000
      w1 = Ok (0, w2) /\
    w2 = w1.
Proof.
  destruct (@hotplug_state_shared sample_header
              (sample_data SOC_ARCH_EXYNOS8895 0 1 75 135 7 0 "step_wise")
              (sample_data SOC_ARCH_EXYNOS8895 1 1 75 135 7 0 "step_wise")
              86000 90000 (sample_world (fun _ => 0) false [] 0)
              (sample_cdev 0) (sample_cdev 1) eq_refl eq_refl eq_refl
              ltac:(cbn; lia))
    as (w1 & E1 & _ & w2 & E2 & _ & Hstay).
  exists w1, w2. split; [exact E1|]. split; [exact E2|].
  apply Hstay. cbn. lia.
Defined.

(** ** Cooling-device temperature push *)

Section CoolingPush.

Context {hdr : exynos_tmu_h}.

(** Reading the sensors leaves the world as it is. *)
Lemma tmu_read_world (data : exynos_tmu_data) w :
  post True (tmu_read data) w (fun _ w' => w' = w).
Proof.
  unfold tmu_read. destruct (soc data).
  - unfold exynos8890_tmu_read, post, bind, readw, ret. reflexivity.
  - unfold exynos8895_tmu_read. apply post_bind.
    apply post_conseq with (Q := fun _ w' => w' = w).
    + intros [count result] w' ->. apply post_bind.
      destruct (sensing_mode data =? AVG).
      * apply post_lift. destruct (u32_div result count); [reflexivity|exact I].
      * reflexivity.
    + apply (post_for_each True _ _ (fun _ w' => w' = w)); [|reflexivity].
      intros i [c r] w1 Hi ->.
      destruct (sensor_active data i); [|reflexivity].
      unfold post, bind, read_sensor_code, readl, ret. reflexivity.
Qed.

(** For device id 1 the temperature read never reaches [set_cur_temp]:
    whatever it returns, the world is as before. *)
Lemma get_temp_id_1_silent (data : exynos_tmu_data) w :
  id data = 1 ->
  post True (exynos_get_temp (Some data)) w (fun _ w' => w' = w).
Proof.
  intros Hid. unfold exynos_get_temp. apply post_bind.
  apply post_conseq with (2 := tmu_read_world data w).
  intros code w' ->. apply post_bind, post_lift.
  destruct (code_to_temp data code) as [t|f]; [|exact I].
  destruct (cool_dev data) as [cdev|]; [|reflexivity].
  rewrite Hid. cbn [Z.eqb Pos.eqb negb]. rewrite Bool.andb_false_r.
  reflexivity.
Qed.

(** The loop of PM_SUSPEND_PREPARE over the registry pushes what
    [suspend_push] says, device by device. *)
Lemma suspend_prepare_loop (l : list exynos_tmu_data) :
  forall w, suspended w = true ->
  exists w',
    for_each l
      (fun devnode (_ : unit) =>
         match cool_dev devnode with
         | Some cdev =>
             if has_set_cur_temp cdev && negb (id devnode =? 1) then
               s <- get_suspended ;;
               emit (EvSetCurTemp cdev s 0)
             else ret tt
         | None => ret tt
         end)
      tt w = Ok (tt, w') /\
    suspended w' = true /\
    dtm_dev_list w' = dtm_dev_list w /\
    trace w' = trace w ++ flat_map suspend_push l.
Proof.
  induction l as [|d l IH]; intros w Hs.
  - exists w. cbn. rewrite app_nil_r. auto.
  - cbn [for_each flat_map]. unfold suspend_push at 1.
    destruct (cool_dev d) as [cdev|].
    + destruct (has_set_cur_temp cdev); destruct (id d =? 1); cbn [andb negb].
      * unfold bind at 1. cbn [ret].
        destruct (IH w Hs) as (w' & E & H1 & H2 & H3). exists w'. auto.
      * unfold bind at 1. unfold bind at 1. unfold get_suspended at 1.
        rewrite Hs. cbn [emit].
        match goal with |- context [for_each l _ tt ?w1] =>
          destruct (IH w1 Hs) as (w' & E & H1 & H2 & H3) end.
        exists w'. split; [exact E|]. split; [exact H1|]. split; [exact H2|].
        rewrite H3. cbn [trace]. rewrite <- app_assoc. reflexivity.
      * unfold bind at 1. cbn [ret].
        destruct (IH w Hs) as (w' & E & H1 & H2 & H3). exists w'. auto.
      * unfold bind at 1. cbn [ret].
        destruct (IH w Hs) as (w' & E & H1 & H2 & H3). exists w'. auto.
    + unfold bind at 1. cbn [ret].
      destruct (id d =? 1);
        destruct (IH w Hs) as (w' & E & H1 & H2 & H3); exists w'; auto.
Qed.

(** C10: no temperature is pushed to the cooling device of device id 1,
    neither by the temperature read nor by PM_SUSPEND_PREPARE; for any
    other device whose cooling device has [set_cur_temp], the read pushes
    the temperature just read, with the current [suspended] flag, and
    PM_SUSPEND_PREPARE pushes 0 with the flag set, once for each such
    device of the registry. *)
Theorem cooling_push_skips_id_1 (data : exynos_tmu_data) (w w1 : world)
  (code t : Z) (cdev : thermal_cooling_device) :
  tmu_read data w = Ok (code, w1) ->
  code_to_temp data code = Ok t ->
  cool_dev data = Some cdev ->
  has_set_cur_temp cdev = true ->
  let temp := int_mul t MCELSIUS in
  (id data = 1 ->
   exynos_get_temp (Some data) w = Ok ((0, Some temp), w) /\
   suspend_push data = []) /\
  (id data <> 1 ->
   (exists w',
      exynos_get_temp (Some data) w = Ok ((0, Some temp), w') /\
      trace w' =
        trace w ++ [EvSetCurTemp cdev (suspended w) (to_int (Z.quot temp 1000))]) /\
   suspend_push data = [EvSetCurTemp cdev true 0]) /\
  (exists w',
     exynos_pm_notifier PM_SUSPEND_PREPARE w = Ok (NOTIFY_OK, w') /\
     suspended w' = true /\
     trace w' = trace w ++ flat_map suspend_push (dtm_dev_list w)).
Proof.
  intros Hread Hconv Hc Hop temp.
  pose proof (post_partial _ _ _ _ _ (tmu_read_world data w) Hread) as Hw.
  cbv beta in Hw. subst w1.
  assert (Hget :
    exynos_get_temp (Some data) w =
    ((if negb (id data =? 1) then
        s <- get_suspended ;;
        q <- lift (int_div temp 1000) ;;
        emit (EvSetCurTemp cdev s q)
      else ret tt) ;;;
     ret (0, Some temp)) w).
  { unfold exynos_get_temp.
    rewrite (bind_Ok _ _ _ _ _ Hread).
    rewrite Hconv. unfold bind at 1. cbn [lift].
    rewrite Hc, Hop. reflexivity. }
  split; [|split].
  - intros Hid. split.
    + rewrite Hget, Hid. reflexivity.
    + unfold suspend_push. rewrite Hid. reflexivity.
  - intros Hid. apply Z.eqb_neq in Hid. split.
    + rewrite Hget, Hid. cbn [negb].
      eexists. split; [reflexivity|]. reflexivity.
    + unfold suspend_push. rewrite Hid, Hc, Hop. reflexivity.
  - unfold exynos_pm_notifier.
    cbn [PM_SUSPEND_PREPARE Z.eqb Pos.eqb].
    unfold bind at 1. unfold bind at 1. unfold set_suspended at 1.
    unfold bind at 1. unfold get_dtm_dev_list at 1.
    cbn [dtm_dev_list].
    match goal with |- context [for_each _ _ tt ?w1] =>
      destruct (suspend_prepare_loop (dtm_dev_list w) w1 eq_refl)
        as (w' & E & H1 & H2 & H3) end.
    rewrite E. exists w'. split; [reflexivity|]. split; [exact H1|].
    exact H3.
Qed.

End CoolingPush.

Lemma cooling_push_skips_id_1_witness :
  let data := sample_data SOC_ARCH_EXYNOS8895 0 1 75 135 7 0 "step_wise" in
  let w := initial_world (regs_10_20_30 (base data)) in
  exists w',
    @exynos_get_temp sample_header (Some data) w = Ok ((0, Some 10000), w') /\
    trace w' = [EvSetCurTemp (sample_cdev 0) false 10].
Proof.
  cbv zeta.
  destruct (@cooling_push_skips_id_1 sample_header
              (sample_data SOC_ARCH_EXYNOS8895 0 1 75 135 7 0 "step_wise")
              (initial_world (regs_10_20_30 0x10060000))
              (initial_world (regs_10_20_30 0x10060000)) 20 10 (sample_cdev 0)
              eq_refl eq_refl eq_refl eq_refl) as (_ & Hother & _).
  destruct (Hother ltac:(cbn; discriminate)) as ((w' & E & T) & _).
  exists w'. split; [exact E | exact T].
Defined.

(** ** Power-allocator governor *)

Section PowerAllocator.

Context {hdr : exynos_tmu_h}.

Lemma same_device_refl (d : exynos_tmu_data) : same_device d d.
Proof. repeat split. Qed.

Lemma same_device_trans (d1 d2 d3 : exynos_tmu_data) :
  same_device d1 d2 -> same_device d2 d3 -> same_device d1 d3.
Proof.
  intros (A1 & A2 & A3 & A4 & A5 & A6) (B1 & B2 & B3 & B4 & B5 & B6).
  repeat split; congruence.
Qed.

(** Reading the trim information of one sensor touches no register and
    keeps the identity of the device. *)
Lemma read_trim_info_keeps (F : Prop) (i : nat) (d : exynos_tmu_data) w :
  post F (read_trim_info i d) w (fun d' w' => w' = w /\ same_device d d').
Proof.
  unfold read_trim_info.
  destruct (sensor_active d i).
  - apply post_bind, post_readl. cbv zeta.
    destruct (Nat.eqb i 0).
    + apply post_ret. split; [reflexivity|].
      destruct (_ =? TYPE_TWO_POINT_TRIMMING); repeat split.
    + apply post_ret. split; [reflexivity|].
      destruct (_ =? TYPE_TWO_POINT_TRIMMING); repeat split.
  - apply post_ret. split; [reflexivity | apply same_device_refl].
Qed.

Lemma trim_loop_keeps (F : Prop) (data : exynos_tmu_data) w :
  post F (for_each sensor_indices read_trim_info data) w
       (fun d' w' => w' = w /\ same_device data d').
Proof.
  apply (post_for_each F sensor_indices read_trim_info
           (fun d' w' => w' = w /\ same_device data d')).
  - intros i d w1 _ (-> & Hsame).
    apply post_conseq with (2 := read_trim_info_keeps F i d w).
    intros d' w' (-> & Hsame'). split; [reflexivity|].
    apply same_device_trans with (1 := Hsame). exact Hsame'.
  - split; [reflexivity | apply same_device_refl].
Qed.

Lemma reg_among_same_device (offs : list Z) (d d' : exynos_tmu_data) addr :
  same_device d d' -> reg_among offs d' addr = reg_among offs d addr.
Proof. intros (_ & Hb & _). unfold reg_among. rewrite Hb. reflexivity. Qed.

(** Under the power-allocator governor [exynos8895_tmu_initialize]
    completes with status 0 and writes pending-interrupt registers only. *)
Lemma initialize_power_allocator (data : exynos_tmu_data)
  (tz : thermal_zone_device) w :
  tzd data = Some tz ->
  governor_name tz = "power_allocator"%string ->
  post False (exynos8895_tmu_initialize data) w
       (fun r w' => fst r = 0 /\ same_device data (snd r) /\
                    only_writes (is_intpend_reg data) w w').
Proof.
  intros Htz Hgov. unfold exynos8895_tmu_initialize.
  apply post_bind.
  apply post_conseq with (2 := trim_loop_keeps False data w).
  intros d' w' (-> & Hsame).
  destruct Hsame as (Htz' & Hrest).
  apply post_bind, post_deref. rewrite Htz', Htz.
  unfold governor_is_power_allocator. rewrite Hgov, String.eqb_refl.
  cbn [negb].
  apply post_bind, post_ret. apply post_bind.
  apply post_conseq with (2 := clear_irqs_only_writes False d' w).
  intros [] w' Hw. apply post_ret. cbn [fst snd].
  split; [reflexivity|]. split; [split; [exact Htz' | exact Hrest]|].
  apply only_writes_mono with (2 := Hw).
  intros addr Ha. unfold is_intpend_reg in *.
  rewrite <- (reg_among_same_device intpend_offsets data d' addr); [exact Ha|].
  split; [exact Htz' | exact Hrest].
Qed.

Lemma control_bits_run (F : Prop) (tz : thermal_zone_device) (on : bool)
  (con v s : Z) w :
  post F (control_bits (Some tz) on con v s) w (fun _ w' => w' = w).
Proof. unfold control_bits. destruct on; reflexivity. Qed.

(** Under the power-allocator governor [exynos8895_tmu_control] completes
    and writes the control and averaging registers only. *)
Lemma control_power_allocator (data : exynos_tmu_data)
  (tz : thermal_zone_device) (on : bool) w :
  tzd data = Some tz ->
  governor_name tz = "power_allocator"%string ->
  post False (exynos8895_tmu_control data on) w
       (fun _ w' => only_writes (is_control_reg data) w w').
Proof.
  intros Htz Hgov. unfold exynos8895_tmu_control.
  assert (Hcon : is_control_reg data (base data + EXYNOS_TMU_REG_CONTROL) = true)
    by (apply reg_among_offset; left; reflexivity).
  assert (Havg : is_control_reg data (base data + EXYNOS_TMU_REG_AVG_CON) = true)
    by (apply reg_among_offset; right; left; reflexivity).
  apply post_bind, post_readl. cbv zeta.
  apply post_bind.
  eapply post_conseq;
    [|apply (only_writes_writel False (is_control_reg data) _ _ w w Hcon
               (only_writes_refl _ w))].
  intros [] w1 H1. cbv beta.
  apply post_bind, post_readl. apply post_bind, post_readl.
  apply post_bind, post_readl. cbv zeta.
  apply post_bind, post_readl. apply post_bind, post_readl. cbv zeta.
  rewrite Htz. apply post_bind.
  eapply post_conseq; [|apply control_bits_run].
  intros [con interrupt_en] w2 ->. cbv beta iota.
  apply post_bind, post_deref.
  unfold governor_is_power_allocator. rewrite Hgov, String.eqb_refl.
  cbn [negb].
  apply post_bind, post_ret. apply post_bind.
  eapply post_conseq;
    [|apply (only_writes_writel False (is_control_reg data) _ _ w w1 Hcon H1)].
  intros [] w3 H3. cbv beta.
  apply (only_writes_writel False (is_control_reg data) _ _ w w3 Havg H3).
Qed.

(** C7 (amended): on the 8895 variant, with the governor
    "power_allocator", initialization completes with status 0 and writes
    no rising or falling threshold register, which keep the contents they
    had, and control, on or off, completes and writes no interrupt-enable
    register. *)
Theorem power_allocator_skips_thresholds (data : exynos_tmu_data)
  (tz : thermal_zone_device) (w : world) :
  tzd data = Some tz ->
  governor_name tz = "power_allocator"%string ->
  (exists data' w' new,
     exynos8895_tmu_initialize data w = Ok ((0, data'), w') /\
     trace w' = trace w ++ new /\
     (forall val addr, In (EvWritel val addr) new ->
                       is_threshold_reg data addr = false) /\
     (forall addr, is_threshold_reg data addr = true ->
                   mmio w' addr = mmio w addr)) /\
  (forall on, exists w' new,
     exynos8895_tmu_control data on w = Ok (tt, w') /\
     trace w' = trace w ++ new /\
     (forall val addr, In (EvWritel val addr) new ->
                       is_inten_reg data addr = false) /\
     (forall addr, is_inten_reg data addr = true ->
                   mmio w' addr = mmio w addr)).
Proof.
  intros Htz Hgov. split.
  - destruct (post_total _ _ _ (initialize_power_allocator data tz w Htz Hgov))
      as ([r data'] & w' & E & Hr & _ & (_ & (new & T & Fa) & Mm)).
    cbn [fst snd] in Hr. subst r.
    exists data', w', new. split; [exact E|]. split; [exact T|]. split.
    + intros val addr Hin. rewrite Forall_forall in Fa.
      destruct (Fa _ Hin) as (v & a & Heq & Hok). injection Heq as _ <-.
      apply (reg_among_disjoint intpend_offsets threshold_offsets data addr);
        [reflexivity | exact Hok].
    + intros addr Hthd. apply Mm.
      destruct (is_intpend_reg data addr) eqn:Hp; [|reflexivity].
      pose proof (reg_among_disjoint intpend_offsets threshold_offsets data
                    addr eq_refl Hp) as Hd.
      unfold is_threshold_reg in Hthd. congruence.
  - intros on.
    destruct (post_total _ _ _ (control_power_allocator data tz on w Htz Hgov))
      as ([] & w' & E & (_ & (new & T & Fa) & Mm)).
    exists w', new. split; [exact E|]. split; [exact T|]. split.
    + intros val addr Hin. rewrite Forall_forall in Fa.
      destruct (Fa _ Hin) as (v & a & Heq & Hok). injection Heq as _ <-.
      apply (reg_among_disjoint control_offsets inten_offsets data addr);
        [reflexivity | exact Hok].
    + intros addr Hen. apply Mm.
      destruct (is_control_reg data addr) eqn:Hp; [|reflexivity].
      pose proof (reg_among_disjoint control_offsets inten_offsets data
                    addr eq_refl Hp) as Hd.
      unfold is_inten_reg in Hen. congruence.
Qed.

End PowerAllocator.

Lemma power_allocator_skips_thresholds_witness :
  let data := sample_data SOC_ARCH_EXYNOS8895 0 1 75 135 7 0 "power_allocator" in
  let w := initial_world (regs_10_20_30 (base data)) in
  exists data' w' new,
    @exynos8895_tmu_initialize sample_header data w = Ok ((0, data'), w') /\
    trace w' = trace w ++ new /\
    (forall val addr, In (EvWritel val addr) new ->
                      is_threshold_reg data addr = false) /\
    (forall addr, is_threshold_reg data addr = true ->
                  mmio w' addr = mmio w addr).
Proof.
  cbv zeta.
  exact (proj1
    (@power_allocator_skips_thresholds sample_header
       (sample_data SOC_ARCH_EXYNOS8895 0 1 75 135 7 0 "power_allocator")
       (sample_zone "power_allocator")
       (initial_world (regs_10_20_30 0x10060000)) eq_refl eq_refl)).
Defined.

(** A trace none of whose writes goes to a register at the offsets [offs]
    has no write among them. *)
Lemma writes_among_none (offs : list Z) (data : exynos_tmu_data)
  (t : list event) :
  (forall val addr, In (EvWritel val addr) t ->
                    reg_among offs data addr = false) ->
  writes_among offs data t = false.
Proof.
  unfold writes_among. induction t as [|e t IH]; intros H; [reflexivity|].
  cbn [existsb]. rewrite IH by (intros v a Hin; apply (H v a); right; exact Hin).
  destruct e; try reflexivity.
  rewrite (H _ _ (or_introl eq_refl)). reflexivity.
Qed.

(** C7 (as stated) fails on the 8890 variant, whose initialization and
    control have no test of the governor: on an 8890 device whose thermal
    zone has the governor "power_allocator", it is not so that
    initialization completes with status 0 without a write to a rising or
    falling threshold register, and it is not so that control-on completes
    without a write to the interrupt-enable register. *)
Lemma power_allocator_8890_writes_thresholds :
  let w := initial_world (regs_10_20_30 0x10060000) in
  let d90 := sample_data SOC_ARCH_EXYNOS8890 0 1 75 135 1 0 "power_allocator" in
  soc d90 = SOC_ARCH_EXYNOS8890 /\
  tzd d90 = Some (sample_zone "power_allocator") /\
  governor_name (sample_zone "power_allocator") = "power_allocator"%string /\
  ~ (exists data' w' new,
       @exynos_tmu_initialize sample_header d90 w = Ok ((0, data'), w') /\
       trace w' = trace w ++ new /\
       (forall val addr, In (EvWritel val addr) new ->
                         is_threshold_reg d90 addr = false)) /\
  ~ (exists w' new,
       exynos_tmu_control d90 true w = Ok (tt, w') /\
       trace w' = trace w ++ new /\
       (forall val addr, In (EvWritel val addr) new ->
                         is_inten_reg d90 addr = false)).
Proof.
  cbv zeta. split; [reflexivity|]. split; [reflexivity|].
  split; [reflexivity|]. split.
  - intros (data' & w' & new & E & T & H).
    assert (V : writes_among threshold_offsets
                  (sample_data SOC_ARCH_EXYNOS8890 0 1 75 135 1 0
                               "power_allocator")
                  (trace_of
                     (@exynos_tmu_initialize sample_header
                        (sample_data SOC_ARCH_EXYNOS8890 0 1 75 135 1 0
                                     "power_allocator")
                        (initial_world (regs_10_20_30 0x10060000)))) = true)
      by (vm_compute; reflexivity).
    rewrite E in V. cbn [trace_of] in V.
    change (trace w' = new) in T. rewrite T in V.
    rewrite (writes_among_none _ _ _ H) in V. discriminate.
  - intros (w' & new & E & T & H).
    assert (V : writes_among inten_offsets
                  (sample_data SOC_ARCH_EXYNOS8890 0 1 75 135 1 0
                               "power_allocator")
                  (trace_of
                     (exynos_tmu_control
                        (sample_data SOC_ARCH_EXYNOS8890 0 1 75 135 1 0
                                     "power_allocator") true
                        (initial_world (regs_10_20_30 0x10060000)))) = true)
      by (vm_compute; reflexivity).
    rewrite E in V. cbn [trace_of] in V.
    change (trace w' = new) in T. rewrite T in V.
    rewrite (writes_among_none _ _ _ H) in V. discriminate.
Qed.

(** The branch is there to be skipped: under another governor the 8895
    variant does write threshold and interrupt-enable registers, and the
    8890 variant, which has no such branch, writes them under
    "power_allocator" too. *)
Example thresholds_written_otherwise :
  let w := initial_world (regs_10_20_30 0x10060000) in
  let d := sample_data SOC_ARCH_EXYNOS8895 0 1 75 135 7 0 "step_wise" in
  let d90 := sample_data SOC_ARCH_EXYNOS8890 0 1 75 135 1 0 "power_allocator" in
  writes_among threshold_offsets d
    (trace_of (@exynos8895_tmu_initialize sample_header d w)) = true /\
  writes_among inten_offsets d
    (trace_of (exynos8895_tmu_control d true w)) = true /\
  writes_among threshold_offsets d90
    (trace_of (@exynos8890_tmu_initialize sample_header d90 w)) = true /\
  writes_among inten_offsets d90
    (trace_of (exynos8890_tmu_control d90 true w)) = true.
Proof. cbv zeta. repeat split; vm_compute; reflexivity. Qed.

(** ** Register programming leaves the file-scope variables alone *)

Section Frame.

Context {hdr : exynos_tmu_h}.

Ltac frame_step :=
  lazymatch goal with
  | |- post _ (bind (readl _) _) _ _ =>
      simple apply post_bind; simple apply post_readl
  | |- post _ (bind (lift ?r) _) _ _ =>
      simple apply post_bind; simple apply post_lift;
      destruct r; [|exact I]
  | |- post _ (bind (deref ?p) _) _ _ =>
      simple apply post_bind; simple apply post_deref;
      destruct p; [|exact I]
  | |- post _ (bind (writel _ _) _) _ _ =>
      simple apply post_bind;
      eapply post_conseq;
      [|simple apply (only_writes_writel True any_reg);
        [reflexivity | eassumption]];
      intros [] ? ?
  | |- post _ (ret _) _ _ => simple apply post_ret; assumption
  end;
  cbv beta zeta.

Lemma program_trip_frame (data : exynos_tmu_data) (tz : thermal_zone_device)
  (ro bo : Z) (i : nat) (falling : Z) w0 w :
  only_writes any_reg w0 w ->
  post True (program_trip data tz ro bo i falling) w
       (fun _ w' => only_writes any_reg w0 w').
Proof.
  intros H. unfold program_trip. cbv zeta.
  repeat frame_step.
Qed.

Lemma clear_irqs_frame (data : exynos_tmu_data) w0 w :
  only_writes any_reg w0 w ->
  post True (tmu_clear_irqs data) w (fun _ w' => only_writes any_reg w0 w').
Proof.
  intros H.
  apply post_conseq with (2 := clear_irqs_only_writes True data w).
  intros [] w' Hw. apply only_writes_trans with (1 := H).
  apply only_writes_mono with (2 := Hw). reflexivity.
Qed.

Lemma trip_loop_frame (data : exynos_tmu_data) (tz : thermal_zone_device)
  (ro : Z -> Z) (l : list nat) (falling : Z) w0 w :
  only_writes any_reg w0 w ->
  post True
       (for_each l
          (fun i falling_threshold =>
             program_trip data tz (ro (Z.of_nat i)) (bit_off (Z.of_nat i))
                          i falling_threshold)
          falling) w
       (fun _ w' => only_writes any_reg w0 w').
Proof.
  intros H.
  apply (post_for_each True l _ (fun _ w' => only_writes any_reg w0 w'));
    [|exact H].
  intros i s w1 _ H1. apply program_trip_frame. exact H1.
Qed.

Lemma initialize_frame (data : exynos_tmu_data) w :
  post True (exynos_tmu_initialize data) w
       (fun r w' => same_device data (snd r) /\ only_writes any_reg w w').
Proof.
  unfold exynos_tmu_initialize. destruct (soc data).
  - unfold exynos8890_tmu_initialize.
    apply post_bind, post_readl. cbv zeta.
    match goal with |- post _ (bind (deref (tzd ?d)) _) _ _ =>
      assert (Hsame : same_device data d)
        by (repeat (match goal with
                    | |- context [if ?c then _ else _] => destruct c
                    end); repeat split);
      generalize dependent d end.
    intros d Hsame.
    apply post_bind, post_deref. destruct (tzd d) as [tz|]; [|exact I].
    apply post_bind.
    eapply post_conseq;
      [|apply (trip_loop_frame d tz reg_off _ 0 w w (only_writes_refl _ w))].
    intros f w1 H1. cbv beta. apply post_bind.
    eapply post_conseq; [|apply (clear_irqs_frame d w w1 H1)].
    intros [] w2 H2. apply post_ret. split; assumption.
  - unfold exynos8895_tmu_initialize.
    apply post_bind.
    apply post_conseq with (2 := trim_loop_keeps True data w).
    intros d w' (-> & Hsame).
    apply post_bind, post_deref. destruct (tzd d) as [tz|]; [|exact I].
    apply post_bind.
    apply post_conseq with (Q := fun _ w' => only_writes any_reg w w').
    + intros [] w1 H1. apply post_bind.
      eapply post_conseq; [|apply (clear_irqs_frame d w w1 H1)].
      intros [] w2 H2. apply post_ret. split; assumption.
    + destruct (negb (governor_is_power_allocator tz));
        [|apply post_ret; apply only_writes_refl].
      apply post_bind.
      apply post_conseq with (Q := fun _ w' => only_writes any_reg w w').
      * intros f w1 H1. apply post_ret. exact H1.
      * apply (post_for_each True sensor_indices _
                 (fun _ w' => only_writes any_reg w w'));
          [|apply only_writes_refl].
        intros j f w1 _ H1.
        destruct (sensor_active d j); [|apply post_ret; exact H1].
        apply (trip_loop_frame d tz (reg_off_sensor j) _ f w w1 H1).
Qed.

Lemma control_bits_frame (F : Prop) (tz : option thermal_zone_device)
  (on : bool) (con v s : Z) w :
  (tz = None -> F) ->
  post F (control_bits tz on con v s) w (fun _ w' => w' = w).
Proof.
  intros Hnull. unfold control_bits. destruct on; [|reflexivity].
  cbv zeta. apply post_bind, post_deref.
  destruct tz; [reflexivity | exact (Hnull eq_refl)].
Qed.

(** Control writes registers only; the one fault it can run into is a
    device without a thermal zone. *)
Lemma control_frame (F : Prop) (data : exynos_tmu_data) (on : bool) w :
  (tzd data = None -> F) ->
  post F (exynos_tmu_control data on) w
       (fun _ w' => only_writes any_reg w w').
Proof.
  intros Hnull.
  pose proof (only_writes_refl any_reg w) as H0.
  unfold exynos_tmu_control. destruct (soc data).
  - unfold exynos8890_tmu_control.
    do 3 (simple apply post_bind; simple apply post_readl; cbv beta zeta).
    apply post_bind.
    eapply post_conseq; [|apply control_bits_frame; exact Hnull].
    intros [con interrupt_en] w1 ->. cbv beta iota.
    apply post_bind.
    eapply post_conseq;
      [|apply (only_writes_writel F any_reg); [reflexivity | exact H0]].
    intros [] w2 H2.
    apply (only_writes_writel F any_reg); [reflexivity | exact H2].
  - unfold exynos8895_tmu_control.
    simple apply post_bind; simple apply post_readl; cbv beta zeta.
    apply post_bind.
    eapply post_conseq;
      [|apply (only_writes_writel F any_reg); [reflexivity | exact H0]].
    intros [] w1 H1. cbv beta.
    do 5 (simple apply post_bind; simple apply post_readl; cbv beta zeta).
    apply post_bind.
    eapply post_conseq; [|apply control_bits_frame; exact Hnull].
    intros [con interrupt_en] w2 ->. cbv beta iota.
    apply post_bind, post_deref.
    destruct (tzd data) as [tz|]; [|exact (Hnull eq_refl)].
    apply post_bind.
    apply post_conseq with (Q := fun _ w' => only_writes any_reg w w').
    + intros [] w3 H3. apply post_bind.
      eapply post_conseq;
        [|apply (only_writes_writel F any_reg); [reflexivity | exact H3]].
      intros [] w4 H4.
      apply (only_writes_writel F any_reg); [reflexivity | exact H4].
    + destruct (negb (governor_is_power_allocator tz));
        [|apply post_ret; exact H1].
      apply (post_for_each F sensor_indices _
               (fun _ w' => only_writes any_reg w w')); [|exact H1].
      intros i [] w3 _ H3.
      destruct (sensor_active data i); [|apply post_ret; exact H3].
      apply (only_writes_writel F any_reg); [reflexivity | exact H3].
Qed.

End Frame.

(** ** PM notifier registration *)

Section Registry.

Context {hdr : exynos_tmu_h}.

Lemma only_writes_same_registry (ok : Z -> bool) w w' :
  only_writes ok w w' -> same_registry w w'.
Proof. intros ((_ & _ & Hl & Hn & _) & _). split; assumption. Qed.

Lemma same_registry_refl w : same_registry w w.
Proof. split; reflexivity. Qed.

Lemma same_registry_trans w1 w2 w3 :
  same_registry w1 w2 -> same_registry w2 w3 -> same_registry w1 w3.
Proof. intros (A1 & A2) (B1 & B2). split; congruence. Qed.

(** What a probe does to the registry and the notifier: nothing, or one
    device appended, which has a thermal zone, with a registration exactly
    when the registry was empty. *)
Lemma probe_registry (pdev : platform_device) w :
  post True (exynos_tmu_probe pdev) w
       (fun _ w' =>
          same_registry w w' \/
          exists data,
            tzd data <> None /\
            dtm_dev_list w' = dtm_dev_list w ++ [data] /\
            pm_notifier_registered w' =
              match dtm_dev_list w with
              | [] => S (pm_notifier_registered w)
              | _ :: _ => pm_notifier_registered w
              end).
Proof.
  unfold exynos_tmu_probe.
  destruct (negb (pd_cpufreq_table pdev));
    [apply post_ret; left; apply same_registry_refl|].
  destruct (negb (pd_kzalloc pdev));
    [apply post_ret; left; apply same_registry_refl|].
  destruct (pd_map_dt_data pdev) as [r0 data0].
  destruct (negb (r0 =? 0));
    [apply post_ret; left; apply same_registry_refl|].
  destruct (cooling_register pdev data0) as [r1 data1].
  destruct (negb (r1 =? 0));
    [apply post_ret; left; apply same_registry_refl|].
  apply post_bind.
  apply post_conseq with (Q := fun _ w1 => same_registry w w1);
    [|destruct (hotplug_enable data1); split; reflexivity].
  intros [] w1 H1.
  destruct (pd_sensor_register pdev) as [err|tz];
    [apply post_ret; left; exact H1|].
  apply post_bind.
  apply post_conseq with (2 := initialize_frame (set_tzd data1 (Some tz)) w1).
  intros [r2 data2] w2 ((Hzone & _) & H2).
  cbn [snd tzd set_tzd] in Hzone.
  apply only_writes_same_registry in H2.
  pose proof (same_registry_trans _ _ _ H1 H2) as H12.
  destruct (negb (r2 =? 0)).
  { apply post_bind. unfold post, emit, ret. left. exact H12. }
  destruct (negb (pd_request_irq pdev =? 0)).
  { apply post_bind. unfold post, emit, ret. left. exact H12. }
  apply post_bind.
  apply post_conseq with (2 := control_frame True data2 true w2 (fun _ => I)).
  intros [] w3 H3. apply only_writes_same_registry in H3.
  destruct (same_registry_trans _ _ _ H12 H3) as (Hl & Hn).
  unfold post, bind, get_dtm_dev_list, set_dtm_dev_list.
  cbn [dtm_dev_list]. rewrite Hl.
  destruct (dtm_dev_list w) as [|d0 [|d1 l1]];
    cbn [app list_is_singular];
    unfold register_pm_notifier, set_pm_notifier_registered, bind, emit, ret;
    cbn [dtm_dev_list pm_notifier_registered];
    right; exists data2;
    (split; [congruence | split; [reflexivity | congruence]]).
Qed.

(** The removal up to its loop: the notifier is unregistered exactly when
    the registry holds a single device, the sensor is unregistered and
    switched off, and the registry is as it was. *)
Lemma remove_before_loop (data : exynos_tmu_data) w :
  tzd data <> None ->
  exists w1,
    ((l <- get_dtm_dev_list ;;
      (if list_is_singular l then unregister_pm_notifier else ret tt) ;;;
      emit EvSensorUnregister ;;;
      exynos_tmu_control data false) w) = Ok (tt, w1) /\
    dtm_dev_list w1 = dtm_dev_list w /\
    pm_notifier_registered w1 =
      if list_is_singular (dtm_dev_list w)
      then Nat.pred (pm_notifier_registered w)
      else pm_notifier_registered w.
Proof.
  intros Hnull.
  assert (H : post False
                (l <- get_dtm_dev_list ;;
                 (if list_is_singular l then unregister_pm_notifier
                  else ret tt) ;;;
                 emit EvSensorUnregister ;;;
                 exynos_tmu_control data false) w
                (fun _ w1 =>
                   dtm_dev_list w1 = dtm_dev_list w /\
                   pm_notifier_registered w1 =
                     if list_is_singular (dtm_dev_list w)
                     then Nat.pred (pm_notifier_registered w)
                     else pm_notifier_registered w)).
  { apply post_bind. unfold post at 1, get_dtm_dev_list at 1.
    apply post_bind.
    apply post_conseq
      with (Q := fun _ w1 =>
                   dtm_dev_list w1 = dtm_dev_list w /\
                   pm_notifier_registered w1 =
                     if list_is_singular (dtm_dev_list w)
                     then Nat.pred (pm_notifier_registered w)
                     else pm_notifier_registered w);
      [|destruct (list_is_singular (dtm_dev_list w)); split; reflexivity].
    intros [] w1 (Hl1 & Hn1).
    apply post_bind. unfold post at 1, emit at 1.
    eapply post_conseq;
      [|apply control_frame; intros E; exact (Hnull E)].
    intros [] w2 H2. apply only_writes_same_registry in H2.
    destruct H2 as (Hl2 & Hn2). cbn [dtm_dev_list pm_notifier_registered] in *.
    split; congruence. }
  destruct (post_total _ _ _ H) as ([] & w1 & E & Hl & Hn).
  exists w1. split; [exact E|]. split; assumption.
Qed.

(** The loop of the removal stops with a read through the poisoned
    pointer as soon as an entry carries the id of [data]. *)
Lemma remove_loop_faults (data : exynos_tmu_data)
  (rest before : list exynos_tmu_data) w :
  (exists devnode, In devnode rest /\ id devnode = id data) ->
  remove_loop data before rest w = Fault PoisonedPointer.
Proof.
  revert before. induction rest as [|d rest IH]; intros before (x & Hin & Hx).
  - destruct Hin.
  - cbn [remove_loop].
    destruct (Z.eqb_spec (id d) (id data)) as [Heq|Hne]; [reflexivity|].
    apply IH. destruct Hin as [->|Hin]; [contradiction|].
    exists x. split; assumption.
Qed.

(** Without an entry of that id the loop passes over the whole registry
    and leaves it alone. *)
Lemma remove_loop_no_entry (data : exynos_tmu_data)
  (rest before : list exynos_tmu_data) w :
  (forall devnode, In devnode rest -> id devnode <> id data) ->
  remove_loop data before rest w = Ok (tt, w).
Proof.
  revert before. induction rest as [|d rest IH]; intros before H.
  - reflexivity.
  - cbn [remove_loop].
    destruct (Z.eqb_spec (id d) (id data)) as [Heq|Hne].
    + exfalso. apply (H d); [left; reflexivity | exact Heq].
    + apply IH. intros x Hx. apply H. right. exact Hx.
Qed.

(** The probe half of the notifier invariant: a probe keeps "registered
    if and only if the registry is non-empty", registers exactly when it
    makes the registry non-empty, and leaves every registered device with
    a thermal zone. *)
Lemma probe_tracks_registry (w : world) :
  notifier_inv w ->
  registered_have_zone (dtm_dev_list w) ->
  forall pdev r w',
    exynos_tmu_probe pdev w = Ok (r, w') ->
    notifier_inv w' /\
    registered_have_zone (dtm_dev_list w') /\
    (same_registry w w' \/
     exists data,
       dtm_dev_list w' = dtm_dev_list w ++ [data] /\
       pm_notifier_registered w' =
         match dtm_dev_list w with
         | [] => S (pm_notifier_registered w)
         | _ :: _ => pm_notifier_registered w
         end).
Proof.
  intros Hinv Hzones. unfold notifier_inv in Hinv.
  intros pdev r w' E.
  pose proof (post_partial _ _ _ _ _ (probe_registry pdev w) E) as H.
  destruct H as [(Hl & Hn) | (data & Hz & Hl & Hn)].
  - split; [|split].
    + unfold notifier_inv. rewrite Hl, Hn. exact Hinv.
    + rewrite Hl. exact Hzones.
    + left. split; assumption.
  - split; [|split].
    + unfold notifier_inv. rewrite Hl, Hn.
      destruct (dtm_dev_list w); cbn [app]; rewrite Hinv; reflexivity.
    + rewrite Hl. unfold registered_have_zone in *.
      apply Forall_app. split; [exact Hzones|].
      constructor; [exact Hz | constructor].
    + right. exists data. split; assumption.
Qed.

(** C8: the removal step the claim needs does not complete.  For a device
    with a thermal zone whose id is the id of an entry of the registry,
    which is every device that was probed, [exynos_tmu_remove] unlinks
    that entry inside the plain [list_for_each_entry] and then reads
    through the poisoned [next] pointer of the unlinked node: the call
    ends in that fault instead of returning 0, whatever else the registry
    holds.  (A device whose id is on no entry is removed with status 0
    and the registry as it was.) *)
Theorem remove_registered_faults (data : exynos_tmu_data) (w : world) :
  tzd data <> None ->
  ((exists devnode, In devnode (dtm_dev_list w) /\ id devnode = id data) ->
   exynos_tmu_remove data w = Fault PoisonedPointer) /\
  ((forall devnode, In devnode (dtm_dev_list w) -> id devnode <> id data) ->
   exists w',
     exynos_tmu_remove data w = Ok (0, w') /\
     dtm_dev_list w' = dtm_dev_list w).
Proof.
  intros Hnull.
  destruct (remove_before_loop data w Hnull) as (w1 & E & Hl & _).
  assert (R : exynos_tmu_remove data w
              = (l <- get_dtm_dev_list ;; remove_loop data [] l ;;; ret 0) w1).
  { unfold exynos_tmu_remove. unfold bind in E |- *.
    unfold get_dtm_dev_list at 1. unfold get_dtm_dev_list at 1 in E.
    destruct ((if list_is_singular (dtm_dev_list w)
               then unregister_pm_notifier else ret tt) w)
      as [[[] wa]|f]; [|discriminate].
    destruct (emit EvSensorUnregister wa) as [[[] wb]|f]; [|discriminate].
    rewrite E. reflexivity. }
  rewrite R. unfold bind, get_dtm_dev_list. cbv beta iota. rewrite Hl.
  split.
  - intros Hex.
    rewrite (remove_loop_faults data _ [] w1 Hex). reflexivity.
  - intros Hno.
    rewrite (remove_loop_no_entry data _ [] w1 Hno).
    exists w1. split; [reflexivity | exact Hl].
Qed.

End Registry.

Lemma remove_registered_faults_witness :
  let d0 := sample_data SOC_ARCH_EXYNOS8895 0 1 75 135 7 0 "step_wise" in
  exynos_tmu_remove d0 (sample_world (fun _ => 0) false [d0] 1)
  = Fault PoisonedPointer.
Proof.
  cbv zeta.
  apply (proj1 (remove_registered_faults
                  (sample_data SOC_ARCH_EXYNOS8895 0 1 75 135 7 0 "step_wise")
                  (sample_world (fun _ => 0) false
                     [sample_data SOC_ARCH_EXYNOS8895 0 1 75 135 7 0
                                  "step_wise"] 1)
                  ltac:(discriminate))).
  eexists. split; [left; reflexivity | reflexivity].
Defined.

(** Two devices with ids 0 and 1: one registration after the first probe
    and still one after the second; the removal of either of them, and of
    a device probed alone, ends in the fault. *)
Example two_devices_one_registration :
  let w0 := initial_world (fun _ => 0) in
  let d0 := sample_data SOC_ARCH_EXYNOS8895 0 1 75 135 7 0 "step_wise" in
  let d1 :=
    at_base (sample_data SOC_ARCH_EXYNOS8890 1 1 75 135 1 0 "step_wise")
            0x10070000 in
  let probe := @exynos_tmu_probe sample_header in
  let remove := exynos_tmu_remove in
  registry_view (probe (sample_pdev d0) w0) = Some ([0], 1%nat) /\
  registry_view ((probe (sample_pdev d0) ;;; probe (sample_pdev d1)) w0)
    = Some ([0; 1], 1%nat) /\
  (probe (sample_pdev d0) ;;; remove d0) w0 = Fault PoisonedPointer /\
  (probe (sample_pdev d0) ;;; probe (sample_pdev d1) ;;; remove d0) w0
    = Fault PoisonedPointer /\
  (probe (sample_pdev d0) ;;; probe (sample_pdev d1) ;;; remove d1) w0
    = Fault PoisonedPointer.
Proof. cbv zeta. repeat split; vm_compute; reflexivity. Qed.

(** The policy on thresholds of 70 and 85 degrees: 86000 throttles, 75000
    keeps the CPUs out, 69000 releases them, 72000 leaves them in. *)
Example hysteresis_walk :
  let d := sample_data SOC_ARCH_EXYNOS8895 0 1 75 135 7 0 "step_wise" in
  let w := sample_world (fun _ => 0) false [] 0 in
  let throttle := @exynos_throttle_cpu_hotplug sample_header d in
  throttle_view (throttle 86000 w)
    = Some (true, [EvPmQosUpdateRequest 4]) /\
  throttle_view ((throttle 86000 ;;; throttle 75000) w)
    = Some (true, [EvPmQosUpdateRequest 4]) /\
  throttle_view ((throttle 86000 ;;; throttle 75000 ;;; throttle 69000) w)
    = Some (false, [EvPmQosUpdateRequest 4; EvPmQosUpdateRequest 8]) /\
  throttle_view
    ((throttle 86000 ;;; throttle 75000 ;;; throttle 69000 ;;;
      throttle 72000) w)
    = Some (false, [EvPmQosUpdateRequest 4; EvPmQosUpdateRequest 8]).
Proof. cbv zeta. repeat split; vm_compute; reflexivity. Qed.

(** * Further properties of the driver *)

(** ** More on integer conversions *)

Lemma to_u8_range z : is_u8 (to_u8 z).
Proof. unfold is_u8, to_u8. apply Z.mod_pos_bound. reflexivity. Qed.

Lemma to_u16_range z : is_u16 (to_u16 z).
Proof. unfold is_u16, to_u16. apply Z.mod_pos_bound. reflexivity. Qed.

Lemma to_u32_range z : is_u32 (to_u32 z).
Proof. unfold is_u32, to_u32. apply Z.mod_pos_bound. reflexivity. Qed.

(** ** Calibration: range, clamping, faults, order *)

Section CalibrationMore.

Context {hdr : exynos_tmu_h}.

(** X1: whatever the calibration and the code, a temperature that
    [code_to_temp] returns lies in the valid range. *)
Theorem code_to_temp_in_range (data : exynos_tmu_data) (code t : Z) :
  EXYNOS_MIN_TEMP <= EXYNOS_MAX_TEMP ->
  code_to_temp data code = Ok t ->
  EXYNOS_MIN_TEMP <= t <= EXYNOS_MAX_TEMP.
Proof.
  intros Hr. unfold code_to_temp.
  match goal with |- rbind ?r _ = _ -> _ => destruct r as [raw|f] end;
    cbn [rbind]; [|discriminate].
  intros E. injection E as <-.
  destruct (Z.gtb_spec raw EXYNOS_MAX_TEMP); [lia|].
  destruct (Z.ltb_spec raw EXYNOS_MIN_TEMP); lia.
Qed.

(** What [temp_to_code] converts: the argument taken as a [u8] and brought
    into the valid range. *)
Lemma temp_to_code_clamp (data : exynos_tmu_data) (temp : Z) :
  temp_range_typed ->
  temp_to_code data temp = temp_to_code data (clamp_temp (to_u8 temp)).
Proof.
  intros (Hmin & Hle & Hmax).
  assert (Hu : forall z,
            (if z >? EXYNOS_MAX_TEMP then to_u8 EXYNOS_MAX_TEMP
             else if z <? EXYNOS_MIN_TEMP then to_u8 EXYNOS_MIN_TEMP
             else z) = clamp_temp z).
  { intros z.
    rewrite (to_u8_id EXYNOS_MAX_TEMP) by (unfold is_u8; lia).
    rewrite (to_u8_id EXYNOS_MIN_TEMP) by (unfold is_u8; lia).
    unfold clamp_temp.
    destruct (Z.gtb_spec z EXYNOS_MAX_TEMP); [lia|].
    destruct (Z.ltb_spec z EXYNOS_MIN_TEMP); lia. }
  assert (Hc : is_u8 (clamp_temp (to_u8 temp))).
  { pose proof (to_u8_range temp) as Ht.
    unfold is_u8, clamp_temp in *. lia. }
  unfold temp_to_code.
  rewrite (to_u8_id _ Hc), !Hu.
  replace (clamp_temp (clamp_temp (to_u8 temp))) with (clamp_temp (to_u8 temp))
    by (unfold clamp_temp; lia).
  reflexivity.
Qed.

(** X2: [temp_to_code] clamps without an error: a [u8] temperature above
    the maximum converts like the maximum, one below the minimum like the
    minimum; and since the argument is a [u8], a negative temperature down
    to [MAX - 255] converts like the maximum as well. *)
Theorem temp_to_code_clamps (data : exynos_tmu_data) (temp : Z) :
  temp_range_typed ->
  (EXYNOS_MAX_TEMP <= temp <= 255 ->
   temp_to_code data temp = temp_to_code data EXYNOS_MAX_TEMP) /\
  (0 <= temp <= EXYNOS_MIN_TEMP ->
   temp_to_code data temp = temp_to_code data EXYNOS_MIN_TEMP) /\
  (EXYNOS_MAX_TEMP - 256 <= temp < 0 ->
   temp_to_code data temp = temp_to_code data EXYNOS_MAX_TEMP).
Proof.
  intros Hty. pose proof Hty as (Hmin & Hle & Hmax).
  assert (Hmaxc : clamp_temp (to_u8 EXYNOS_MAX_TEMP) = EXYNOS_MAX_TEMP).
  { rewrite to_u8_id by (unfold is_u8; lia). unfold clamp_temp. lia. }
  assert (Hminc : clamp_temp (to_u8 EXYNOS_MIN_TEMP) = EXYNOS_MIN_TEMP).
  { rewrite to_u8_id by (unfold is_u8; lia). unfold clamp_temp. lia. }
  split; [|split]; intros Ht;
    rewrite (temp_to_code_clamp data temp Hty).
  - rewrite (temp_to_code_clamp data EXYNOS_MAX_TEMP Hty), Hmaxc.
    rewrite to_u8_id by (unfold is_u8; lia).
    f_equal. unfold clamp_temp. lia.
  - rewrite (temp_to_code_clamp data EXYNOS_MIN_TEMP Hty), Hminc.
    rewrite to_u8_id by (unfold is_u8; lia).
    f_equal. unfold clamp_temp. lia.
  - rewrite (temp_to_code_clamp data EXYNOS_MAX_TEMP Hty), Hmaxc.
    assert (E : to_u8 temp = temp + 256).
    { unfold to_u8. symmetry.
      apply (Z.mod_unique_pos temp (2 ^ 8) (-1) (temp + 256)); lia. }
    rewrite E. f_equal. unfold clamp_temp. lia.
Qed.

(** X3: the conversions fault exactly on a degenerate two-point
    calibration: [temp_to_code] divides by zero, for every temperature,
    when the mode is TWO_POINT and the trim points are equal, and returns a
    code otherwise; [code_to_temp] divides by zero, for every code, when
    the mode is TWO_POINT and the fused codes are equal, and returns a
    temperature otherwise. *)
Theorem calibration_faults (data : exynos_tmu_data) (z : Z) :
  calib_fields_typed data ->
  (if (cal_type (pdata data) =? TYPE_TWO_POINT_TRIMMING)
      && (second_point_trim (pdata data) =? first_point_trim (pdata data))
   then temp_to_code data z = Fault DivideByZero
   else exists code, temp_to_code data z = Ok code) /\
  (if (cal_type (pdata data) =? TYPE_TWO_POINT_TRIMMING)
      && (temp_error2 data =? temp_error1 data)
   then code_to_temp data z = Fault DivideByZero
   else exists temp, code_to_temp data z = Ok temp).
Proof.
  intros (He1 & He2 & Hp1 & Hp2 & _).
  unfold is_u8, is_u16 in *.
  assert (Dp : int_sub (second_point_trim (pdata data))
                       (first_point_trim (pdata data))
               = second_point_trim (pdata data) - first_point_trim (pdata data))
    by (unfold int_sub; apply to_int_id; unfold is_int; lia).
  assert (Dc : int_sub (temp_error2 data) (temp_error1 data)
               = temp_error2 data - temp_error1 data)
    by (unfold int_sub; apply to_int_id; unfold is_int; lia).
  unfold temp_to_code, code_to_temp, int_div.
  destruct (cal_type (pdata data) =? TYPE_TWO_POINT_TRIMMING); cbn [andb].
  - rewrite !Dp, !Dc. split.
    + destruct (Z.eqb_spec (second_point_trim (pdata data))
                           (first_point_trim (pdata data))) as [E|N].
      * replace (second_point_trim (pdata data)
                 - first_point_trim (pdata data) =? 0) with true
          by (symmetry; apply Z.eqb_eq; lia).
        reflexivity.
      * replace (second_point_trim (pdata data)
                 - first_point_trim (pdata data) =? 0) with false
          by (symmetry; apply Z.eqb_neq; lia).
        eexists. reflexivity.
    + destruct (Z.eqb_spec (temp_error2 data) (temp_error1 data)) as [E|N].
      * replace (temp_error2 data - temp_error1 data =? 0) with true
          by (symmetry; apply Z.eqb_eq; lia).
        reflexivity.
      * replace (temp_error2 data - temp_error1 data =? 0) with false
          by (symmetry; apply Z.eqb_neq; lia).
        eexists. reflexivity.
  - split; destruct (cal_type (pdata data) =? TYPE_ONE_POINT_TRIMMING);
      eexists; reflexivity.
Qed.

(** Without the [int] wrappers: what [temp_to_code] computes for a
    temperature of the valid range, over the integers. *)
Lemma temp_to_code_value (data : exynos_tmu_data) (temp : Z) :
  calib_fields_typed data -> temp_range_typed ->
  EXYNOS_MIN_TEMP <= temp <= EXYNOS_MAX_TEMP ->
  temp_to_code data temp =
  if cal_type (pdata data) =? TYPE_TWO_POINT_TRIMMING then
    if second_point_trim (pdata data) - first_point_trim (pdata data) =? 0
    then Fault DivideByZero
    else Ok (Z.quot ((temp - first_point_trim (pdata data))
                     * (temp_error2 data - temp_error1 data))
                    (second_point_trim (pdata data)
                     - first_point_trim (pdata data))
             + temp_error1 data)
  else if cal_type (pdata data) =? TYPE_ONE_POINT_TRIMMING then
    Ok (temp + temp_error1 data - first_point_trim (pdata data))
  else Ok (temp + default_temp_offset (pdata data)).
Proof.
  intros (He1 & He2 & Hp1 & Hp2 & Hoff) (Hmin & Hle & Hmax) Ht.
  unfold temp_to_code.
  rewrite temp_not_clamped by (unfold is_u8; lia).
  unfold is_u8, is_u16 in *.
  set (p1 := first_point_trim (pdata data)) in *.
  set (p2 := second_point_trim (pdata data)) in *.
  set (e1 := temp_error1 data) in *.
  set (e2 := temp_error2 data) in *.
  destruct (cal_type (pdata data) =? TYPE_TWO_POINT_TRIMMING).
  - unfold int_div, int_mul, int_sub, int_add.
    rewrite (to_int_id (p2 - p1)) by (unfold is_int; lia).
    destruct (p2 - p1 =? 0); [reflexivity|]. cbn [rbind].
    rewrite (to_int_id (temp - p1)) by (unfold is_int; lia).
    rewrite (to_int_id (e2 - e1)) by (unfold is_int; lia).
    assert (Hprod : Z.abs ((temp - p1) * (e2 - e1)) <= 255 * 65535).
    { rewrite Z.abs_mul. apply Z.mul_le_mono_nonneg; lia. }
    rewrite (to_int_id ((temp - p1) * (e2 - e1))) by (unfold is_int; lia).
    pose proof (quot_abs_le ((temp - p1) * (e2 - e1)) (p2 - p1)) as Hq.
    rewrite (to_int_id (Z.quot _ _)) by (unfold is_int; lia).
    rewrite to_int_id by (unfold is_int; lia).
    reflexivity.
  - destruct (cal_type (pdata data) =? TYPE_ONE_POINT_TRIMMING).
    + unfold int_sub, int_add.
      rewrite (to_int_id (temp + e1)) by (unfold is_int; lia).
      rewrite to_int_id by (unfold is_int; lia). reflexivity.
    + unfold int_add. rewrite to_int_id by (unfold is_int; lia).
      reflexivity.
Qed.

(** X4: with trim points in order and fused codes in order, a higher
    temperature never gets a lower code: [temp_to_code] is monotone over
    all [u8] temperatures, clamping included. *)
Theorem temp_to_code_monotone (data : exynos_tmu_data) (t1 t2 : Z) :
  calib_fields_typed data -> temp_range_typed ->
  (cal_type (pdata data) = TYPE_TWO_POINT_TRIMMING ->
   first_point_trim (pdata data) < second_point_trim (pdata data) /\
   temp_error1 data <= temp_error2 data) ->
  is_u8 t1 -> is_u8 t2 -> t1 <= t2 ->
  exists c1 c2,
    temp_to_code data t1 = Ok c1 /\ temp_to_code data t2 = Ok c2 /\
    c1 <= c2.
Proof.
  intros Hty Hr Hcal H1 H2 Hle.
  rewrite (temp_to_code_clamp data t1 Hr), (temp_to_code_clamp data t2 Hr).
  rewrite (to_u8_id t1 H1), (to_u8_id t2 H2).
  pose proof Hr as (Hmin & Hmm & Hmax).
  assert (Hc1 : EXYNOS_MIN_TEMP <= clamp_temp t1 <= EXYNOS_MAX_TEMP)
    by (unfold clamp_temp; lia).
  assert (Hc2 : EXYNOS_MIN_TEMP <= clamp_temp t2 <= EXYNOS_MAX_TEMP)
    by (unfold clamp_temp; lia).
  assert (Hcc : clamp_temp t1 <= clamp_temp t2) by (unfold clamp_temp; lia).
  rewrite (temp_to_code_value data _ Hty Hr Hc1).
  rewrite (temp_to_code_value data _ Hty Hr Hc2).
  destruct (Z.eqb_spec (cal_type (pdata data)) TYPE_TWO_POINT_TRIMMING)
    as [E|_].
  - destruct (Hcal E) as [Hp He].
    replace (second_point_trim (pdata data)
             - first_point_trim (pdata data) =? 0) with false
      by (symmetry; apply Z.eqb_neq; lia).
    eexists. eexists. split; [reflexivity|]. split; [reflexivity|].
    apply Z.add_le_mono_r. apply Z.quot_le_mono; [lia|].
    apply Z.mul_le_mono_nonneg_r; lia.
  - destruct (cal_type (pdata data) =? TYPE_ONE_POINT_TRIMMING);
      eexists; eexists; (split; [reflexivity|]); (split; [reflexivity|]); lia.
Qed.

End CalibrationMore.

Lemma code_to_temp_in_range_witness :
  @EXYNOS_MIN_TEMP sample_header <= 125 <= @EXYNOS_MAX_TEMP sample_header.
Proof.
  apply (@code_to_temp_in_range sample_header
           (calibrated 1 25 85 75 135) 500 125).
  - cbn. lia.
  - vm_compute. reflexivity.
Defined.

Lemma temp_to_code_clamps_witness :
  let data := calibrated 1 25 85 75 135 in
  @temp_to_code sample_header data 200 = @temp_to_code sample_header data 125
  /\ @temp_to_code sample_header data 3 = @temp_to_code sample_header data 10
  /\ @temp_to_code sample_header data (-5)
     = @temp_to_code sample_header data 125.
Proof.
  intros data.
  assert (Hty : @temp_range_typed sample_header)
    by (unfold temp_range_typed; cbn; lia).
  destruct (@temp_to_code_clamps sample_header data 200 Hty) as (A & _ & _).
  destruct (@temp_to_code_clamps sample_header data 3 Hty) as (_ & B & _).
  destruct (@temp_to_code_clamps sample_header data (-5) Hty) as (_ & _ & C).
  split; [apply A; cbn; lia|].
  split; [apply B; cbn; lia|apply C; cbn; lia].
Defined.

Lemma calibration_faults_witness :
  @temp_to_code sample_header (calibrated 1 25 25 75 135) 50
  = Fault DivideByZero /\
  exists temp,
    @code_to_temp sample_header (calibrated 1 25 25 75 135) 100 = Ok temp.
Proof.
  assert (Hty : calib_fields_typed (calibrated 1 25 25 75 135))
    by (unfold calib_fields_typed, is_u16, is_u8; cbn; lia).
  split.
  - exact (proj1 (@calibration_faults sample_header
                    (calibrated 1 25 25 75 135) 50 Hty)).
  - exact (proj2 (@calibration_faults sample_header
                    (calibrated 1 25 25 75 135) 100 Hty)).
Defined.

Lemma temp_to_code_monotone_witness :
  exists c1 c2,
    @temp_to_code sample_header (calibrated 1 25 85 75 135) 40 = Ok c1 /\
    @temp_to_code sample_header (calibrated 1 25 85 75 135) 90 = Ok c2 /\
    c1 <= c2.
Proof.
  apply (@temp_to_code_monotone sample_header (calibrated 1 25 85 75 135)).
  - unfold calib_fields_typed, is_u16, is_u8. cbn. lia.
  - unfold temp_range_typed. cbn. lia.
  - intros _. cbn. lia.
  - unfold is_u8. lia.
  - unfold is_u8. lia.
  - lia.
Defined.

(** ** Multi-sensor read: what each policy returns *)

Lemma land_mask_range x : 0 <= Z.land x EXYNOS_TMU_TEMP_MASK <= 511.
Proof.
  replace (Z.land x EXYNOS_TMU_TEMP_MASK) with (x mod 2 ^ 9)
    by (symmetry; apply (Z.land_ones x 9); lia).
  pose proof (Z.mod_pos_bound x (2 ^ 9)). lia.
Qed.

Lemma sensor_code_run (data : exynos_tmu_data) (i : nat) w :
  read_sensor_code data i w = Ok (sensor_code data w i, w) /\
  0 <= sensor_code data w i <= 511.
Proof.
  unfold sensor_code, read_sensor_code, bind, readl, ret. cbv zeta.
  split; [reflexivity | apply land_mask_range].
Qed.

Lemma last_cons_default {A} (a d : A) (l : list A) :
  last (a :: l) d = last l a.
Proof.
  revert a d. induction l as [|b l IH]; intros a d; [reflexivity|].
  change (last (a :: b :: l) d) with (last (b :: l) d).
  rewrite IH. symmetry. apply IH.
Qed.

Lemma sum_codes_range (l : list Z) :
  Forall (fun c => 0 <= c <= 511) l ->
  0 <= sum_codes l <= 511 * Z.of_nat (List.length l).
Proof.
  induction 1 as [|c l Hc _ IH]; [cbn; lia|].
  cbn [sum_codes fold_right List.length] in *.
  rewrite Nat2Z.inj_succ. fold (sum_codes l). lia.
Qed.

Lemma active_codes_range (data : exynos_tmu_data) w (l : list nat) :
  Forall (fun c => 0 <= c <= 511) (active_codes data w l).
Proof.
  unfold active_codes. apply Forall_map, Forall_forall.
  intros i _. apply sensor_code_run.
Qed.

Lemma active_codes_length (data : exynos_tmu_data) w (l : list nat) :
  (List.length (active_codes data w l) <= List.length l)%nat.
Proof.
  unfold active_codes. rewrite length_map. apply filter_length_le.
Qed.

Lemma fold_max_bounds (l : list Z) :
  forall r,
    r <= fold_left Z.max l r /\
    Forall (fun c => c <= fold_left Z.max l r) l /\
    (fold_left Z.max l r = r \/ In (fold_left Z.max l r) l).
Proof.
  induction l as [|c l IH]; intros r; cbn [fold_left].
  - split; [lia|]. split; [constructor | left; reflexivity].
  - destruct (IH (Z.max r c)) as (Hge & Hall & Hin).
    split; [lia|]. split.
    + constructor; [lia | exact Hall].
    + destruct Hin as [E|Hin]; [|right; right; exact Hin].
      rewrite E. destruct (Z.max_spec r c) as [[_ ->]|[_ ->]];
        [right; left; reflexivity | left; reflexivity].
Qed.

Section SensorReadMore.

Context {hdr : exynos_tmu_h}.

(** The read loop over the indices [l], started from [(count, result)]:
    the sensors are read and nothing is written; [count] goes up by the
    number of active sensors, and [result] is what the policy folds from
    their codes. *)
Lemma read_loop_run (data : exynos_tmu_data) (w : world) (l : list nat) :
  forall count result,
    0 <= count -> 0 <= result ->
    count + Z.of_nat (List.length l) < 2 ^ 32 ->
    result + 511 * Z.of_nat (List.length l) < 2 ^ 32 ->
    exists count' result',
      for_each l
        (fun i (cr : Z * Z) =>
           let '(count, result) := cr in
           if sensor_active data i then
             temp_data_i <- read_sensor_code data i ;;
             let count := u32_add count 1 in
             let result :=
               if sensing_mode data =? AVG then u32_add result temp_data_i
               else if sensing_mode data =? MAX then
                 (if result >? temp_data_i then result else temp_data_i)
               else if sensing_mode data =? MIN then
                 (if result <? temp_data_i then result else temp_data_i)
               else temp_data_i in
             ret (count, result)
           else ret (count, result))
        (count, result) w = Ok ((count', result'), w) /\
      count' = count + Z.of_nat (List.length (active_codes data w l)) /\
      0 <= result' < 2 ^ 32 /\
      (sensing_mode data = AVG ->
       result' = result + sum_codes (active_codes data w l)) /\
      (sensing_mode data = MAX ->
       result' = fold_left Z.max (active_codes data w l) result) /\
      (sensing_mode data <> AVG -> sensing_mode data <> MAX ->
       sensing_mode data <> MIN ->
       result' = last (active_codes data w l) result) /\
      (sensing_mode data <> AVG -> result <= 511 -> result' <= 511).
Proof.
  induction l as [|i l IH]; intros count result Hc Hr Hcl Hrl.
  - exists count, result. cbn in *.
    split; [reflexivity|]. split; [lia|]. split; [lia|].
    split; [intros _; lia|]. split; [intros; reflexivity|].
    split; [intros; reflexivity | intros _ H; exact H].
  - cbn [List.length] in Hcl, Hrl. rewrite Nat2Z.inj_succ in Hcl, Hrl.
    cbn [for_each]. unfold active_codes. cbn [filter].
    destruct (sensor_active data i) eqn:Ea.
    + destruct (sensor_code_run data i w) as [Hrun Hb].
      set (code := sensor_code data w i) in *.
      pose (r1 := if sensing_mode data =? AVG then u32_add result code
                  else if sensing_mode data =? MAX then
                    (if result >? code then result else code)
                  else if sensing_mode data =? MIN then
                    (if result <? code then result else code)
                  else code).
      assert (Hr1 : 0 <= r1 /\
                    r1 + 511 * Z.of_nat (List.length l) < 2 ^ 32 /\
                    (sensing_mode data = AVG -> r1 = result + code) /\
                    (sensing_mode data = MAX -> r1 = Z.max result code) /\
                    (sensing_mode data <> AVG -> sensing_mode data <> MAX ->
                     sensing_mode data <> MIN -> r1 = code) /\
                    (sensing_mode data <> AVG -> result <= 511 ->
                     r1 <= 511)).
      { subst r1.
        destruct (Z.eqb_spec (sensing_mode data) AVG) as [EA|NA].
        - unfold u32_add. rewrite to_u32_id by (unfold is_u32; lia).
          pose proof sensing_labels as (L1 & L2 & L3).
          repeat split; try lia; intros; congruence.
        - destruct (Z.eqb_spec (sensing_mode data) MAX) as [EM|NM].
          + destruct (Z.gtb_spec result code);
              repeat split; try lia; intros; congruence.
          + destruct (Z.eqb_spec (sensing_mode data) MIN) as [EI|NI].
            * destruct (Z.ltb_spec result code);
                repeat split; try lia; intros; congruence.
            * repeat split; try lia; intros; congruence. }
      destruct Hr1 as (Hr1a & Hr1b & HA & HM & HD & HB).
      destruct (IH (count + 1) r1)
        as (count' & result' & E & Ec & Eb & EA & EM & ED & EB); try lia.
      exists count', result'.
      split.
      { erewrite bind_Ok; [exact E|].
        rewrite (bind_Ok _ _ _ _ _ Hrun). unfold ret, u32_add.
        rewrite to_u32_id by (unfold is_u32; lia). reflexivity. }
      cbn [map List.length fold_left sum_codes fold_right].
      fold code.
      change (map (sensor_code data w) (filter (sensor_active data) l))
        with (active_codes data w l).
      change (fold_right Z.add 0 (active_codes data w l))
        with (sum_codes (active_codes data w l)).
      rewrite Nat2Z.inj_succ.
      split; [lia|]. split; [exact Eb|].
      split; [intros Hm; rewrite (EA Hm), (HA Hm); lia|].
      split; [intros Hm; rewrite (EM Hm), (HM Hm); reflexivity|].
      split.
      { intros H1 H2 H3. rewrite (ED H1 H2 H3), (HD H1 H2 H3).
        symmetry. apply last_cons_default. }
      intros H1 H2. apply (EB H1). apply (HB H1 H2).
    + destruct (IH count result) as (count' & result' & E & Hrest); try lia.
      exists count', result'. split; [|exact Hrest].
      erewrite bind_Ok; [exact E | reflexivity].
Qed.

Lemma some_active_code (data : exynos_tmu_data) w (l : list nat) (i : nat) :
  In i l -> sensor_active data i = true ->
  In (sensor_code data w i) (active_codes data w l).
Proof.
  intros Hi Ha. unfold active_codes. apply in_map, filter_In.
  split; assumption.
Qed.

Lemma active_code_origin (data : exynos_tmu_data) w (l : list nat) (c : Z) :
  In c (active_codes data w l) ->
  exists i, In i l /\ sensor_active data i = true /\ c = sensor_code data w i.
Proof.
  unfold active_codes. intros H. apply in_map_iff in H.
  destruct H as (i & <- & Hi). apply filter_In in Hi.
  exists i. split; [apply Hi|]. split; [apply Hi | reflexivity].
Qed.

Lemma sensor_indices_length : Z.of_nat (List.length sensor_indices) = 8.
Proof. reflexivity. Qed.

(** X5: under the AVG policy, with at least one active sensor, the read
    returns the sum of the active sensors' codes divided by their number,
    truncated, and writes nothing. *)
Theorem avg_policy_reads_mean (data : exynos_tmu_data) (w : world) :
  sensing_mode data = AVG ->
  (exists i, In i sensor_indices /\ sensor_active data i = true) ->
  exynos8895_tmu_read data w =
  Ok (Z.quot (sum_codes (active_codes data w sensor_indices))
             (Z.of_nat (List.length (active_codes data w sensor_indices))),
      w).
Proof.
  intros Hmode (i & Hi & Ha).
  pose proof sensor_indices_length as Hlen.
  destruct (read_loop_run data w sensor_indices 0 0)
    as (count & result & E & Ec & _ & EA & _); try lia.
  specialize (EA Hmode). rewrite Z.add_0_l in Ec, EA.
  pose proof (sum_codes_range _ (active_codes_range data w sensor_indices))
    as Hsum.
  pose proof (active_codes_length data w sensor_indices) as Hle.
  assert (Hpos : 0 < count).
  { pose proof (some_active_code data w sensor_indices i Hi Ha) as Hin.
    destruct (active_codes data w sensor_indices); [contradiction|].
    cbn [List.length] in Ec. lia. }
  unfold exynos8895_tmu_read.
  rewrite (bind_Ok _ _ _ _ _ E).
  rewrite Hmode, Z.eqb_refl. unfold bind, lift, u32_div, ret.
  replace (count =? 0) with false by (symmetry; apply Z.eqb_neq; lia).
  rewrite <- Ec, <- EA.
  assert (Hq : 0 <= Z.quot result count <= 511).
  { split; [apply Z.quot_pos; lia|].
    apply Z.quot_le_upper_bound; [lia|]. rewrite EA, Ec. lia. }
  rewrite to_u32_id by (unfold is_u32; lia).
  rewrite to_int_id by (unfold is_int; lia).
  reflexivity.
Qed.

(** X6: under the MAX policy the read returns a code that no active
    sensor's code exceeds, and that is the code of an active sensor, or 0
    when no sensor is active. *)
Theorem max_policy_reads_maximum (data : exynos_tmu_data) (w : world) :
  sensing_mode data = MAX ->
  exists code,
    exynos8895_tmu_read data w = Ok (code, w) /\
    (forall i, In i sensor_indices -> sensor_active data i = true ->
               sensor_code data w i <= code) /\
    ((no_active_sensor data /\ code = 0) \/
     exists i, In i sensor_indices /\ sensor_active data i = true /\
               code = sensor_code data w i).
Proof.
  intros Hmode.
  pose proof sensing_labels as (L1 & L2 & L3).
  pose proof sensor_indices_length as Hlen.
  destruct (read_loop_run data w sensor_indices 0 0)
    as (count & result & E & _ & Hb & _ & EM & _ & EB); try lia.
  specialize (EM Hmode).
  assert (Hr : result <= 511) by (apply EB; [congruence | lia]).
  destruct (fold_max_bounds (active_codes data w sensor_indices) 0)
    as (_ & Hall & Hin).
  rewrite <- EM in Hall, Hin.
  exists result. split; [|split].
  - unfold exynos8895_tmu_read.
    rewrite (bind_Ok _ _ _ _ _ E).
    replace (sensing_mode data =? AVG) with false
      by (symmetry; apply Z.eqb_neq; congruence).
    unfold bind, ret.
    rewrite to_int_id by (unfold is_int; lia). reflexivity.
  - intros i Hi Ha. rewrite Forall_forall in Hall.
    apply Hall, some_active_code; assumption.
  - destruct Hin as [E0|Hin].
    + destruct (filter (sensor_active data) sensor_indices) as [|j l] eqn:Ef.
      * left. split; [|exact E0].
        intros i Hi. destruct (sensor_active data i) eqn:Ea; [|reflexivity].
        assert (Hf : In i (filter (sensor_active data) sensor_indices))
          by (apply filter_In; split; assumption).
        rewrite Ef in Hf. contradiction.
      * right.
        assert (Hj : In j (filter (sensor_active data) sensor_indices))
          by (rewrite Ef; left; reflexivity).
        apply filter_In in Hj. destruct Hj as [Hj Ha].
        exists j. split; [exact Hj|]. split; [exact Ha|].
        rewrite Forall_forall in Hall.
        pose proof (Hall _ (some_active_code data w _ j Hj Ha)) as Hup.
        pose proof (proj2 (sensor_code_run data j w)) as Hlow. lia.
    + right. apply active_code_origin. exact Hin.
Qed.

(** X7: under a sensing mode that is none of AVG, MAX and MIN, the read
    returns the code of the active sensor with the highest index, the last
    one the loop visits, and 0 when no sensor is active. *)
Theorem unknown_policy_reads_last_sensor (data : exynos_tmu_data) (w : world) :
  sensing_mode data <> AVG -> sensing_mode data <> MAX ->
  sensing_mode data <> MIN ->
  exynos8895_tmu_read data w
  = Ok (last (active_codes data w sensor_indices) 0, w).
Proof.
  intros H1 H2 H3.
  pose proof sensor_indices_length as Hlen.
  destruct (read_loop_run data w sensor_indices 0 0)
    as (count & result & E & _ & Hb & _ & _ & ED & EB); try lia.
  specialize (ED H1 H2 H3).
  assert (Hr : result <= 511) by (apply EB; [exact H1 | lia]).
  unfold exynos8895_tmu_read.
  rewrite (bind_Ok _ _ _ _ _ E).
  replace (sensing_mode data =? AVG) with false
    by (symmetry; apply Z.eqb_neq; exact H1).
  unfold bind, ret.
  rewrite to_int_id by (unfold is_int; lia).
  rewrite ED. reflexivity.
Qed.

(** The read of either variant, with a sensor to average over. *)
Lemma tmu_read_code (data : exynos_tmu_data) (w : world) :
  (soc data = SOC_ARCH_EXYNOS8895 -> sensing_mode data = AVG ->
   exists i, In i sensor_indices /\ sensor_active data i = true) ->
  exists code, tmu_read data w = Ok (code, w) /\ 0 <= code <= 511.
Proof.
  intros Hact. unfold tmu_read.
  destruct (soc data).
  - unfold exynos8890_tmu_read, bind, readw, ret.
    eexists. split; [reflexivity | apply land_mask_range].
  - pose proof sensor_indices_length as Hlen.
    destruct (read_loop_run data w sensor_indices 0 0)
      as (count & result & E & Ec & Hb & EA & _ & _ & EB); try lia.
    unfold exynos8895_tmu_read.
    rewrite (bind_Ok _ _ _ _ _ E).
    destruct (Z.eqb_spec (sensing_mode data) AVG) as [Hmode|Hmode].
    + destruct (Hact eq_refl Hmode) as (i & Hi & Ha).
      specialize (EA Hmode). rewrite Z.add_0_l in Ec, EA.
      pose proof (sum_codes_range _ (active_codes_range data w sensor_indices))
        as Hsum.
      pose proof (active_codes_length data w sensor_indices) as Hle.
      assert (Hpos : 0 < count).
      { pose proof (some_active_code data w sensor_indices i Hi Ha) as Hin.
        destruct (active_codes data w sensor_indices); [contradiction|].
        cbn [List.length] in Ec. lia. }
      unfold bind, lift, u32_div, ret.
      replace (count =? 0) with false by (symmetry; apply Z.eqb_neq; lia).
      assert (Hq : 0 <= Z.quot result count <= 511).
      { split; [apply Z.quot_pos; lia|].
        apply Z.quot_le_upper_bound; [lia|]. rewrite EA, Ec. lia. }
      rewrite to_u32_id by (unfold is_u32; lia).
      rewrite to_int_id by (unfold is_int; lia).
      eexists. split; [reflexivity | exact Hq].
    + assert (Hr : result <= 511) by (apply EB; [exact Hmode | lia]).
      unfold bind, ret.
      rewrite to_int_id by (unfold is_int; lia).
      eexists. split; [reflexivity | lia].
Qed.

(** X8: on both variants the read returns a 9-bit code and leaves the
    world as it was, whatever the registers hold; the one exception is the
    AVG policy of the 8895 with no active sensor.  The code fits the [u16]
    parameter of [code_to_temp], which receives it unchanged. *)
Theorem tmu_read_nine_bits (data : exynos_tmu_data) (w : world) :
  (soc data = SOC_ARCH_EXYNOS8895 -> sensing_mode data = AVG ->
   exists i, In i sensor_indices /\ sensor_active data i = true) ->
  exists code,
    tmu_read data w = Ok (code, w) /\ 0 <= code <= 511 /\
    code_to_temp data code = code_to_temp data (to_u16 code) /\
    to_u16 code = code.
Proof.
  intros Hact.
  destruct (tmu_read_code data w Hact) as (code & E & Hr).
  exists code. split; [exact E|]. split; [exact Hr|].
  assert (Hu : to_u16 code = code) by (apply to_u16_id; unfold is_u16; lia).
  rewrite Hu. split; reflexivity.
Qed.

End SensorReadMore.

Lemma avg_policy_reads_mean_witness :
  let data := sample_data SOC_ARCH_EXYNOS8895 0 1 75 135 6 0 "step_wise" in
  let w := initial_world (regs_10_20_30 (base data)) in
  @exynos8895_tmu_read sample_header data w = Ok (25, w).
Proof.
  cbv zeta.
  rewrite (@avg_policy_reads_mean sample_header).
  - reflexivity.
  - reflexivity.
  - exists 1%nat. split; [cbn; tauto | reflexivity].
Defined.

Lemma max_policy_reads_maximum_witness :
  let data := sample_data SOC_ARCH_EXYNOS8895 0 1 75 135 6 1 "step_wise" in
  let w := initial_world (regs_10_20_30 (base data)) in
  exists code,
    @exynos8895_tmu_read sample_header data w = Ok (code, w) /\
    (forall i, In i sensor_indices -> sensor_active data i = true ->
               sensor_code data w i <= code) /\
    ((no_active_sensor data /\ code = 0) \/
     exists i, In i sensor_indices /\ sensor_active data i = true /\
               code = sensor_code data w i).
Proof.
  cbv zeta. apply (@max_policy_reads_maximum sample_header). reflexivity.
Defined.

Lemma unknown_policy_reads_last_sensor_witness :
  let data := sample_data SOC_ARCH_EXYNOS8895 0 1 75 135 3 7 "step_wise" in
  let w := initial_world (regs_10_20_30 (base data)) in
  @exynos8895_tmu_read sample_header data w = Ok (20, w).
Proof.
  cbv zeta.
  rewrite (@unknown_policy_reads_last_sensor sample_header).
  - reflexivity.
  - cbn. discriminate.
  - cbn. discriminate.
  - cbn. discriminate.
Defined.

Lemma tmu_read_nine_bits_witness :
  let data := sample_data SOC_ARCH_EXYNOS8895 0 1 75 135 6 0 "step_wise" in
  let w := initial_world (regs_10_20_30 (base data)) in
  exists code,
    @tmu_read sample_header data w = Ok (code, w) /\ 0 <= code <= 511.
Proof.
  cbv zeta.
  destruct (@tmu_read_nine_bits sample_header
              (sample_data SOC_ARCH_EXYNOS8895 0 1 75 135 6 0 "step_wise")
              (initial_world (regs_10_20_30 0x10060000)))
    as (code & E & Hr & _).
  - intros _ _. exists 1%nat. split; [cbn; tauto | reflexivity].
  - exists code. split; [exact E | exact Hr].
Defined.

(** ** Control: enable bits and interrupt masks *)

Lemma testbit_b2z_shiftl (b : bool) (i n : Z) :
  0 <= i -> Z.testbit (Z.shiftl (Z.b2z b) i) n = b && (n =? i).
Proof.
  intros Hi. destruct (Z.ltb_spec n 0) as [Hn|Hn].
  - rewrite Z.testbit_neg_r by exact Hn.
    replace (n =? i) with false by (symmetry; apply Z.eqb_neq; lia).
    rewrite Bool.andb_false_r. reflexivity.
  - rewrite Z.shiftl_spec by exact Hn.
    destruct (Z.eqb_spec n i) as [->|Hne].
    + rewrite Z.sub_diag. destruct b; reflexivity.
    + destruct b; cbn [Z.b2z andb].
      * destruct (n - i) eqn:E; try reflexivity. lia.
      * apply Z.testbit_0_l.
Qed.

Lemma testbit_to_u32 (x n : Z) :
  Z.testbit (to_u32 x) n = (n <? 32) && Z.testbit x n.
Proof.
  unfold to_u32. destruct (Z.ltb_spec n 32) as [H|H]; cbn [andb].
  - apply Z.mod_pow2_bits_low. exact H.
  - apply Z.mod_pow2_bits_high. lia.
Qed.

(** The rising-interrupt bits: bit [k] for a valid trip [k] below 8. *)
Lemma rise_mask_bits (v : nat -> bool) (k : Z) :
  Z.testbit
    (Z.lor (Z.shiftl (Z.b2z (v 7%nat)) (Z.of_nat 7))
       (Z.lor (Z.shiftl (Z.b2z (v 6%nat)) (Z.of_nat 6))
          (Z.lor (Z.shiftl (Z.b2z (v 5%nat)) (Z.of_nat 5))
             (Z.lor (Z.shiftl (Z.b2z (v 4%nat)) (Z.of_nat 4))
                (Z.lor (Z.shiftl (Z.b2z (v 3%nat)) (Z.of_nat 3))
                   (Z.lor (Z.shiftl (Z.b2z (v 2%nat)) (Z.of_nat 2))
                      (Z.lor (Z.shiftl (Z.b2z (v 1%nat)) (Z.of_nat 1))
                         (Z.shiftl (Z.b2z (v 0%nat)) (Z.of_nat 0)))))))))
    k
  = (0 <=? k) && (k <? 8) && v (Z.to_nat k).
Proof.
  rewrite !Z.lor_spec, !testbit_b2z_shiftl by lia.
  destruct (Z.leb_spec 0 k) as [H0|H0]; cbn [andb].
  - destruct (Z.ltb_spec k 8) as [H8|H8]; cbn [andb].
    + assert (E : k = Z.of_nat (Z.to_nat k)) by lia.
      destruct (Z.to_nat k) as [|[|[|[|[|[|[|[|m]]]]]]]]; try lia;
        rewrite E; cbn;
        rewrite ?Bool.andb_false_r, ?Bool.andb_true_r, ?Bool.orb_false_r;
        reflexivity.
    + repeat match goal with
             | |- context [k =? Z.of_nat ?m] =>
                 replace (k =? Z.of_nat m) with false
                   by (symmetry; apply Z.eqb_neq; lia)
             end.
      rewrite !Bool.andb_false_r. reflexivity.
  - repeat match goal with
           | |- context [k =? Z.of_nat ?m] =>
               replace (k =? Z.of_nat m) with false
                 by (symmetry; apply Z.eqb_neq; lia)
           end.
    rewrite !Bool.andb_false_r. reflexivity.
Qed.

(** X9: the interrupt-enable word built for [on]: the rising interrupt
    [n] (bit [n]) and the falling interrupt [n] (bit [16 + n]) are enabled
    for the valid trips [n] below 8, and no other bit is set. *)
Theorem interrupt_en_bits (tz : thermal_zone_device) (n : Z) :
  Z.testbit (interrupt_en_on tz) n
  = ((0 <=? n) && (n <? 8) && of_thermal_is_trip_valid tz (Z.to_nat n))
    || ((16 <=? n) && (n <? 24)
        && of_thermal_is_trip_valid tz (Z.to_nat (n - 16))).
Proof.
  unfold interrupt_en_on. cbv zeta.
  rewrite Z.lor_spec. unfold u32_shl. rewrite testbit_to_u32.
  rewrite rise_mask_bits. f_equal.
  unfold EXYNOS_TMU_INTEN_FALL0_SHIFT.
  destruct (Z.ltb_spec n 0) as [Hn|Hn].
  - rewrite Z.testbit_neg_r by exact Hn.
    rewrite Bool.andb_false_r.
    destruct (Z.leb_spec 16 n); [lia | reflexivity].
  - rewrite Z.shiftl_spec by exact Hn. rewrite rise_mask_bits.
    destruct (Z.ltb_spec n 32), (Z.leb_spec 0 (n - 16)),
      (Z.ltb_spec (n - 16) 8), (Z.leb_spec 16 n), (Z.ltb_spec n 24);
      cbn [andb]; try reflexivity; lia.
Qed.

Lemma interrupt_en_on_u32 (tz : thermal_zone_device) :
  is_u32 (interrupt_en_on tz).
Proof.
  unfold interrupt_en_on, is_u32.
  generalize (of_thermal_is_trip_valid tz). intros v.
  destruct (v 0%nat), (v 1%nat), (v 2%nat), (v 3%nat), (v 4%nat), (v 5%nat),
    (v 6%nat), (v 7%nat); vm_compute; (split; [discriminate | reflexivity]).
Qed.

Lemma control_bits_enable (F : Prop) (tz : thermal_zone_device) (on : bool)
  (con v s : Z) w :
  post F (control_bits (Some tz) on con v s) w
       (fun ci w' =>
          w' = w /\
          Z.testbit (fst ci) EXYNOS_TMU_CORE_EN_SHIFT = on /\
          Z.testbit (fst ci) EXYNOS_TMU_THERM_TRIP_EN_SHIFT = on /\
          snd ci = if on then interrupt_en_on tz else 0).
Proof.
  unfold control_bits. destruct on.
  - unfold post, bind, deref, ret. cbn [fst snd].
    split; [reflexivity|]. split; [|split; [|reflexivity]].
    + rewrite !Z.lor_spec.
      replace (Z.testbit (Z.shiftl 1 EXYNOS_TMU_CORE_EN_SHIFT)
                         EXYNOS_TMU_CORE_EN_SHIFT) with true by reflexivity.
      rewrite Bool.orb_true_r. reflexivity.
    + rewrite !Z.lor_spec.
      replace (Z.testbit (Z.shiftl 1 EXYNOS_TMU_THERM_TRIP_EN_SHIFT)
                         EXYNOS_TMU_THERM_TRIP_EN_SHIFT) with true
        by reflexivity.
      apply Bool.orb_true_r.
  - unfold post, ret. cbn [fst snd].
    split; [reflexivity|]. split; [|split; [|reflexivity]].
    + rewrite !Z.land_spec.
      replace (Z.testbit (u32_not (Z.shiftl 1 EXYNOS_TMU_CORE_EN_SHIFT))
                         EXYNOS_TMU_CORE_EN_SHIFT) with false by reflexivity.
      rewrite Bool.andb_false_r. reflexivity.
    + rewrite !Z.land_spec.
      replace (Z.testbit
                 (u32_not (Z.shiftl 1 EXYNOS_TMU_THERM_TRIP_EN_SHIFT))
                 EXYNOS_TMU_THERM_TRIP_EN_SHIFT) with false by reflexivity.
      apply Bool.andb_false_r.
Qed.

(** A loop that writes [v] to the register [addr i] of every index [i]
    that [active] selects: those registers hold [v] afterwards, and so
    does every register that held [v] before. *)
Lemma write_each_run (F : Prop) (l : list nat) (active : nat -> bool)
  (addr : nat -> Z) (v : Z) :
  forall w,
    post F
      (for_each l
         (fun i (_ : unit) => if active i then writel v (addr i) else ret tt)
         tt) w
      (fun _ w' =>
         (forall i, In i l -> active i = true ->
                    mmio w' (addr i) = to_u32 v) /\
         (forall a, mmio w a = to_u32 v -> mmio w' a = to_u32 v)).
Proof.
  induction l as [|i l IH]; intros w.
  - cbn [for_each]. apply post_ret. split; [intros i []|auto].
  - cbn [for_each]. apply post_bind.
    destruct (active i) eqn:Ea.
    + unfold post at 1. unfold writel, store, emit, bind.
      eapply post_conseq; [|apply IH].
      cbv beta. intros [] w' [Hall Hkeep]. cbn [mmio] in Hkeep. split.
      * intros j [<-|Hj] Hact; [|apply Hall; assumption].
        apply Hkeep. rewrite Z.eqb_refl. reflexivity.
      * intros a Ha. apply Hkeep.
        destruct (a =? addr i); [reflexivity | exact Ha].
    + apply post_ret.
      eapply post_conseq; [|apply IH].
      cbv beta. intros [] w' [Hall Hkeep]. split; [|exact Hkeep].
      intros j [<-|Hj] Hact; [congruence | apply Hall; assumption].
Qed.

(** What [exynos_tmu_control] leaves in the registers of a device that
    has a thermal zone. *)
Lemma control_run (data : exynos_tmu_data) (tz : thermal_zone_device)
  (on : bool) (w : world) :
  tzd data = Some tz ->
  post False (exynos_tmu_control data on) w
    (fun _ w' =>
       Z.testbit (mmio w' (base data + EXYNOS_TMU_REG_CONTROL))
                 EXYNOS_TMU_CORE_EN_SHIFT = on /\
       Z.testbit (mmio w' (base data + EXYNOS_TMU_REG_CONTROL))
                 EXYNOS_TMU_THERM_TRIP_EN_SHIFT = on /\
       (forall i, In i sensor_indices ->
          match soc data with
          | SOC_ARCH_EXYNOS8890 => i = 0%nat
          | SOC_ARCH_EXYNOS8895 =>
              sensor_active data i = true /\
              governor_is_power_allocator tz = false
          end ->
          mmio w' (base data + EXYNOS_TMU_REG_INTEN + 0x10 * Z.of_nat i)
          = if on then interrupt_en_on tz else 0)).
Proof.
  intros Htz.
  assert (Hie : to_u32 (if on then interrupt_en_on tz else 0)
                = if on then interrupt_en_on tz else 0).
  { destruct on; [apply to_u32_id, interrupt_en_on_u32 | reflexivity]. }
  unfold exynos_tmu_control. destruct (soc data).
  - unfold exynos8890_tmu_control.
    do 3 (simple apply post_bind; simple apply post_readl; cbv beta zeta).
    rewrite Htz. apply post_bind.
    eapply post_conseq; [|apply control_bits_enable].
    intros [con ie] w1 (-> & Hb0 & Hb12 & Eie). cbn [fst snd] in *.
    cbv beta iota.
    unfold post, writel, store, emit, bind. cbv beta iota. cbn [mmio].
    rewrite Z.eqb_refl, !testbit_to_u32.
    split; [exact Hb0|]. split; [exact Hb12|].
    intros i _ ->.
    replace (base data + EXYNOS_TMU_REG_INTEN + 16 * Z.of_nat 0
             =? base data + EXYNOS_TMU_REG_CONTROL) with false
      by (symmetry; apply Z.eqb_neq;
          unfold EXYNOS_TMU_REG_INTEN, EXYNOS_TMU_REG_CONTROL; lia).
    replace (base data + EXYNOS_TMU_REG_INTEN + 16 * Z.of_nat 0
             =? base data + EXYNOS_TMU_REG_INTEN) with true
      by (symmetry; apply Z.eqb_eq; lia).
    rewrite Eie. exact Hie.
  - unfold exynos8895_tmu_control.
    simple apply post_bind; simple apply post_readl; cbv beta zeta.
    apply post_bind.
    apply post_conseq with (Q := fun _ _ => True);
      [|unfold post, writel, store, emit, bind; exact I].
    intros [] w1 _. cbv beta.
    do 5 (simple apply post_bind; simple apply post_readl; cbv beta zeta).
    rewrite Htz. apply post_bind.
    eapply post_conseq; [|apply control_bits_enable].
    intros [con ie] w2 (-> & Hb0 & Hb12 & Eie). cbn [fst snd] in *.
    cbv beta iota.
    apply post_bind, post_deref. apply post_bind.
    apply post_conseq
      with (Q := fun _ w3 =>
                   governor_is_power_allocator tz = false ->
                   forall i, In i sensor_indices ->
                             sensor_active data i = true ->
                             mmio w3 (base data + EXYNOS_TMU_REG_INTEN
                                      + 0x10 * Z.of_nat i) = to_u32 ie).
    + intros [] w3 H3.
      unfold post, writel, store, emit, bind. cbv beta iota. cbn [mmio].
      replace (base data + EXYNOS_TMU_REG_CONTROL
               =? base data + EXYNOS_TMU_REG_AVG_CON) with false
        by (symmetry; apply Z.eqb_neq;
            unfold EXYNOS_TMU_REG_AVG_CON, EXYNOS_TMU_REG_CONTROL; lia).
      rewrite Z.eqb_refl, !testbit_to_u32.
      split; [exact Hb0|]. split; [exact Hb12|].
      intros i Hi [Ha Hg].
      replace (base data + EXYNOS_TMU_REG_INTEN + 16 * Z.of_nat i
               =? base data + EXYNOS_TMU_REG_AVG_CON) with false
        by (symmetry; apply Z.eqb_neq;
            unfold EXYNOS_TMU_REG_INTEN, EXYNOS_TMU_REG_AVG_CON; lia).
      replace (base data + EXYNOS_TMU_REG_INTEN + 16 * Z.of_nat i
               =? base data + EXYNOS_TMU_REG_CONTROL) with false
        by (symmetry; apply Z.eqb_neq;
            unfold EXYNOS_TMU_REG_INTEN, EXYNOS_TMU_REG_CONTROL; lia).
      rewrite (H3 Hg i Hi Ha), Eie. exact Hie.
    + destruct (governor_is_power_allocator tz); cbn [negb].
      * apply post_ret. intros H; discriminate.
      * eapply post_conseq;
          [|apply (write_each_run False sensor_indices (sensor_active data)
                     (fun i => base data + EXYNOS_TMU_REG_INTEN
                               + 0x10 * Z.of_nat i) ie)].
        cbv beta. intros [] w3 [H _] _. exact H.
Qed.

(** X10: on a device with a thermal zone [exynos_tmu_control] completes
    and leaves the core-enable and thermal-trip-enable bits of the control
    register equal to [on]; the interrupt-enable register (of the 8890; of
    every active sensor of the 8895, unless the governor is the power
    allocator) holds the interrupt word for the valid trips when [on], and
    0 otherwise. *)
Theorem control_sets_enable_and_interrupts (data : exynos_tmu_data)
  (tz : thermal_zone_device) (on : bool) (w : world) :
  tzd data = Some tz ->
  exists w',
    exynos_tmu_control data on w = Ok (tt, w') /\
    Z.testbit (mmio w' (base data + EXYNOS_TMU_REG_CONTROL))
              EXYNOS_TMU_CORE_EN_SHIFT = on /\
    Z.testbit (mmio w' (base data + EXYNOS_TMU_REG_CONTROL))
              EXYNOS_TMU_THERM_TRIP_EN_SHIFT = on /\
    (forall i, In i sensor_indices ->
       match soc data with
       | SOC_ARCH_EXYNOS8890 => i = 0%nat
       | SOC_ARCH_EXYNOS8895 =>
           sensor_active data i = true /\
           governor_is_power_allocator tz = false
       end ->
       mmio w' (base data + EXYNOS_TMU_REG_INTEN + 0x10 * Z.of_nat i)
       = if on then interrupt_en_on tz else 0).
Proof.
  intros Htz.
  destruct (post_total _ _ _ (control_run data tz on w Htz))
    as ([] & w' & E & H).
  exists w'. split; [exact E | exact H].
Qed.

(** X11: the 8895 variant addresses the interrupt-enable register of
    sensor 6 at [INTEN + 0x10 * 6], which is the address
    [THD_TEMP_RISE7_6 + THD_TEMP_R_OFFSET] that its initialisation
    programs as the rising threshold of trips 7 and 6 of every remote
    sensor: after control, that threshold register holds the interrupt
    word (or 0 for off). *)
Theorem inten_lands_on_remote_threshold (data : exynos_tmu_data)
  (tz : thermal_zone_device) (on : bool) (w : world) (j : nat) :
  tzd data = Some tz ->
  soc data = SOC_ARCH_EXYNOS8895 ->
  governor_is_power_allocator tz = false ->
  sensor_active data 6 = true ->
  (0 < j)%nat ->
  exists w',
    exynos_tmu_control data on w = Ok (tt, w') /\
    mmio w' (base data + EXYNOS_THD_TEMP_RISE7_6 + reg_off_sensor j 7)
    = if on then interrupt_en_on tz else 0.
Proof.
  intros Htz Hsoc Hgov Hact Hj.
  destruct (post_total _ _ _ (control_run data tz on w Htz))
    as ([] & w' & E & _ & _ & H).
  exists w'. split; [exact E|].
  specialize (H 6%nat). rewrite Hsoc in H.
  replace (base data + EXYNOS_THD_TEMP_RISE7_6 + reg_off_sensor j 7)
    with (base data + EXYNOS_TMU_REG_INTEN + 0x10 * Z.of_nat 6).
  - apply H; [cbn; tauto | split; assumption].
  - unfold reg_off_sensor.
    replace (Nat.ltb 0 j) with true by (symmetry; apply Nat.ltb_lt; exact Hj).
    rewrite <- !Z.add_assoc. f_equal.
Qed.

Lemma control_sets_enable_and_interrupts_witness :
  let data := sample_data SOC_ARCH_EXYNOS8895 0 1 75 135 7 0 "step_wise" in
  let w := initial_world (fun _ => 0) in
  exists w',
    exynos_tmu_control data true w = Ok (tt, w') /\
    Z.testbit (mmio w' (base data + EXYNOS_TMU_REG_CONTROL))
              EXYNOS_TMU_CORE_EN_SHIFT = true /\
    Z.testbit (mmio w' (base data + EXYNOS_TMU_REG_CONTROL))
              EXYNOS_TMU_THERM_TRIP_EN_SHIFT = true /\
    (forall i, In i sensor_indices ->
       sensor_active data i = true /\
       governor_is_power_allocator (sample_zone "step_wise") = false ->
       mmio w' (base data + EXYNOS_TMU_REG_INTEN + 0x10 * Z.of_nat i)
       = interrupt_en_on (sample_zone "step_wise")).
Proof.
  cbv zeta.
  apply (control_sets_enable_and_interrupts
           (sample_data SOC_ARCH_EXYNOS8895 0 1 75 135 7 0 "step_wise")
           (sample_zone "step_wise") true).
  reflexivity.
Defined.

Lemma inten_lands_on_remote_threshold_witness :
  let data := sample_data SOC_ARCH_EXYNOS8895 0 1 75 135 0x41 0 "step_wise" in
  exists w',
    exynos_tmu_control data true (initial_world (fun _ => 0)) = Ok (tt, w') /\
    mmio w' (base data + EXYNOS_THD_TEMP_RISE7_6 + reg_off_sensor 6 7)
    = interrupt_en_on (sample_zone "step_wise").
Proof.
  cbv zeta.
  apply (inten_lands_on_remote_threshold
           (sample_data SOC_ARCH_EXYNOS8895 0 1 75 135 0x41 0 "step_wise")
           (sample_zone "step_wise") true (initial_world (fun _ => 0)) 6);
    try reflexivity.
  lia.
Defined.

(** ** Interrupt acknowledgement *)

(** A loop that reads the register [addr i] of every index [i] that
    [active] selects and writes the value back: with distinct registers,
    each write carries what the register held when the loop started. *)
Lemma ack_each_run (l : list nat) (active : nat -> bool) (addr : nat -> Z) :
  NoDup l ->
  (forall i j, In i l -> In j l -> addr i = addr j -> i = j) ->
  forall w, exists w',
    for_each l
      (fun i (_ : unit) =>
         if active i then v <- readl (addr i) ;; writel v (addr i)
         else ret tt)
      tt w = Ok (tt, w') /\
    trace w' = trace w ++ map (fun i => ack w (addr i)) (filter active l).
Proof.
  induction l as [|i l IH]; intros Hnd Hinj w.
  - exists w. split; [reflexivity|]. cbn. rewrite app_nil_r. reflexivity.
  - inversion Hnd as [|i' l' Hni Hnd']; subst.
    assert (Hinj' : forall a b, In a l -> In b l -> addr a = addr b -> a = b)
      by (intros a b Ha Hb; apply Hinj; right; assumption).
    cbn [for_each filter]. destruct (active i) eqn:Ea.
    + pose (w1 := {| mmio := fun a => if a =? addr i
                                      then to_u32 (mmio w (addr i))
                                      else mmio w a;
                     suspended := suspended w;
                     is_cpu_hotplugged_out := is_cpu_hotplugged_out w;
                     dtm_dev_list := dtm_dev_list w;
                     pm_notifier_registered := pm_notifier_registered w;
                     cpufreq_state := cpufreq_state w;
                     trace := trace w ++ [ack w (addr i)] |}).
      destruct (IH Hnd' Hinj' w1) as (w' & E & T).
      exists w'. split.
      * erewrite bind_Ok; [exact E | reflexivity].
      * rewrite T. cbn [trace w1 map]. rewrite <- app_assoc. cbn [app].
        f_equal. f_equal. apply map_ext_in.
        intros j Hj. apply filter_In in Hj. destruct Hj as [Hj _].
        unfold ack. cbn [mmio w1].
        destruct (Z.eqb_spec (addr j) (addr i)) as [Eij|_]; [|reflexivity].
        exfalso. apply Hni.
        rewrite <- (Hinj j i (or_intror Hj) (or_introl eq_refl) Eij).
        exact Hj.
    + destruct (IH Hnd' Hinj' w) as (w' & E & T).
      exists w'. split; [|exact T].
      erewrite bind_Ok; [exact E | reflexivity].
Qed.

Lemma pend_reg_injective (i j : nat) :
  In i sensor_indices -> In j sensor_indices ->
  pend_reg i = pend_reg j -> i = j.
Proof.
  unfold sensor_indices, TOTAL_SENSORS. cbn [seq In].
  intros Hi Hj.
  repeat (destruct Hi as [<-|Hi]; [|]); try contradiction;
    repeat (destruct Hj as [<-|Hj]; [|]); try contradiction;
    vm_compute; intros H; try reflexivity; discriminate.
Qed.

(** The acknowledgements are the only events of [data->tmu_clear_irqs],
    which always completes. *)
Lemma clear_irqs_run (data : exynos_tmu_data) (w : world) :
  exists w',
    tmu_clear_irqs data w = Ok (tt, w') /\
    trace w' = trace w ++ ack_events data w.
Proof.
  unfold tmu_clear_irqs, ack_events. destruct (soc data).
  - eexists. split; reflexivity.
  - apply (ack_each_run sensor_indices (sensor_active data)
             (fun i => base data + pend_reg i)).
    + apply seq_NoDup.
    + intros i j Hi Hj E. apply (pend_reg_injective i j Hi Hj). lia.
Qed.

(** X12: clearing the interrupts always completes, and writes back to the
    pending register of each active sensor, in index order, the value that
    register held on entry (one register on the 8890); it makes no other
    write and raises no other event. *)
Theorem clear_irqs_acknowledges (data : exynos_tmu_data) (w : world) :
  exists w',
    tmu_clear_irqs data w = Ok (tt, w') /\
    trace w' = trace w ++
      match soc data with
      | SOC_ARCH_EXYNOS8890 =>
          [EvWritel (to_u32 (mmio w (base data + EXYNOS_TMU_REG_INTPEND0)))
                    (base data + EXYNOS_TMU_REG_INTPEND0)]
      | SOC_ARCH_EXYNOS8895 =>
          map (fun i => EvWritel (to_u32 (mmio w (base data + pend_reg i)))
                                 (base data + pend_reg i))
              (filter (sensor_active data) sensor_indices)
      end.
Proof.
  unfold tmu_clear_irqs. destruct (soc data).
  - eexists. split; reflexivity.
  - apply (ack_each_run sensor_indices (sensor_active data)
             (fun i => base data + pend_reg i)).
    + apply seq_NoDup.
    + intros i j Hi Hj E. apply (pend_reg_injective i j Hi Hj). lia.
Qed.

Section WorkWithoutZone.

Variable thermal_zone_device_update :
  thermal_zone_device -> M thermal_zone_device.

(** X13: the deferred handler of a device without a thermal zone never
    calls the framework and raises no uevent; it still acknowledges the
    pending interrupts and then re-enables the interrupt line, its last
    action. *)
Theorem work_without_zone (data : exynos_tmu_data) (w : world) :
  tzd data = None ->
  exists w',
    exynos_tmu_work thermal_zone_device_update data w = Ok (tt, w') /\
    trace w' = trace w ++ ack_events data w ++ [EvEnableIrq (irq data)].
Proof.
  intros Htz. unfold exynos_tmu_work, exynos_report_trigger. rewrite Htz.
  destruct (clear_irqs_run data w) as (w1 & E & T).
  rewrite (bind_Ok _ _ _ tt w) by reflexivity.
  rewrite (bind_Ok _ _ _ _ _ E).
  eexists. split; [reflexivity|].
  cbn [trace]. rewrite T, <- app_assoc. reflexivity.
Qed.

End WorkWithoutZone.

Lemma work_without_zone_witness :
  exists w',
    exynos_tmu_work (sample_update 0) (calibrated 1 25 85 75 135)
                    (initial_world (fun _ => 0)) = Ok (tt, w') /\
    trace w' = [EvWritel 0 (0x10060000 + 0x118); EvEnableIrq 40].
Proof.
  destruct (work_without_zone (sample_update 0) (calibrated 1 25 85 75 135)
              (initial_world (fun _ => 0)) eq_refl) as (w' & E & T).
  exists w'. split; [exact E|]. rewrite T. reflexivity.
Defined.

(** ** Temperature report and PM notifier *)

Section TemperatureReport.

Context {hdr : exynos_tmu_h}.

Lemma code_to_temp_returns (data : exynos_tmu_data) (code : Z) :
  calib_fields_typed data ->
  EXYNOS_MIN_TEMP <= EXYNOS_MAX_TEMP ->
  ~ (cal_type (pdata data) = TYPE_TWO_POINT_TRIMMING /\
     temp_error2 data = temp_error1 data) ->
  exists t, code_to_temp data code = Ok t /\
            EXYNOS_MIN_TEMP <= t <= EXYNOS_MAX_TEMP.
Proof.
  intros (He1 & He2 & _) Hr Hnd. unfold is_u16 in *.
  unfold code_to_temp.
  match goal with |- exists t, rbind ?r _ = _ /\ _ =>
    assert (Hraw : exists raw, r = Ok raw) end.
  { destruct (Z.eqb_spec (cal_type (pdata data)) TYPE_TWO_POINT_TRIMMING)
      as [E|_].
    - unfold int_div.
      replace (int_sub (temp_error2 data) (temp_error1 data))
        with (temp_error2 data - temp_error1 data)
        by (symmetry; apply to_int_id; unfold is_int; lia).
      replace (temp_error2 data - temp_error1 data =? 0) with false
        by (symmetry; apply Z.eqb_neq; intros H; apply Hnd; split; lia).
      eexists. reflexivity.
    - destruct (cal_type (pdata data) =? TYPE_ONE_POINT_TRIMMING);
        eexists; reflexivity. }
  destruct Hraw as (raw & ->). cbn [rbind].
  eexists. split; [reflexivity|].
  destruct (Z.gtb_spec raw EXYNOS_MAX_TEMP); [lia|].
  destruct (Z.ltb_spec raw EXYNOS_MIN_TEMP); lia.
Qed.

(** X14: reading the temperature of a device completes whenever the
    calibration is not a degenerate two-point one (and an averaging 8895
    has a sensor): the value stored is a whole number of degrees of the
    valid range, in millidegrees, and the cooling device, if there is one
    with [set_cur_temp] and the id is not 1, is handed that number of
    degrees with the current [suspended] flag; nothing else happens. *)
Theorem get_temp_millicelsius (data : exynos_tmu_data) (w : world) :
  temp_range_typed -> calib_fields_typed data ->
  ~ (cal_type (pdata data) = TYPE_TWO_POINT_TRIMMING /\
     temp_error2 data = temp_error1 data) ->
  (soc data = SOC_ARCH_EXYNOS8895 -> sensing_mode data = AVG ->
   exists i, In i sensor_indices /\ sensor_active data i = true) ->
  exists t w',
    exynos_get_temp (Some data) w = Ok ((0, Some (t * 1000)), w') /\
    EXYNOS_MIN_TEMP <= t <= EXYNOS_MAX_TEMP /\
    trace w' = trace w ++
      match cool_dev data with
      | Some cdev =>
          if has_set_cur_temp cdev && negb (id data =? 1)
          then [EvSetCurTemp cdev (suspended w) t] else []
      | None => []
      end.
Proof.
  intros (Hmin & Hmm & Hmax) Hty Hnd Hact.
  destruct (tmu_read_code data w Hact) as (code & E & _).
  destruct (code_to_temp_returns data code Hty Hmm Hnd) as (t & Ec & Hr).
  exists t.
  unfold exynos_get_temp.
  rewrite (bind_Ok _ _ _ _ _ E), Ec.
  unfold bind at 1. cbn [lift].
  unfold int_mul, MCELSIUS.
  rewrite (to_int_id (t * 1000)) by (unfold is_int; lia).
  destruct (cool_dev data) as [cdev|].
  - destruct (has_set_cur_temp cdev && negb (id data =? 1)).
    + unfold bind, get_suspended, lift, int_div, emit, ret.
      cbn [Z.eqb]. rewrite Z.quot_mul by lia.
      rewrite (to_int_id t) by (unfold is_int; lia).
      eexists. split; [reflexivity|]. split; [exact Hr | reflexivity].
    + exists w. split; [reflexivity|]. split; [exact Hr|].
      rewrite app_nil_r. reflexivity.
  - exists w. split; [reflexivity|]. split; [exact Hr|].
    rewrite app_nil_r. reflexivity.
Qed.

End TemperatureReport.

Lemma get_temp_millicelsius_witness :
  let data := sample_data SOC_ARCH_EXYNOS8895 0 1 75 135 7 0 "step_wise" in
  let w := initial_world (regs_10_20_30 (base data)) in
  exists t w',
    @exynos_get_temp sample_header (Some data) w
    = Ok ((0, Some (t * 1000)), w') /\
    10 <= t <= 125 /\
    trace w' = [EvSetCurTemp (sample_cdev 0) false t].
Proof.
  cbv zeta.
  apply (@get_temp_millicelsius sample_header
           (sample_data SOC_ARCH_EXYNOS8895 0 1 75 135 7 0 "step_wise")
           (initial_world (regs_10_20_30 0x10060000))).
  - unfold temp_range_typed. cbn. lia.
  - unfold calib_fields_typed, is_u16, is_u8. cbn. lia.
  - cbn. intros [_ H]. discriminate.
  - intros _ _. exists 0%nat. split; [cbn; tauto | reflexivity].
Defined.

(** The loop of PM_SUSPEND_PREPARE touches neither the registers nor the
    file-scope variables. *)
Lemma suspend_prepare_loop_frame (l : list exynos_tmu_data) (w0 : world) :
  forall w,
    mmio w = mmio w0 /\ same_globals w0 w ->
    post False
      (for_each l
         (fun devnode (_ : unit) =>
            match cool_dev devnode with
            | Some cdev =>
                if has_set_cur_temp cdev && negb (id devnode =? 1) then
                  s <- get_suspended ;;
                  emit (EvSetCurTemp cdev s 0)
                else ret tt
            | None => ret tt
            end)
         tt) w
      (fun _ w' => mmio w' = mmio w0 /\ same_globals w0 w').
Proof.
  apply (post_for_each False l _
           (fun _ w' => mmio w' = mmio w0 /\ same_globals w0 w')).
  intros d [] w _ H.
  destruct (cool_dev d) as [cdev|]; [|exact H].
  destruct (has_set_cur_temp cdev && negb (id d =? 1)); exact H.
Qed.

(** X15: the PM notifier answers [NOTIFY_OK] to every event and never
    touches a register, the registry or the hot-plug state; the
    [suspended] flag is set by PM_SUSPEND_PREPARE, cleared by
    PM_POST_SUSPEND and kept by any other event, and only
    PM_SUSPEND_PREPARE raises events. *)
Theorem pm_notifier_flag (event : Z) (w : world) :
  exists w',
    exynos_pm_notifier event w = Ok (NOTIFY_OK, w') /\
    suspended w' = (if event =? PM_SUSPEND_PREPARE then true
                    else if event =? PM_POST_SUSPEND then false
                    else suspended w) /\
    mmio w' = mmio w /\
    dtm_dev_list w' = dtm_dev_list w /\
    pm_notifier_registered w' = pm_notifier_registered w /\
    is_cpu_hotplugged_out w' = is_cpu_hotplugged_out w /\
    cpufreq_state w' = cpufreq_state w /\
    (event <> PM_SUSPEND_PREPARE -> trace w' = trace w).
Proof.
  unfold exynos_pm_notifier.
  destruct (Z.eqb_spec event PM_SUSPEND_PREPARE) as [E|N].
  - set (ws := {| mmio := mmio w; suspended := true;
                  is_cpu_hotplugged_out := is_cpu_hotplugged_out w;
                  dtm_dev_list := dtm_dev_list w;
                  pm_notifier_registered := pm_notifier_registered w;
                  cpufreq_state := cpufreq_state w;
                  trace := trace w |}).
    destruct (suspend_prepare_loop (dtm_dev_list w) ws eq_refl)
      as (w' & Hrun & Hs & _).
    assert (H0 : mmio ws = mmio ws /\ same_globals ws ws)
      by (split; [|unfold same_globals]; repeat split).
    pose proof (suspend_prepare_loop_frame (dtm_dev_list w) ws ws H0) as Hf.
    unfold post in Hf. rewrite Hrun in Hf.
    destruct Hf as (Hm & _ & Hh & Hd & Hp & Hc).
    exists w'. split.
    + rewrite (bind_Ok _ _ w tt w'); [reflexivity|].
      rewrite (bind_Ok _ _ w tt ws) by reflexivity.
      rewrite (bind_Ok _ _ ws (dtm_dev_list w) ws) by reflexivity.
      exact Hrun.
    + repeat split; try assumption. intros H. contradiction.
  - destruct (event =? PM_POST_SUSPEND).
    + eexists. split; [reflexivity|]. repeat split.
    + exists w. split; [reflexivity|]. repeat split.
Qed.

(** ** Probe: status and registration *)

Section ProbeStatus.

Context {hdr : exynos_tmu_h}.

Lemma cooling_register_id (pdev : platform_device) (data : exynos_tmu_data) :
  id (snd (cooling_register pdev data)) = id data.
Proof.
  unfold cooling_register. destruct (pd_cooling_register pdev) as [r cdev].
  destruct ((id data =? 0) || (id data =? 1)); [reflexivity|].
  destruct ((id data =? 2) || (id data =? 3)); [|reflexivity].
  destruct (negb (pd_cooling_table_init pdev =? 0)); reflexivity.
Qed.

(** A probe that fails changes neither the registry nor the notifier; one
    that succeeds has appended the device, with the id that
    [exynos_map_dt_data] read and the cooling device that the registration
    step left. *)
Lemma probe_run (pdev : platform_device) w :
  (forall err, pd_sensor_register pdev = inl err -> err <> 0) ->
  post True (exynos_tmu_probe pdev) w
       (fun r w' =>
          (r <> 0 /\ same_registry w w') \/
          (r = 0 /\
           exists data,
             dtm_dev_list w' = dtm_dev_list w ++ [data] /\
             id data = id (snd (pd_map_dt_data pdev)) /\
             cool_dev data
             = cool_dev (snd (cooling_register pdev
                                (snd (pd_map_dt_data pdev)))))).
Proof.
  intros Herr. unfold exynos_tmu_probe.
  destruct (negb (pd_cpufreq_table pdev));
    [apply post_ret; left; split;
     [unfold EPROBE_DEFER; lia | apply same_registry_refl]|].
  destruct (negb (pd_kzalloc pdev));
    [apply post_ret; left; split;
     [unfold ENOMEM; lia | apply same_registry_refl]|].
  pose proof (cooling_register_id pdev (snd (pd_map_dt_data pdev))) as Hid.
  destruct (pd_map_dt_data pdev) as [r0 data0]. cbn [snd] in *.
  destruct (Z.eqb_spec r0 0) as [_|N0]; cbn [negb];
    [|apply post_ret; left; split; [exact N0 | apply same_registry_refl]].
  destruct (cooling_register pdev data0) as [r1 data1]. cbn [snd] in *.
  destruct (Z.eqb_spec r1 0) as [_|N1]; cbn [negb];
    [|apply post_ret; left; split; [exact N1 | apply same_registry_refl]].
  apply post_bind.
  apply post_conseq with (Q := fun _ w1 => same_registry w w1);
    [|destruct (hotplug_enable data1); split; reflexivity].
  intros [] w1 H1.
  destruct (pd_sensor_register pdev) as [err|tz] eqn:Esr;
    [apply post_ret; left; split; [apply (Herr err eq_refl) | exact H1]|].
  apply post_bind.
  apply post_conseq with (2 := initialize_frame (set_tzd data1 (Some tz)) w1).
  intros [r2 data2] w2 ((_ & _ & _ & _ & Hid2 & Hcd2) & H2).
  cbn [snd id cool_dev set_tzd] in Hid2, Hcd2.
  apply only_writes_same_registry in H2.
  pose proof (same_registry_trans _ _ _ H1 H2) as H12.
  destruct (Z.eqb_spec r2 0) as [_|N2]; cbn [negb].
  2:{ apply post_bind. unfold post, emit, ret. left.
      split; [exact N2 | exact H12]. }
  destruct (Z.eqb_spec (pd_request_irq pdev) 0) as [_|N3]; cbn [negb].
  2:{ apply post_bind. unfold post, emit, ret. left.
      split; [exact N3 | exact H12]. }
  apply post_bind.
  apply post_conseq with (2 := control_frame True data2 true w2 (fun _ => I)).
  intros [] w3 H3. apply only_writes_same_registry in H3.
  destruct (same_registry_trans _ _ _ H12 H3) as (Hl & Hn).
  unfold post, bind, get_dtm_dev_list, set_dtm_dev_list.
  cbn [dtm_dev_list]. rewrite Hl.
  destruct (dtm_dev_list w) as [|d0 [|d1 l1]];
    cbn [app list_is_singular];
    unfold register_pm_notifier, set_pm_notifier_registered, bind, emit, ret;
    cbn [dtm_dev_list];
    right; (split; [reflexivity|]); exists data2;
    (split; [reflexivity | split; congruence]).
Qed.

(** X16: the status of a probe tells whether the device was registered:
    with status 0 the registry has grown by exactly this device, under the
    id read from the device tree; with any other status the registry and
    the notifier registration are as before. *)
Theorem probe_status (pdev : platform_device) (w w' : world) (r : Z) :
  (forall err, pd_sensor_register pdev = inl err -> err <> 0) ->
  exynos_tmu_probe pdev w = Ok (r, w') ->
  (r = 0 ->
   exists data,
     dtm_dev_list w' = dtm_dev_list w ++ [data] /\
     id data = id (snd (pd_map_dt_data pdev))) /\
  (r <> 0 -> same_registry w w').
Proof.
  intros Herr Hrun.
  pose proof (post_partial _ _ _ _ _ (probe_run pdev w Herr) Hrun) as H.
  cbv beta in H. destruct H as [(Hr & Hs)|(Hr & data & Hl & Hid & _)].
  - split; [intros E; contradiction | intros _; exact Hs].
  - split; [|intros N; contradiction].
    intros _. exists data. split; assumption.
Qed.

(** X17: for a device whose id is none of 0, 1, 2 and 3 the probe
    registers no cooling device: the device enters the registry with
    [cool_dev] as [exynos_map_dt_data] left it.  When that is NULL, the
    throttle callback of the registered device dereferences a NULL pointer
    at any temperature, in any state. *)
Theorem probe_unknown_id_no_cooling (pdev : platform_device)
  (w w' : world) :
  (forall err, pd_sensor_register pdev = inl err -> err <> 0) ->
  let d0 := snd (pd_map_dt_data pdev) in
  id d0 <> 0 -> id d0 <> 1 -> id d0 <> 2 -> id d0 <> 3 ->
  cool_dev d0 = None ->
  exynos_tmu_probe pdev w = Ok (0, w') ->
  exists data,
    dtm_dev_list w' = dtm_dev_list w ++ [data] /\
    cool_dev data = None /\
    forall temp w1,
      exynos_throttle_cpu_hotplug data temp w1 = Fault NullPointer.
Proof.
  intros Herr d0 H0 H1 H2 H3 Hc Hrun.
  pose proof (post_partial _ _ _ _ _ (probe_run pdev w Herr) Hrun) as H.
  cbv beta in H. destruct H as [(Hr & _)|(_ & data & Hl & _ & Hcd)];
    [contradiction|].
  assert (Hnone : cool_dev data = None).
  { rewrite Hcd. fold d0. unfold cooling_register.
    destruct (pd_cooling_register pdev) as [r cdev].
    apply Z.eqb_neq in H0, H1, H2, H3. rewrite H0, H1, H2, H3.
    exact Hc. }
  exists data. split; [exact Hl|]. split; [exact Hnone|].
  intros temp w1. unfold exynos_throttle_cpu_hotplug.
  rewrite Hnone. reflexivity.
Qed.

End ProbeStatus.

Lemma probe_status_witness :
  let pdev :=
    sample_pdev (sample_data SOC_ARCH_EXYNOS8895 0 1 75 135 7 0 "step_wise") in
  exists r w',
    @exynos_tmu_probe sample_header pdev (initial_world (fun _ => 0))
    = Ok (r, w') /\
    (r = 0 -> exists data, dtm_dev_list w' = [data] /\ id data = 0).
Proof.
  cbv zeta.
  destruct (@exynos_tmu_probe sample_header
              (sample_pdev
                 (sample_data SOC_ARCH_EXYNOS8895 0 1 75 135 7 0 "step_wise"))
              (initial_world (fun _ => 0))) as [[r w']|f] eqn:E;
    [|vm_compute in E; discriminate].
  exists r, w'. split; [reflexivity|].
  refine (proj1 (@probe_status sample_header _ _ w' r _ E)).
  cbn. intros err H. discriminate.
Defined.

Lemma probe_unknown_id_no_cooling_witness :
  let d :=
    set_cool_dev
      (sample_data SOC_ARCH_EXYNOS8895 4 1 75 135 7 0 "step_wise") None in
  exists w' data,
    @exynos_tmu_probe sample_header (sample_pdev d)
                      (initial_world (fun _ => 0)) = Ok (0, w') /\
    dtm_dev_list w' = [data] /\
    @exynos_throttle_cpu_hotplug sample_header data 90000 w'
    = Fault NullPointer.
Proof.
  cbv zeta.
  destruct (@exynos_tmu_probe sample_header
              (sample_pdev
                 (set_cool_dev
                    (sample_data SOC_ARCH_EXYNOS8895 4 1 75 135 7 0
                                 "step_wise") None))
              (initial_world (fun _ => 0))) as [[r w']|f] eqn:E;
    [|vm_compute in E; discriminate].
  assert (Hr : r = 0).
  { assert (H : match @exynos_tmu_probe sample_header
                        (sample_pdev
                           (set_cool_dev
                              (sample_data SOC_ARCH_EXYNOS8895 4 1 75 135 7 0
                                           "step_wise") None))
                        (initial_world (fun _ => 0))
                with Ok (r, _) => r | Fault _ => 1 end = 0)
      by (vm_compute; reflexivity).
    rewrite E in H. exact H. }
  subst r.
  assert (Herr : forall err,
            pd_sensor_register
              (sample_pdev
                 (set_cool_dev
                    (sample_data SOC_ARCH_EXYNOS8895 4 1 75 135 7 0
                                 "step_wise") None)) = inl err -> err <> 0)
    by (cbn; intros err H; discriminate).
  destruct (@probe_unknown_id_no_cooling sample_header _ _ w' Herr
              ltac:(cbn; discriminate) ltac:(cbn; discriminate)
              ltac:(cbn; discriminate) ltac:(cbn; discriminate)
              eq_refl E) as (data & Hl & _ & Hf).
  exists w', data. split; [reflexivity|]. split; [exact Hl | apply Hf].
Defined.

(** ** Temperature emulation *)

Lemma testbit_u32_not (a n : Z) :
  0 <= n < 32 -> Z.testbit (u32_not a) n = negb (Z.testbit a n).
Proof.
  intros Hn. unfold u32_not.
  rewrite Z.lxor_spec, testbit_to_u32.
  change (2 ^ 32 - 1) with (Z.ones 32).
  rewrite Z.testbit_ones by lia.
  replace (n <? 32) with true by (symmetry; apply Z.ltb_lt; lia).
  replace (0 <=? n) with true by (symmetry; apply Z.leb_le; lia).
  cbn [andb]. destruct (Z.testbit a n); reflexivity.
Qed.

Lemma testbit_nine_bits (code k : Z) :
  0 <= code <= 511 -> 9 <= k -> Z.testbit code k = false.
Proof.
  intros Hc Hk.
  rewrite <- (Z.mod_small code (2 ^ 9)) by lia.
  apply Z.mod_pow2_bits_high. lia.
Qed.

Section Emulation.

Context {hdr : exynos_tmu_h}.

(** X18: temperature emulation refuses a nonzero temperature below one
    degree, a negative one included, with [-EINVAL] and without touching
    a register; with the temperature 0 it switches emulation off: one
    write to the emulation register, which clears the enable bit and
    keeps every other bit of the value read. *)
Theorem set_emulation_off_and_rejected (data : exynos_tmu_data) (temp : Z)
  (w : world) :
  (temp <> 0 -> temp < 1000 ->
   exynos_tmu_set_emulation data temp w = Ok (- EINVAL, w)) /\
  (temp = 0 ->
   exists w' v,
     exynos_tmu_set_emulation data temp w = Ok (0, w') /\
     trace w' = trace w ++ [EvWritel v (base data + EXYNOS_TMU_REG_EMUL_CON)] /\
     mmio w' (base data + EXYNOS_TMU_REG_EMUL_CON) = v /\
     forall n, 0 <= n < 32 ->
       Z.testbit v n
       = if n =? 0 then false
         else Z.testbit (mmio w (base data + EXYNOS_TMU_REG_EMUL_CON)) n).
Proof.
  split.
  - intros Hnz Hlt. unfold exynos_tmu_set_emulation.
    replace (temp =? 0) with false by (symmetry; apply Z.eqb_neq; exact Hnz).
    replace (temp <? MCELSIUS) with true
      by (symmetry; apply Z.ltb_lt; exact Hlt).
    reflexivity.
  - intros ->.
    unfold exynos_tmu_set_emulation, exynos8890_tmu_set_emulation.
    cbn [Z.eqb negb andb]. cbv zeta.
    unfold get_emul_con_reg. cbn [Z.eqb negb].
    unfold bind, readl, lift, writel, store, emit, bind, ret.
    eexists. eexists. split; [reflexivity|].
    cbn [trace mmio]. rewrite Z.eqb_refl.
    split; [reflexivity|]. split; [reflexivity|].
    intros n Hn.
    rewrite testbit_to_u32, Z.land_spec, testbit_u32_not by exact Hn.
    replace (n <? 32) with true by (symmetry; apply Z.ltb_lt; lia).
    cbn [andb]. unfold EXYNOS_EMUL_ENABLE.
    destruct (Z.eqb_spec n 0) as [->|Hne].
    + cbn. apply Bool.andb_false_r.
    + replace (Z.testbit 1 n) with false; [apply Bool.andb_true_r|].
      symmetry. destruct n; try reflexivity. lia.
Qed.

(** X19: emulating a temperature of one degree or more completes when
    the conversion does, and with a 9-bit code it programs exactly the
    enable bit and the data field: one write to the emulation register,
    with bit 0 set, bits 7 to 15 holding the code of the temperature in
    degrees, and every other bit as read (the emulation time above all).
    The degrees go through the [u8] parameter of [temp_to_code]. *)
Theorem set_emulation_programs_code (data : exynos_tmu_data) (temp code : Z)
  (w : world) :
  1000 <= temp < 2 ^ 31 ->
  temp_to_code data (Z.quot temp 1000) = Ok code ->
  0 <= code <= 511 ->
  exists w' v,
    exynos_tmu_set_emulation data temp w = Ok (0, w') /\
    trace w' = trace w ++ [EvWritel v (base data + EXYNOS_TMU_REG_EMUL_CON)] /\
    mmio w' (base data + EXYNOS_TMU_REG_EMUL_CON) = v /\
    forall n, 0 <= n < 32 ->
      Z.testbit v n
      = if n =? 0 then true
        else if (7 <=? n) && (n <? 16) then Z.testbit code (n - 7)
        else Z.testbit (mmio w (base data + EXYNOS_TMU_REG_EMUL_CON)) n.
Proof.
  intros Ht Hcode Hc.
  unfold exynos_tmu_set_emulation, exynos8890_tmu_set_emulation.
  replace (temp =? 0) with false by (symmetry; apply Z.eqb_neq; lia).
  replace (temp <? MCELSIUS) with false
    by (symmetry; apply Z.ltb_ge; unfold MCELSIUS; lia).
  cbn [negb andb]. cbv zeta.
  unfold get_emul_con_reg.
  replace (temp =? 0) with false by (symmetry; apply Z.eqb_neq; lia).
  cbn [negb]. unfold int_div, MCELSIUS. cbn [Z.eqb rbind].
  assert (Hq : 0 <= Z.quot temp 1000 <= temp).
  { split; [apply Z.quot_pos; lia|].
    apply Z.quot_le_upper_bound; lia. }
  rewrite (to_int_id (Z.quot temp 1000)) by (unfold is_int; lia).
  rewrite Hcode. cbn [rbind].
  unfold bind, readl, lift, writel, store, emit, bind, ret.
  eexists. eexists. split; [reflexivity|].
  cbn [trace mmio]. rewrite Z.eqb_refl.
  split; [reflexivity|]. split; [reflexivity|].
  intros n Hn.
  assert (Hsh : 0 <= Z.shiftl code EXYNOS_EMUL_DATA_SHIFT < 2 ^ 16).
  { unfold EXYNOS_EMUL_DATA_SHIFT. rewrite Z.shiftl_mul_pow2 by lia. lia. }
  rewrite (to_int_id (Z.shiftl code _)) by (unfold is_int; lia).
  rewrite testbit_to_u32, Z.lor_spec, Z.land_spec, testbit_u32_not,
    testbit_to_u32, Z.lor_spec by exact Hn.
  replace (n <? 32) with true by (symmetry; apply Z.ltb_lt; lia).
  cbn [andb].
  unfold EXYNOS_EMUL_DATA_SHIFT, EXYNOS_EMUL_DATA_MASK, EXYNOS_EMUL_ENABLE.
  rewrite !Z.shiftl_spec by lia.
  change 511 with (Z.ones 9). rewrite Z.testbit_ones by lia.
  destruct (Z.eqb_spec n 0) as [->|Hne].
  - cbn. apply Bool.orb_true_r.
  - replace (Z.testbit 1 n) with false
      by (symmetry; destruct n; try reflexivity; lia).
    rewrite Bool.orb_false_r.
    destruct (Z.leb_spec 7 n) as [H7|H7];
      destruct (Z.ltb_spec n 16) as [H16|H16]; cbn [andb].
    + replace (0 <=? n - 7) with true by (symmetry; apply Z.leb_le; lia).
      replace (n - 7 <? 9) with true by (symmetry; apply Z.ltb_lt; lia).
      cbn [andb negb]. rewrite Bool.andb_false_r. reflexivity.
    + replace (n - 7 <? 9) with false by (symmetry; apply Z.ltb_ge; lia).
      rewrite Bool.andb_false_r. cbn [negb].
      rewrite (testbit_nine_bits code (n - 7)) by lia.
      rewrite Bool.andb_true_r, Bool.orb_false_r. reflexivity.
    + replace (0 <=? n - 7) with false by (symmetry; apply Z.leb_gt; lia).
      cbn [andb negb].
      rewrite (Z.testbit_neg_r code (n - 7)) by lia.
      rewrite Bool.andb_true_r, Bool.orb_false_r. reflexivity.
    + lia.
Qed.

End Emulation.

Lemma set_emulation_off_and_rejected_witness :
  let data := sample_data SOC_ARCH_EXYNOS8895 0 1 75 135 7 0 "step_wise" in
  let w := initial_world (fun _ => 0xffff) in
  @exynos_tmu_set_emulation sample_header data (-5000) w = Ok (- EINVAL, w) /\
  @exynos_tmu_set_emulation sample_header data 999 w = Ok (- EINVAL, w).
Proof.
  cbv zeta. split.
  - apply (@set_emulation_off_and_rejected sample_header); lia.
  - apply (@set_emulation_off_and_rejected sample_header); lia.
Defined.

Lemma set_emulation_programs_code_witness :
  let data := sample_data SOC_ARCH_EXYNOS8895 0 1 75 135 7 0 "step_wise" in
  let w := initial_world (fun _ => 0) in
  exists w' v,
    @exynos_tmu_set_emulation sample_header data 50000 w = Ok (0, w') /\
    trace w' = [EvWritel v (base data + EXYNOS_TMU_REG_EMUL_CON)] /\
    mmio w' (base data + EXYNOS_TMU_REG_EMUL_CON) = v /\
    forall n, 0 <= n < 32 ->
      Z.testbit v n
      = if n =? 0 then true
        else if (7 <=? n) && (n <? 16) then Z.testbit 100 (n - 7)
        else Z.testbit 0 n.
Proof.
  cbv zeta.
  apply (@set_emulation_programs_code sample_header
           (sample_data SOC_ARCH_EXYNOS8895 0 1 75 135 7 0 "step_wise")
           50000 100 (initial_world (fun _ => 0))).
  - lia.
  - reflexivity.
  - lia.
Defined.

(** ** Remote sensor slots *)

Lemma count_active_le (data : exynos_tmu_data) (l : list nat) :
  forall n0,
    (fold_left (fun n i => if sensor_active data i then S n else n) l n0
     <= n0 + List.length l)%nat.
Proof.
  induction l as [|j l IH]; intros n0; cbn [fold_left List.length]; [lia|].
  destruct (sensor_active data j).
  - specialize (IH (S n0)). lia.
  - specialize (IH n0). lia.
Qed.

Lemma count_inactive (data : exynos_tmu_data) (l : list nat) :
  (forall j, In j l -> sensor_active data j = false) ->
  forall n0,
    fold_left (fun n i => if sensor_active data i then S n else n) l n0 = n0.
Proof.
  induction l as [|j l IH]; intros H n0; cbn [fold_left]; [reflexivity|].
  rewrite (H j (or_introl eq_refl)). apply IH.
  intros k Hk. apply H. right. exact Hk.
Qed.

Section RemoteSlots.

Context {hdr : exynos_tmu_h}.

(** X20: the calibration of a remote sensor is stored at the sensor's
    index in [data->remote_sensors], an array allocated with one entry per
    remote sensor: for the active remote sensor of highest index [i] the
    number of entries is at most [i], so the slot that the first loop of
    [exynos8895_tmu_initialize] assigns for it lies past the end of the
    allocation. *)
Theorem remote_slot_beyond_allocation (data : exynos_tmu_data) (i : nat)
  (w : world) :
  In i sensor_indices -> i <> 0%nat ->
  sensor_active data i = true ->
  (forall j, In j sensor_indices -> (i < j)%nat ->
             sensor_active data j = false) ->
  (num_of_remotes data <= i)%nat /\
  exists data',
    read_trim_info i data w = Ok (data', w) /\
    rs_cal_type (remote_sensors data' i)
    = to_u16 (Z.land (Z.shiftr (mmio w (base data + EXYNOS_TMU_REG_TRIMINFO
                                        + 0x4 * Z.of_nat i))
                               EXYNOS_TMU_CALIB_SEL_SHIFT)
                     EXYNOS_TMU_CALIB_SEL_MASK).
Proof.
  intros Hi H0 Ha Hhigh.
  assert (Hi8 : (i < 8)%nat).
  { unfold sensor_indices, TOTAL_SENSORS in Hi. apply in_seq in Hi. lia. }
  split.
  - unfold num_of_remotes.
    replace 7%nat with (i + (7 - i))%nat at 1 by lia.
    rewrite seq_app, fold_left_app.
    rewrite count_inactive.
    + pose proof (count_active_le data (seq 1 i) 0) as H.
      rewrite length_seq in H. exact H.
    + intros j Hj. apply in_seq in Hj.
      apply Hhigh; [|lia].
      unfold sensor_indices, TOTAL_SENSORS. apply in_seq. lia.
  - unfold read_trim_info. rewrite Ha.
    replace (Nat.eqb i 0) with false by (symmetry; apply Nat.eqb_neq; exact H0).
    unfold bind, readl, ret. cbv zeta.
    destruct (cal_type (pdata _) =? TYPE_TWO_POINT_TRIMMING);
      eexists; (split; [reflexivity|]);
      cbn [remote_sensors set_remote_sensor rs_cal_type];
      rewrite ?Nat.eqb_refl; reflexivity.
Qed.

End RemoteSlots.

Lemma remote_slot_beyond_allocation_witness :
  let data := sample_data SOC_ARCH_EXYNOS8895 0 1 75 135 0x11 0 "step_wise" in
  (num_of_remotes data <= 4)%nat /\
  exists data',
    @read_trim_info sample_header 4 data (initial_world (fun _ => 0))
    = Ok (data', initial_world (fun _ => 0)) /\
    rs_cal_type (remote_sensors data' 4) = 0.
Proof.
  cbv zeta.
  apply (@remote_slot_beyond_allocation sample_header
           (sample_data SOC_ARCH_EXYNOS8895 0 1 75 135 0x11 0 "step_wise")
           4 (initial_world (fun _ => 0))).
  - cbn. tauto.
  - discriminate.
  - reflexivity.
  - intros j Hj Hlt. unfold sensor_indices, TOTAL_SENSORS in Hj.
    cbn [seq In] in Hj.
    repeat (destruct Hj as [<-|Hj]; [try reflexivity; lia|]).
    contradiction.
Defined.

(** ** Threshold registers after initialisation *)

Lemma field_bits (k v n : Z) :
  0 <= k -> 0 <= n ->
  Z.testbit (threshold_field k v) n = (n <? 9) && Z.testbit v (n + 16 * k).
Proof.
  intros Hk Hn. unfold threshold_field, EXYNOS_TMU_TEMP_MASK.
  rewrite Z.land_spec, Z.shiftr_spec by exact Hn.
  change 511 with (Z.ones 9). rewrite Z.testbit_ones by lia.
  replace (0 <=? n) with true by (symmetry; apply Z.leb_le; exact Hn).
  cbn [andb]. apply Bool.andb_comm.
Qed.

Lemma put_field_bits (k code v n : Z) :
  0 <= k -> 0 <= n < 32 ->
  Z.testbit (put_field k code v) n
  = (Z.testbit v n && negb ((0 <=? n - 16 * k) && (n - 16 * k <? 9)))
    || Z.testbit code (n - 16 * k).
Proof.
  intros Hk Hn. unfold put_field, u32_shl, EXYNOS_TMU_TEMP_MASK.
  rewrite Z.lor_spec, Z.land_spec, testbit_u32_not, testbit_to_u32
    by exact Hn.
  rewrite !Z.shiftl_spec by lia.
  change 511 with (Z.ones 9). rewrite Z.testbit_ones by lia.
  replace (n <? 32) with true by (symmetry; apply Z.ltb_lt; lia).
  reflexivity.
Qed.

(** Reading a field back: the one just put holds the code, the other one
    is as before; the conversion to [u32] of the register write changes
    neither. *)
Lemma field_put_same (k code v : Z) :
  k = 0 \/ k = 1 -> 0 <= code <= 511 ->
  threshold_field k (put_field k code v) = code /\
  threshold_field k (to_u32 (put_field k code v)) = code.
Proof.
  intros Hk Hc.
  assert (H : forall n, 0 <= n ->
            (n <? 9) && Z.testbit (put_field k code v) (n + 16 * k)
            = Z.testbit code n).
  { intros n Hn. destruct (Z.ltb_spec n 9) as [H9|H9]; cbn [andb].
    - rewrite put_field_bits by lia.
      replace (n + 16 * k - 16 * k) with n by lia.
      replace (0 <=? n) with true by (symmetry; apply Z.leb_le; lia).
      replace (n <? 9) with true by (symmetry; apply Z.ltb_lt; lia).
      cbn [andb negb]. rewrite Bool.andb_false_r. reflexivity.
    - symmetry. apply testbit_nine_bits; lia. }
  split; apply Z.bits_inj'; intros n Hn; rewrite field_bits by lia.
  - apply H. exact Hn.
  - rewrite testbit_to_u32.
    destruct (Z.ltb_spec n 9) as [H9|H9]; cbn [andb].
    + replace (n + 16 * k <? 32) with true by (symmetry; apply Z.ltb_lt; lia).
      cbn [andb]. rewrite <- (H n Hn).
      replace (n <? 9) with true by (symmetry; apply Z.ltb_lt; lia).
      reflexivity.
    + symmetry. apply testbit_nine_bits; lia.
Qed.

Lemma field_put_other (k code v : Z) :
  k = 0 \/ k = 1 -> 0 <= code <= 511 ->
  threshold_field (1 - k) (put_field k code v) = threshold_field (1 - k) v /\
  threshold_field (1 - k) (to_u32 (put_field k code v))
  = threshold_field (1 - k) v.
Proof.
  intros Hk Hc.
  assert (H : forall n, 0 <= n < 9 ->
            Z.testbit (put_field k code v) (n + 16 * (1 - k))
            = Z.testbit v (n + 16 * (1 - k))).
  { intros n Hn. rewrite put_field_bits by lia.
    destruct Hk as [-> | ->].
    - replace (n + 16 * (1 - 0) - 16 * 0 <? 9) with false
        by (symmetry; apply Z.ltb_ge; lia).
      rewrite Bool.andb_false_r. cbn [negb].
      rewrite (testbit_nine_bits code) by lia.
      rewrite Bool.andb_true_r, Bool.orb_false_r. reflexivity.
    - replace (0 <=? n + 16 * (1 - 1) - 16 * 1) with false
        by (symmetry; apply Z.leb_gt; lia).
      cbn [andb negb].
      rewrite (Z.testbit_neg_r code) by lia.
      rewrite Bool.andb_true_r, Bool.orb_false_r. reflexivity. }
  split; apply Z.bits_inj'; intros n Hn; rewrite !field_bits by lia;
    destruct (Z.ltb_spec n 9) as [H9|H9]; cbn [andb]; try reflexivity.
  - apply H. lia.
  - rewrite testbit_to_u32.
    replace (n + 16 * (1 - k) <? 32) with true
      by (symmetry; apply Z.ltb_lt; lia).
    cbn [andb]. apply H. lia.
Qed.

Lemma placement_range (i : nat) :
  (i < 8)%nat ->
  0 <= reg_off (Z.of_nat i) <= 12 /\
  (bit_off (Z.of_nat i) = 0 \/ bit_off (Z.of_nat i) = 1).
Proof.
  intros H.
  do 8 (destruct i as [|i];
        [vm_compute; split; [split; discriminate | auto]|]).
  lia.
Qed.

(** Two trips share a register only as neighbours [2k + 1] and [2k], and
    then they take its two fields. *)
Lemma placement_pairs (i m : nat) :
  (i < 8)%nat -> (m < i)%nat ->
  reg_off (Z.of_nat i) <> reg_off (Z.of_nat m) \/
  (i = S m /\ reg_off (Z.of_nat i) = reg_off (Z.of_nat m) /\
   bit_off (Z.of_nat i) = 1 - bit_off (Z.of_nat m)).
Proof.
  intros Hi Hm.
  do 8 (destruct i as [|i];
        [do 8 (destruct m as [|m];
               [first [lia | left; vm_compute; discriminate
                      | right; repeat split; reflexivity]|]);
         lia|]).
  lia.
Qed.

Section Thresholds.

Context {hdr : exynos_tmu_h}.

(** One iteration of the threshold loop, when both conversions return. *)
Lemma program_trip_run (data : exynos_tmu_data) (tz : thermal_zone_device)
  (ro bo : Z) (i : nat) (f : Z) (w : world) (cr cf : Z) :
  rising_code data tz i = Ok cr -> falling_code data tz i = Ok cf ->
  exists w',
    program_trip data tz ro bo i f w = Ok (put_field bo cf f, w') /\
    mmio w' =
      (fun a =>
         if a =? base data + EXYNOS_THD_TEMP_FALL7_6 + ro
         then to_u32 (put_field bo cf f)
         else if a =? base data + EXYNOS_THD_TEMP_RISE7_6 + ro
         then to_u32 (put_field bo cr
                        (mmio w (base data + EXYNOS_THD_TEMP_RISE7_6 + ro)))
         else mmio w a).
Proof.
  unfold rising_code, falling_code, program_trip, int_div.
  cbn [MCELSIUS Z.eqb rbind]. intros Hr Hf.
  unfold bind, lift. rewrite Hr.
  unfold readl, writel, store, emit, bind. rewrite Hf.
  eexists. split; reflexivity.
Qed.

Ltac decide_eqb :=
  repeat match goal with
         | |- context [?a =? ?b] =>
             first [ replace (a =? b) with true
                       by (symmetry; apply Z.eqb_eq;
                           unfold EXYNOS_THD_TEMP_RISE7_6,
                             EXYNOS_THD_TEMP_FALL7_6 in *; lia)
                   | replace (a =? b) with false
                       by (symmetry; apply Z.eqb_neq;
                           unfold EXYNOS_THD_TEMP_RISE7_6,
                             EXYNOS_THD_TEMP_FALL7_6 in *; lia) ]
         end.

(** The threshold loop from trip [m - 1] down to trip 0, entered with the
    trips from [m] up already programmed and the field of trip [m] still
    in the carried [falling_threshold]: all trips are programmed at the
    end, and no other register is written. *)
Lemma trip_loop_run (data : exynos_tmu_data) (tz : thermal_zone_device)
  (ro : nat -> Z) (c : Z) (n : nat) (cr cf : nat -> Z) :
  (n <= 8)%nat ->
  (forall i, (i < 8)%nat -> ro i = reg_off (Z.of_nat i) + c) ->
  (forall i, (i < n)%nat ->
     rising_code data tz i = Ok (cr i) /\ 0 <= cr i <= 511 /\
     falling_code data tz i = Ok (cf i) /\ 0 <= cf i <= 511) ->
  forall m, (m <= n)%nat -> forall f w,
    thresholds_hold data ro cr cf m n w ->
    ((m < n)%nat -> threshold_field (bit_off (Z.of_nat m)) f = cf m) ->
    exists f' w',
      for_each (rev (seq 0 m))
        (fun i falling_threshold =>
           program_trip data tz (ro i) (bit_off (Z.of_nat i)) i
                        falling_threshold)
        f w = Ok (f', w') /\
      thresholds_hold data ro cr cf 0 n w' /\
      (forall a,
         (forall i, (i < m)%nat ->
            a <> base data + EXYNOS_THD_TEMP_RISE7_6 + ro i /\
            a <> base data + EXYNOS_THD_TEMP_FALL7_6 + ro i) ->
         mmio w' a = mmio w a).
Proof.
  intros Hn Hro Hcodes.
  induction m as [|m IH]; intros Hm f w HT HV.
  - exists f, w. split; [reflexivity|]. split; [exact HT|].
    intros; reflexivity.
  - rewrite seq_S, rev_app_distr. cbn [rev app for_each Nat.add].
    destruct (Hcodes m ltac:(lia)) as (Hr & Hcr & Hf & Hcf).
    destruct (program_trip_run data tz (ro m) (bit_off (Z.of_nat m)) m f w
                _ _ Hr Hf) as (w1 & E1 & M1).
    pose proof (placement_range m ltac:(lia)) as (Hrm & Hbm).
    pose proof (Hro m ltac:(lia)) as Erm.
    destruct (IH ltac:(lia) (put_field (bit_off (Z.of_nat m)) (cf m) f) w1)
      as (f' & w' & E & HI & Hfr).
    + intros i Hi. rewrite M1. cbv beta.
      pose proof (placement_range i ltac:(lia)) as (Hri & Hbi).
      pose proof (Hro i ltac:(lia)) as Eri.
      destruct (Nat.eq_dec i m) as [->|Hne].
      * decide_eqb.
        split; [apply (proj2 (field_put_same _ _ _ Hbm Hcr))
               | apply (proj2 (field_put_same _ _ _ Hbm Hcf))].
      * destruct (placement_pairs i m ltac:(lia) ltac:(lia))
          as [Hd | (Ei & Er & Eb)].
        -- decide_eqb. apply HT. lia.
        -- decide_eqb. rewrite Eb.
           destruct (HT i ltac:(lia)) as [HR _].
           split.
           ++ rewrite (proj2 (field_put_other _ (cr m) _ Hbm Hcr)).
              replace (ro m) with (ro i) by lia.
              rewrite <- Eb. exact HR.
           ++ rewrite (proj2 (field_put_other _ (cf m) _ Hbm Hcf)).
              rewrite <- Eb. subst i. apply HV. lia.
    + intros _. apply (proj1 (field_put_same _ _ _ Hbm Hcf)).
    + exists f', w'. split; [|split; [exact HI|]].
      * erewrite bind_Ok; [exact E | exact E1].
      * intros a Ha. rewrite Hfr.
        -- rewrite M1. cbv beta.
           destruct (Ha m ltac:(lia)) as [Ha1 Ha2].
           decide_eqb. reflexivity.
        -- intros i Hi. apply Ha. lia.
Qed.

Lemma trimmed_8890_same (data : exynos_tmu_data) (trim_info : Z) :
  tzd (trimmed_8890 data trim_info) = tzd data /\
  base (trimmed_8890 data trim_info) = base data /\
  soc (trimmed_8890 data trim_info) = soc data.
Proof.
  unfold trimmed_8890. cbv zeta.
  repeat match goal with
         | |- context [if ?c then _ else _] => destruct c
         end; repeat split.
Qed.

(** The run of the 8890 initialisation when the conversions return 9-bit
    codes. *)
Lemma initialize_8890_run (data : exynos_tmu_data)
  (tz : thermal_zone_device) (w : world) (cr cf : nat -> Z) :
  soc data = SOC_ARCH_EXYNOS8890 ->
  tzd data = Some tz ->
  (of_thermal_get_ntrips tz <= 8)%nat ->
  let d := trimmed_8890 data (mmio w (base data + EXYNOS_TMU_REG_TRIMINFO)) in
  (forall i, (i < of_thermal_get_ntrips tz)%nat ->
     rising_code d tz i = Ok (cr i) /\ 0 <= cr i <= 511 /\
     falling_code d tz i = Ok (cf i) /\ 0 <= cf i <= 511) ->
  exists w',
    exynos_tmu_initialize data w = Ok ((0, d), w') /\
    forall i, (i < of_thermal_get_ntrips tz)%nat ->
      threshold_field (bit_off (Z.of_nat i))
        (mmio w' (base data + EXYNOS_THD_TEMP_RISE7_6 + reg_off (Z.of_nat i)))
      = cr i /\
      threshold_field (bit_off (Z.of_nat i))
        (mmio w' (base data + EXYNOS_THD_TEMP_FALL7_6 + reg_off (Z.of_nat i)))
      = cf i.
Proof.
  intros Hsoc Htz Hn d Hcodes.
  destruct (trimmed_8890_same data
              (mmio w (base data + EXYNOS_TMU_REG_TRIMINFO)))
    as (Hdz & Hdb & Hds).
  fold d in Hdz, Hdb, Hds.
  assert (Hinit :
    exynos8890_tmu_initialize data w =
    (tz <- deref (tzd d) ;;
     for_each (trip_indices_down tz)
       (fun i falling_threshold =>
          program_trip d tz (reg_off (Z.of_nat i)) (bit_off (Z.of_nat i))
                       i falling_threshold)
       0 ;;;
     tmu_clear_irqs d ;;;
     ret (0, d)) w) by reflexivity.
  unfold exynos_tmu_initialize. rewrite Hsoc, Hinit, Hdz, Htz.
  destruct (trip_loop_run d tz (fun i => reg_off (Z.of_nat i)) 0
              (of_thermal_get_ntrips tz) cr cf Hn
              (fun i _ => eq_sym (Z.add_0_r _)) Hcodes
              (of_thermal_get_ntrips tz) (le_n _) 0 w)
    as (f' & w1 & E & HI & _).
  { intros i Hi. lia. }
  { intros Hi. lia. }
  rewrite (bind_Ok _ _ w tz w) by reflexivity.
  unfold trip_indices_down.
  rewrite (bind_Ok _ _ _ _ _ E).
  unfold tmu_clear_irqs. rewrite Hds, Hsoc.
  unfold exynos8890_tmu_clear_irqs, bind, readl, writel, store, emit, bind,
    ret.
  eexists. split; [reflexivity|].
  intros i Hi. cbn [mmio].
  pose proof (placement_range i ltac:(lia)) as (Hri & _).
  rewrite Hdb.
  unfold EXYNOS_TMU_REG_INTPEND0.
  decide_eqb.
  rewrite <- Hdb. apply HI. lia.
Qed.

(** X21: on the 8890, with at most eight trips whose rising and falling
    temperatures convert to 9-bit codes under the calibration read from
    TRIMINFO, initialisation completes and leaves every trip's codes in
    the threshold registers: trip [i] in field [i mod 2] of the rising and
    of the falling register at offset [4 * ((7 - i) / 2)].  The falling
    registers are written from a value carried through the loop, not read
    back, and still end with the right codes. *)
Theorem thresholds_programmed_8890 (data : exynos_tmu_data)
  (tz : thermal_zone_device) (w : world) (cr cf : nat -> Z) :
  soc data = SOC_ARCH_EXYNOS8890 ->
  tzd data = Some tz ->
  (of_thermal_get_ntrips tz <= 8)%nat ->
  let d := trimmed_8890 data (mmio w (base data + EXYNOS_TMU_REG_TRIMINFO)) in
  (forall i, (i < of_thermal_get_ntrips tz)%nat ->
     rising_code d tz i = Ok (cr i) /\ 0 <= cr i <= 511 /\
     falling_code d tz i = Ok (cf i) /\ 0 <= cf i <= 511) ->
  exists w',
    exynos_tmu_initialize data w = Ok ((0, d), w') /\
    forall i, (i < of_thermal_get_ntrips tz)%nat ->
      threshold_field (bit_off (Z.of_nat i))
        (mmio w' (base data + EXYNOS_THD_TEMP_RISE7_6 + reg_off (Z.of_nat i)))
      = cr i /\
      threshold_field (bit_off (Z.of_nat i))
        (mmio w' (base data + EXYNOS_THD_TEMP_FALL7_6 + reg_off (Z.of_nat i)))
      = cf i.
Proof.
  intros Hsoc Htz Hn d Hcodes.
  destruct (initialize_8890_run data tz w cr cf Hsoc Htz Hn Hcodes)
    as (w' & E & H).
  exists w'. split; [exact E|].
  intros i Hi. apply (H i Hi).
Qed.

(** On the 8890 control writes the interrupt-enable and control registers
    and no other. *)
Lemma control_8890_frame (F : Prop) (data : exynos_tmu_data)
  (tz : thermal_zone_device) (on : bool) (w : world) :
  soc data = SOC_ARCH_EXYNOS8890 ->
  tzd data = Some tz ->
  post F (exynos_tmu_control data on) w
    (fun _ w' =>
       forall a, a <> base data + EXYNOS_TMU_REG_CONTROL ->
                 a <> base data + EXYNOS_TMU_REG_INTEN ->
                 mmio w' a = mmio w a).
Proof.
  intros Hsoc Htz. unfold exynos_tmu_control. rewrite Hsoc.
  unfold exynos8890_tmu_control, control_bits. rewrite Htz.
  destruct on;
    unfold post, bind, readl, deref, ret, writel, store, emit, bind;
    cbv beta iota zeta; cbn [mmio];
    intros a H1 H2;
    apply Z.eqb_neq in H1, H2; rewrite H1, H2; reflexivity.
Qed.

(** X27: a suspend followed by a resume, on the 8890, for a zone of at
    most eight trips whose temperatures convert to 9-bit codes under the
    calibration in TRIMINFO.  Suspend returns 0 with the core and the trip
    enable switched off and every interrupt disabled; resume returns 0
    with them switched on again, the interrupts of the valid trips
    enabled, and every trip's codes in the threshold registers. *)
Theorem suspend_resume_8890 (data : exynos_tmu_data)
  (tz : thermal_zone_device) (w : world) (cr cf : nat -> Z) :
  soc data = SOC_ARCH_EXYNOS8890 ->
  tzd data = Some tz ->
  (of_thermal_get_ntrips tz <= 8)%nat ->
  let d := trimmed_8890 data (mmio w (base data + EXYNOS_TMU_REG_TRIMINFO)) in
  (forall i, (i < of_thermal_get_ntrips tz)%nat ->
     rising_code d tz i = Ok (cr i) /\ 0 <= cr i <= 511 /\
     falling_code d tz i = Ok (cf i) /\ 0 <= cf i <= 511) ->
  exists w1 w2,
    exynos_tmu_suspend data w = Ok (0, w1) /\
    Z.testbit (mmio w1 (base data + EXYNOS_TMU_REG_CONTROL))
              EXYNOS_TMU_CORE_EN_SHIFT = false /\
    Z.testbit (mmio w1 (base data + EXYNOS_TMU_REG_CONTROL))
              EXYNOS_TMU_THERM_TRIP_EN_SHIFT = false /\
    mmio w1 (base data + EXYNOS_TMU_REG_INTEN) = 0 /\
    exynos_tmu_resume data w1 = Ok (0, w2) /\
    Z.testbit (mmio w2 (base data + EXYNOS_TMU_REG_CONTROL))
              EXYNOS_TMU_CORE_EN_SHIFT = true /\
    Z.testbit (mmio w2 (base data + EXYNOS_TMU_REG_CONTROL))
              EXYNOS_TMU_THERM_TRIP_EN_SHIFT = true /\
    mmio w2 (base data + EXYNOS_TMU_REG_INTEN) = interrupt_en_on tz /\
    forall i, (i < of_thermal_get_ntrips tz)%nat ->
      threshold_field (bit_off (Z.of_nat i))
        (mmio w2 (base data + EXYNOS_THD_TEMP_RISE7_6 + reg_off (Z.of_nat i)))
      = cr i /\
      threshold_field (bit_off (Z.of_nat i))
        (mmio w2 (base data + EXYNOS_THD_TEMP_FALL7_6 + reg_off (Z.of_nat i)))
      = cf i.
Proof.
  intros Hsoc Htz Hn d Hcodes.
  destruct (post_total _ _ _ (control_run data tz false w Htz))
    as ([] & w1 & E1 & B0 & B12 & I1).
  pose proof (post_partial _ _ _ _ _
                (control_8890_frame True data tz false w Hsoc Htz) E1) as F1.
  cbv beta in F1.
  assert (Hti : mmio w1 (base data + EXYNOS_TMU_REG_TRIMINFO)
                = mmio w (base data + EXYNOS_TMU_REG_TRIMINFO)).
  { apply F1; unfold EXYNOS_TMU_REG_TRIMINFO, EXYNOS_TMU_REG_CONTROL,
                EXYNOS_TMU_REG_INTEN; lia. }
  destruct (initialize_8890_run data tz w1 cr cf Hsoc Htz Hn)
    as (w2 & E2 & H2).
  { rewrite Hti. exact Hcodes. }
  rewrite Hti in E2. fold d in E2.
  destruct (trimmed_8890_same data
              (mmio w (base data + EXYNOS_TMU_REG_TRIMINFO)))
    as (Hdz & Hdb & Hds).
  fold d in Hdz, Hdb, Hds.
  assert (Htz' : tzd d = Some tz) by (rewrite Hdz; exact Htz).
  assert (Hsoc' : soc d = SOC_ARCH_EXYNOS8890) by (rewrite Hds; exact Hsoc).
  destruct (post_total _ _ _ (control_run d tz true w2 Htz'))
    as ([] & w3 & E3 & C0 & C12 & I3).
  pose proof (post_partial _ _ _ _ _
                (control_8890_frame True d tz true w2 Hsoc' Htz') E3) as F3.
  cbv beta in F3. rewrite Hdb in *.
  exists w1, w3.
  split; [unfold exynos_tmu_suspend; rewrite (bind_Ok _ _ _ _ _ E1);
          reflexivity|].
  split; [exact B0|]. split; [exact B12|].
  split.
  { specialize (I1 0%nat). rewrite Hsoc in I1.
    replace (base data + EXYNOS_TMU_REG_INTEN)
      with (base data + EXYNOS_TMU_REG_INTEN + 16 * Z.of_nat 0) by lia.
    apply I1; [cbn; tauto | reflexivity]. }
  split; [unfold exynos_tmu_resume; rewrite (bind_Ok _ _ _ _ _ E2);
          cbn [snd]; rewrite (bind_Ok _ _ _ _ _ E3); reflexivity|].
  split; [exact C0|]. split; [exact C12|].
  split.
  { specialize (I3 0%nat). rewrite Hds, Hsoc in I3.
    replace (base data + EXYNOS_TMU_REG_INTEN)
      with (base data + EXYNOS_TMU_REG_INTEN + 16 * Z.of_nat 0) by lia.
    apply I3; [cbn; tauto | reflexivity]. }
  intros i Hi.
  pose proof (placement_range i ltac:(lia)) as (Hri & _).
  rewrite !F3;
    [apply (H2 i Hi) | | | |];
    unfold EXYNOS_THD_TEMP_RISE7_6, EXYNOS_THD_TEMP_FALL7_6,
      EXYNOS_TMU_REG_CONTROL, EXYNOS_TMU_REG_INTEN; lia.
Qed.

Lemma reg_off_sensor_eq (j i : nat) :
  (i < 8)%nat ->
  reg_off_sensor j (Z.of_nat i)
  = reg_off (Z.of_nat i) + (if Nat.ltb 0 j then EXYNOS_THD_TEMP_R_OFFSET else 0).
Proof.
  intros Hi. pose proof (placement_range i Hi) as (Hr & _).
  unfold reg_off_sensor. destruct (Nat.ltb 0 j); [|lia].
  unfold u32_add, EXYNOS_THD_TEMP_R_OFFSET.
  apply to_u32_id. unfold is_u32. lia.
Qed.

Lemma threshold_not_intpend (d : exynos_tmu_data) (j i : nat) :
  (i < 8)%nat ->
  is_intpend_reg d
    (base d + EXYNOS_THD_TEMP_RISE7_6 + reg_off_sensor j (Z.of_nat i)) = false /\
  is_intpend_reg d
    (base d + EXYNOS_THD_TEMP_FALL7_6 + reg_off_sensor j (Z.of_nat i)) = false.
Proof.
  intros Hi. unfold is_intpend_reg, reg_among.
  replace (base d + EXYNOS_THD_TEMP_RISE7_6 + reg_off_sensor j (Z.of_nat i)
           - base d)
    with (EXYNOS_THD_TEMP_RISE7_6 + reg_off_sensor j (Z.of_nat i)) by lia.
  replace (base d + EXYNOS_THD_TEMP_FALL7_6 + reg_off_sensor j (Z.of_nat i)
           - base d)
    with (EXYNOS_THD_TEMP_FALL7_6 + reg_off_sensor j (Z.of_nat i)) by lia.
  unfold reg_off_sensor. destruct (Nat.ltb 0 j);
    do 8 (destruct i as [|i]; [vm_compute; split; reflexivity|]); lia.
Qed.

(** The threshold loops of the 8895 over the sensors [l]: the registers
    of every active sensor hold the codes at the end, those of the sensors
    done before still do, and no other register is written. *)
Lemma sensor_loop_run (d : exynos_tmu_data) (tz : thermal_zone_device)
  (cr cf : nat -> Z) :
  (of_thermal_get_ntrips tz <= 8)%nat ->
  (forall i, (i < of_thermal_get_ntrips tz)%nat ->
     rising_code d tz i = Ok (cr i) /\ 0 <= cr i <= 511 /\
     falling_code d tz i = Ok (cf i) /\ 0 <= cf i <= 511) ->
  forall (l : list nat) (P : nat -> Prop) f w,
    (forall j, P j ->
       thresholds_hold d (fun i => reg_off_sensor j (Z.of_nat i)) cr cf
                       0 (of_thermal_get_ntrips tz) w) ->
    exists f' w',
      for_each l
        (fun j falling_threshold =>
           if sensor_active d j then
             for_each (trip_indices_down tz)
               (fun i falling_threshold =>
                  program_trip d tz (reg_off_sensor j (Z.of_nat i))
                               (bit_off (Z.of_nat i)) i falling_threshold)
               falling_threshold
           else ret falling_threshold)
        f w = Ok (f', w') /\
      (forall j, P j \/ (In j l /\ sensor_active d j = true) ->
         thresholds_hold d (fun i => reg_off_sensor j (Z.of_nat i)) cr cf
                         0 (of_thermal_get_ntrips tz) w').
Proof.
  intros Hn Hcodes.
  induction l as [|j' l IH]; intros P f w HP.
  - exists f, w. split; [reflexivity|].
    intros j [Hj|[[] _]]. apply HP. exact Hj.
  - cbn [for_each]. destruct (sensor_active d j') eqn:Ea.
    + destruct (trip_loop_run d tz (fun i => reg_off_sensor j' (Z.of_nat i))
                  (if Nat.ltb 0 j' then EXYNOS_THD_TEMP_R_OFFSET else 0)
                  (of_thermal_get_ntrips tz) cr cf Hn
                  (fun i Hi => reg_off_sensor_eq j' i Hi) Hcodes
                  (of_thermal_get_ntrips tz) (le_n _) f w)
        as (f1 & w1 & E1 & H1 & Fr1).
      { intros i Hi. lia. }
      { intros Hi. lia. }
      destruct (IH (fun j => P j \/ j = j') f1 w1) as (f' & w' & E & H).
      * intros j [Hj| ->]; [|exact H1].
        intros i Hi.
        pose proof (reg_off_sensor_eq j i ltac:(lia)) as Ej.
        pose proof (reg_off_sensor_eq j' i ltac:(lia)) as Ej'.
        destruct (Bool.bool_dec (Nat.ltb 0 j) (Nat.ltb 0 j')) as [Eb|Nb].
        -- rewrite Eb in Ej. rewrite Ej, <- Ej'. apply (H1 i Hi).
        -- rewrite !Fr1; [apply (HP j Hj i Hi)| |];
             intros k Hk;
             pose proof (reg_off_sensor_eq j' k ltac:(lia)) as Ek;
             pose proof (placement_range k ltac:(lia)) as (Hrk & _);
             pose proof (placement_range i ltac:(lia)) as (Hri & _);
             unfold EXYNOS_THD_TEMP_RISE7_6, EXYNOS_THD_TEMP_FALL7_6,
               EXYNOS_THD_TEMP_R_OFFSET in *;
             destruct (Nat.ltb 0 j), (Nat.ltb 0 j');
             try congruence; lia.
      * exists f', w'. split.
        -- erewrite bind_Ok; [exact E | exact E1].
        -- intros j [Hj|[[<-|Hj] Ha]]; apply H; auto.
    + destruct (IH P f w HP) as (f' & w' & E & H).
      exists f', w'. split.
      * erewrite bind_Ok; [exact E | reflexivity].
      * intros j [Hj|[[<-|Hj] Ha]]; [apply H; auto | congruence
                                     | apply H; auto].
Qed.

(** X22: on the 8895 under a governor other than the power allocator,
    with at most eight trips whose temperatures convert to 9-bit codes
    under the calibration that the first loop reads, initialisation
    completes and leaves every trip's codes in the threshold registers of
    every active sensor: the main sensor's at [THD_TEMP_RISE7_6] and
    [THD_TEMP_FALL7_6], the remote sensors', which all share one set, at
    [THD_TEMP_R_OFFSET] above.  Every sensor gets the codes of the main
    sensor's calibration. *)
Theorem thresholds_programmed_8895 (data d : exynos_tmu_data)
  (tz : thermal_zone_device) (w : world) (cr cf : nat -> Z) :
  soc data = SOC_ARCH_EXYNOS8895 ->
  tzd data = Some tz ->
  governor_is_power_allocator tz = false ->
  (of_thermal_get_ntrips tz <= 8)%nat ->
  for_each sensor_indices read_trim_info data w = Ok (d, w) ->
  (forall i, (i < of_thermal_get_ntrips tz)%nat ->
     rising_code d tz i = Ok (cr i) /\ 0 <= cr i <= 511 /\
     falling_code d tz i = Ok (cf i) /\ 0 <= cf i <= 511) ->
  exists w',
    exynos_tmu_initialize data w = Ok ((0, d), w') /\
    forall j i,
      In j sensor_indices -> sensor_active data j = true ->
      (i < of_thermal_get_ntrips tz)%nat ->
      threshold_field (bit_off (Z.of_nat i))
        (mmio w' (base data + EXYNOS_THD_TEMP_RISE7_6
                  + reg_off_sensor j (Z.of_nat i))) = cr i /\
      threshold_field (bit_off (Z.of_nat i))
        (mmio w' (base data + EXYNOS_THD_TEMP_FALL7_6
                  + reg_off_sensor j (Z.of_nat i))) = cf i.
Proof.
  intros Hsoc Htz Hgov Hn Htrim Hcodes.
  pose proof (post_partial _ _ _ _ _ (trim_loop_keeps True data w) Htrim)
    as (_ & Hdz & Hdb & _ & Hdsens & _).
  destruct (sensor_loop_run d tz cr cf Hn Hcodes sensor_indices
              (fun _ => False) 0 w) as (f' & w1 & E & H1).
  { intros j []. }
  destruct (post_total _ _ _ (clear_irqs_only_writes False d w1))
    as ([] & w2 & Ec & (_ & _ & Hkeep)).
  unfold exynos_tmu_initialize. rewrite Hsoc.
  unfold exynos8895_tmu_initialize.
  rewrite (bind_Ok _ _ _ _ _ Htrim).
  rewrite Hdz, Htz.
  rewrite (bind_Ok _ _ w tz w) by reflexivity.
  rewrite Hgov. cbn [negb].
  rewrite (bind_Ok _ _ w tt w1)
    by (rewrite (bind_Ok _ _ _ _ _ E); reflexivity).
  rewrite (bind_Ok _ _ _ _ _ Ec).
  exists w2. split; [reflexivity|].
  intros j i Hj Ha Hi.
  assert (Ha' : sensor_active d j = true)
    by (unfold sensor_active in *; rewrite Hdsens; exact Ha).
  destruct (threshold_not_intpend d j i ltac:(lia)) as [N1 N2].
  rewrite <- Hdb.
  rewrite (Hkeep _ N1), (Hkeep _ N2).
  apply (H1 j (or_intror (conj Hj Ha')) i). lia.
Qed.

End Thresholds.

Lemma thresholds_programmed_8890_witness :
  let data := sample_data SOC_ARCH_EXYNOS8890 0 1 75 135 1 0 "step_wise" in
  let w := initial_world (fun _ => 0) in
  exists w',
    @exynos_tmu_initialize sample_header data w
    = Ok ((0, trimmed_8890 data 0), w') /\
    forall i, (i < 3)%nat ->
      threshold_field (bit_off (Z.of_nat i))
        (mmio w' (base data + EXYNOS_THD_TEMP_RISE7_6 + reg_off (Z.of_nat i)))
      = 51 + 5 * Z.of_nat i /\
      threshold_field (bit_off (Z.of_nat i))
        (mmio w' (base data + EXYNOS_THD_TEMP_FALL7_6 + reg_off (Z.of_nat i)))
      = 49 + 5 * Z.of_nat i.
Proof.
  cbv zeta.
  apply (@thresholds_programmed_8890 sample_header
           (sample_data SOC_ARCH_EXYNOS8890 0 1 75 135 1 0 "step_wise")
           (sample_zone "step_wise") (initial_world (fun _ => 0))
           (fun i => 51 + 5 * Z.of_nat i) (fun i => 49 + 5 * Z.of_nat i)).
  - reflexivity.
  - reflexivity.
  - cbn. lia.
  - intros i Hi. cbn in Hi.
    destruct i as [|[|[|i]]]; [| | |lia];
      (split; [reflexivity|]); (split; [cbn; lia|]);
      (split; [reflexivity|]); cbn; lia.
Defined.

Lemma thresholds_programmed_8895_witness :
  let data := sample_data SOC_ARCH_EXYNOS8895 0 1 75 135 0x41 0 "step_wise" in
  let w := initial_world (fun _ => 0) in
  exists d w',
    @exynos_tmu_initialize sample_header data w = Ok ((0, d), w') /\
    forall j i,
      In j sensor_indices -> sensor_active data j = true ->
      (i < 3)%nat ->
      threshold_field (bit_off (Z.of_nat i))
        (mmio w' (base data + EXYNOS_THD_TEMP_RISE7_6
                  + reg_off_sensor j (Z.of_nat i))) = 51 + 5 * Z.of_nat i /\
      threshold_field (bit_off (Z.of_nat i))
        (mmio w' (base data + EXYNOS_THD_TEMP_FALL7_6
                  + reg_off_sensor j (Z.of_nat i))) = 49 + 5 * Z.of_nat i.
Proof.
  cbv zeta.
  exists (match for_each sensor_indices (@read_trim_info sample_header)
                  (sample_data SOC_ARCH_EXYNOS8895 0 1 75 135 0x41 0
                               "step_wise")
                  (initial_world (fun _ => 0))
          with
          | Ok (d, _) => d
          | Fault _ =>
              sample_data SOC_ARCH_EXYNOS8895 0 1 75 135 0x41 0 "step_wise"
          end).
  apply (@thresholds_programmed_8895 sample_header
           (sample_data SOC_ARCH_EXYNOS8895 0 1 75 135 0x41 0 "step_wise")
           _ (sample_zone "step_wise") (initial_world (fun _ => 0))
           (fun i => 51 + 5 * Z.of_nat i) (fun i => 49 + 5 * Z.of_nat i)).
  - reflexivity.
  - reflexivity.
  - reflexivity.
  - cbn. lia.
  - reflexivity.
  - intros i Hi. cbn in Hi.
    destruct i as [|[|[|i]]]; [| | |lia];
      (split; [reflexivity|]); (split; [cbn; lia|]);
      (split; [reflexivity|]); cbn; lia.
Defined.

(** * The system power-management driver *)

Lemma land_bit (a e : Z) :
  0 <= e -> (Z.land a (Z.shiftl 1 e) =? 0) = negb (Z.testbit a e).
Proof.
  intros He. rewrite Z.shiftl_1_l.
  assert (Hb : forall n, Z.testbit (Z.land a (2 ^ e)) n
                         = Z.testbit a n && (e =? n)).
  { intros n. rewrite Z.land_spec, Z.pow2_bits_eqb by exact He.
    reflexivity. }
  destruct (Z.testbit a e) eqn:Ea; cbn [negb].
  - apply Z.eqb_neq. intros H0.
    pose proof (Hb e) as H. rewrite H0, Ea, Z.eqb_refl, Z.testbit_0_l in H.
    discriminate.
  - apply Z.eqb_eq. apply Z.bits_inj'. intros n _.
    rewrite Hb, Z.testbit_0_l.
    destruct (Z.eqb_spec e n) as [<-|_].
    + rewrite Ea. reflexivity.
    + apply Bool.andb_false_r.
Qed.

(** The inner loop over the pending bits of one group. *)
Lemma report_group (p : Pm.platform) (mask v i : Z) (bs : list Z) :
  (forall b, In b bs -> 0 <= i + b < 31) ->
  forall found l,
    fold_left (Pm.report_eint p mask i) (filter (Z.testbit v) bs)
              (Some (found, l))
    = let r :=
        flat_map (fun b => if Z.testbit v b && negb (Z.testbit mask (i + b))
                           then Pm.eint_report p (i + b) else []) bs in
      Some (found || negb (match r with [] => true | _ => false end), l ++ r).
Proof.
  induction bs as [|b bs IH]; intros Hb found l.
  - cbn. rewrite Bool.orb_false_r, app_nil_r. reflexivity.
  - assert (Hb' : forall b', In b' bs -> 0 <= i + b' < 31)
      by (intros b' H; apply Hb; right; exact H).
    pose proof (Hb b (or_introl eq_refl)) as Hr.
    cbn [filter flat_map]. cbv zeta in IH |- *.
    destruct (Z.testbit v b); cbn [andb app].
    + cbn [fold_left]. unfold Pm.report_eint at 2.
      replace (31 <=? i + b) with false by (symmetry; apply Z.leb_gt; lia).
      rewrite land_bit by lia. rewrite Bool.negb_involutive.
      destruct (Z.testbit mask (i + b)); cbn [negb].
      * rewrite (IH Hb'). reflexivity.
      * cbv zeta. rewrite (IH Hb'). unfold Pm.eint_report.
        cbn [app]. rewrite Bool.orb_true_r, <- app_assoc. reflexivity.
    + rewrite (IH Hb'). reflexivity.
Qed.

Lemma eint_group_member (G b : Z) :
  0 <= G -> 0 <= b < 8 ->
  Z.shiftr (8 * G + b) 3 = G /\
  Z.shiftr (8 * G) 3 = G /\
  (8 * G + b) mod 8 = b.
Proof.
  intros HG Hb. rewrite !Z.shiftr_div_pow2 by lia.
  change (2 ^ 3) with 8.
  repeat split.
  - symmetry. apply (Z.div_unique _ 8 _ b); lia.
  - symmetry. apply (Z.div_unique _ 8 _ 0); lia.
  - symmetry. apply (Z.mod_unique _ 8 G); lia.
Qed.

(** The two loops together, over [g] whole groups. *)
Lemma report_groups (p : Pm.platform) (s : Pm.state) (g : nat) :
  (8 * g <= 24)%nat ->
  fold_left
    (fun acc i =>
       fold_left
         (Pm.report_eint p (Pm.exynos_pmu_read p Pm.EXYNOS_PMU_EINT_WAKEUP_MASK)
                         i)
         (Pm.for_each_set_bit
            (Pm.raw_readl p (Pm.EXYNOS_EINT_PEND (Pm.eint_base (Pm.pm_info s)) i))
            8)
         acc)
    (map (fun k => 8 * Z.of_nat k) (seq 0 g))
    (Some (false, []))
  = let r := eint_reports p s (map Z.of_nat (seq 0 (8 * g))) in
    Some (negb (match r with [] => true | _ => false end), r).
Proof.
  induction g as [|g IH]; intros Hg; [reflexivity|].
  rewrite seq_S, map_app, fold_left_app, IH by lia.
  cbn [map fold_left Nat.add]. cbv zeta.
  unfold Pm.for_each_set_bit.
  rewrite report_group.
  2:{ intros b Hb. apply in_map_iff in Hb. destruct Hb as (k & <- & Hk).
      apply in_seq in Hk. lia. }
  cbv zeta.
  replace (8 * S g)%nat with (8 * g + 8)%nat by lia.
  rewrite seq_app, map_app. unfold eint_reports at 3 4.
  rewrite flat_map_app. fold (eint_reports p s (map Z.of_nat (seq 0 (8 * g)))).
  set (R := eint_reports p s (map Z.of_nat (seq 0 (8 * g)))).
  assert (L : map Z.of_nat (seq (0 + 8 * g) 8)
              = map (fun b => 8 * Z.of_nat g + b) (map Z.of_nat (seq 0 8))).
  { cbn [seq map Nat.add]. repeat (apply f_equal2; [lia|]). reflexivity. }
  rewrite L.
  assert (E :
    flat_map
      (fun e => if Pm.eint_pending p s e && negb (Pm.eint_masked p e)
                then Pm.eint_report p e else [])
      (map (fun b => 8 * Z.of_nat g + b) (map Z.of_nat (seq 0 8)))
    = flat_map
        (fun b =>
           if Z.testbit
                (Pm.raw_readl p
                   (Pm.EXYNOS_EINT_PEND (Pm.eint_base (Pm.pm_info s))
                                        (8 * Z.of_nat g))) b
              && negb (Z.testbit
                         (Pm.exynos_pmu_read p Pm.EXYNOS_PMU_EINT_WAKEUP_MASK)
                         (8 * Z.of_nat g + b))
           then Pm.eint_report p (8 * Z.of_nat g + b) else [])
        (map Z.of_nat (seq 0 8))).
  { rewrite !flat_map_concat_map, map_map. f_equal.
    apply map_ext_in. intros b Hb.
    apply in_map_iff in Hb. destruct Hb as (k & <- & Hk).
    apply in_seq in Hk.
    destruct (eint_group_member (Z.of_nat g) (Z.of_nat k)) as (A & G & B);
      [lia | lia |].
    unfold Pm.eint_pending, Pm.eint_masked, Pm.EXYNOS_EINT_PEND.
    rewrite A, G, B. reflexivity. }
  rewrite E. destruct R; [|reflexivity].
  cbn [negb orb app]. reflexivity.
Qed.

Lemma eint_reports_are_reports (p : Pm.platform) (s : Pm.state) (l : list Z) :
  forallb is_report (eint_reports p s l) = true.
Proof.
  induction l as [|e l IH]; [reflexivity|].
  unfold eint_reports in *. cbn [flat_map]. rewrite forallb_app, IH.
  destruct (Pm.eint_pending p s e && negb (Pm.eint_masked p e)); reflexivity.
Qed.

Lemma eint_reports_nil (p : Pm.platform) (s : Pm.state) (l : list Z) :
  eint_reports p s l = [] <->
  forall e, In e l -> Pm.eint_pending p s e && negb (Pm.eint_masked p e) = false.
Proof.
  induction l as [|e l IH]; [split; [intros _ e []|reflexivity]|].
  unfold eint_reports in *. cbn [flat_map].
  destruct (Pm.eint_pending p s e && negb (Pm.eint_masked p e)) eqn:E.
  - split; [discriminate|]. intros H.
    specialize (H e (or_introl eq_refl)). rewrite E in H. discriminate.
  - cbn [app]. rewrite IH. split.
    + intros H e' [<-|He']; [exact E | apply H; exact He'].
    + intros H e' He'. apply H. right. exact He'.
Qed.

(** The scan of the external interrupts, for up to 24 of them. *)
Lemma eint_scan_run (p : Pm.platform) (s : Pm.state) :
  0 <= Pm.num_eint (Pm.pm_info s) <= 24 ->
  Pm.exynos_show_wakeup_reason_eint p s
  = Some (Pm.record
            (eint_reports p s (scanned_eints s)
             ++ match eint_reports p s (scanned_eints s) with
                | [] => [Pm.PrInfo Pm.MsgUnknownEint]
                | _ :: _ => []
                end) s).
Proof.
  intros Hn. unfold Pm.exynos_show_wakeup_reason_eint, Pm.eint_groups.
  cbv zeta. rewrite report_groups.
  - cbv zeta. unfold scanned_eints.
    destruct (eint_reports p s _); reflexivity.
  - assert ((Pm.num_eint (Pm.pm_info s) + 7) / 8 < 4)
      by (apply Z.div_lt_upper_bound; lia).
    lia.
Qed.

(** X23: the wake-up report for external interrupts, with up to 24 of
    them: the scan covers whole groups of eight, so every interrupt below
    the next multiple of 8 of [num_eint]; it reports, in rising order,
    exactly those that are pending and whose bit in the wake-up mask is
    clear, each with the irq of its pin, and prints the "unknown EINT"
    line exactly when there is none. *)
Theorem eint_scan_reports (p : Pm.platform) (s : Pm.state) :
  0 <= Pm.num_eint (Pm.pm_info s) <= 24 ->
  exists s',
    Pm.exynos_show_wakeup_reason_eint p s = Some s' /\
    Pm.pm_info s' = Pm.pm_info s /\
    ((exists e, In e (scanned_eints s) /\ Pm.eint_pending p s e = true /\
                Pm.eint_masked p e = false) ->
     Pm.calls s' = Pm.calls s ++ eint_reports p s (scanned_eints s)) /\
    ((forall e, In e (scanned_eints s) -> Pm.eint_pending p s e = true ->
                Pm.eint_masked p e = true) ->
     Pm.calls s' = Pm.calls s ++ [Pm.PrInfo Pm.MsgUnknownEint]).
Proof.
  intros Hn. rewrite (eint_scan_run p s Hn).
  eexists. split; [reflexivity|]. split; [reflexivity|].
  cbn [Pm.calls Pm.record].
  destruct (eint_reports p s (scanned_eints s)) as [|c r] eqn:E.
  - split.
    + intros (e & He & Hp & Hm).
      pose proof (proj1 (eint_reports_nil p s _) E e He) as H.
      rewrite Hp, Hm in H. discriminate.
    + intros _. reflexivity.
  - split.
    + intros _. rewrite app_nil_r. reflexivity.
    + intros H. exfalso.
      assert (Hnil : eint_reports p s (scanned_eints s) = []).
      { apply eint_reports_nil. intros e He.
        destruct (Pm.eint_pending p s e) eqn:Hp; [|reflexivity].
        rewrite (H e He Hp). reflexivity. }
      rewrite Hnil in E. discriminate.
Qed.

Lemma forallb_prinfo {A} (f : A -> Pm.message) (l : list A) :
  forallb is_report (map (fun a => Pm.PrInfo (f a)) l) = true.
Proof. induction l as [|a l IH]; [reflexivity | exact IH]. Qed.

(** Reporting the wake-up reason makes report calls only, and is defined
    with up to 24 external interrupts. *)
Lemma show_wakeup_reason_run (p : Pm.platform) (abort : bool) (s : Pm.state) :
  0 <= Pm.num_eint (Pm.pm_info s) <= 24 ->
  exists rest,
    Pm.exynos_show_wakeup_reason p abort s = Some (Pm.record rest s) /\
    forallb is_report rest = true.
Proof.
  intros Hn. unfold Pm.exynos_show_wakeup_reason. destruct abort.
  - eexists. split; [reflexivity|].
    rewrite !forallb_app, !forallb_prinfo. reflexivity.
  - cbv zeta.
    destruct (negb (Z.land _ Pm.WAKEUP_STAT_RTC_ALARM =? 0)).
    + eexists. split; reflexivity.
    + destruct (negb (Z.land _ Pm.WAKEUP_STAT_EINT =? 0)).
      * rewrite (eint_scan_run p s Hn). eexists. split; [reflexivity|].
        rewrite forallb_app, eint_reports_are_reports.
        destruct (eint_reports p s _); reflexivity.
      * eexists. split; reflexivity.
Qed.

(** X24: one suspend cycle.  When the CP status check passes, the syscore
    suspend callback and the platform [enter] callback agree on the
    scenario (CP call when audio is active or [test_cp_call] is set, plain
    suspend otherwise): suspend returns 0 having prepared the scenario's
    power mode, [enter] suspends with the PSCI index of the same scenario,
    after an IPI only if [test_early_wakeup] is set, and returns 1 exactly
    when [arm_cpuidle_suspend] returned nonzero.  On a platform with at
    most 24 external interrupts ([0 <= num_eint <= 24], the range in which
    the wake-up report never shifts 1 by 31 or more) the syscore resume
    callback then completes: the power mode that is woken up is the one
    that was prepared, the early wake-up flag of [enter] is what the
    power-mode layer is woken with, and after the wake-up only reports
    follow. *)
Theorem suspend_cycle_scenario (p : Pm.platform) (s : Pm.state) :
  Pm.exynos_check_cp_status p <> 0 ->
  let scenario :=
    Pm.is_cp_aud_enabled p || negb (Pm.test_cp_call (Pm.pm_dbg s) =? 0) in
  let mode := if scenario then Pm.cp_call_mode_idx (Pm.pm_info s)
              else Pm.suspend_mode_idx (Pm.pm_info s) in
  let psci := if scenario then Pm.cp_call_psci_idx (Pm.pm_info s)
              else Pm.suspend_psci_idx (Pm.pm_info s) in
  let early := negb (Pm.arm_cpuidle_suspend p psci =? 0) in
  exists s1 s2,
    Pm.exynos_pm_syscore_suspend p s = (0, s1) /\
    Pm.calls s1 = Pm.calls s ++ [Pm.PrepareSysPowerdown mode true] /\
    Pm.exynos_pm_enter p s1 = (Z.b2z early, s2) /\
    Pm.calls s2 =
      Pm.calls s1
      ++ (if Pm.test_early_wakeup (Pm.pm_dbg s) =? 0 then []
          else [Pm.SendCallFunctionSingleIpi 0])
      ++ [Pm.CpuidleSuspend psci]
      ++ (if early then [Pm.PrInfo Pm.MsgReturnToOriginator] else []) /\
    (0 <= Pm.num_eint (Pm.pm_info s) <= 24 ->
     exists s3 rest,
       Pm.exynos_pm_syscore_resume p s2 = Some s3 /\
       Pm.calls s3 =
         Pm.calls s2 ++ [Pm.WakeupSysPowerdown mode early] ++ rest /\
       forallb is_report rest = true).
Proof.
  intros Hcp. cbv zeta.
  unfold Pm.exynos_pm_syscore_suspend.
  replace (Pm.exynos_check_cp_status p =? 0) with false
    by (symmetry; apply Z.eqb_neq; exact Hcp).
  cbv zeta. unfold Pm.cp_call_scenario at 1.
  cbn [Pm.is_cp_call Pm.pm_info Pm.pm_dbg Pm.set_is_cp_call].
  set (sc := Pm.is_cp_aud_enabled p || negb (Pm.test_cp_call (Pm.pm_dbg s) =? 0)).
  set (mode := if sc then Pm.cp_call_mode_idx (Pm.pm_info s)
               else Pm.suspend_mode_idx (Pm.pm_info s)).
  set (psci := if sc then Pm.cp_call_psci_idx (Pm.pm_info s)
               else Pm.suspend_psci_idx (Pm.pm_info s)).
  set (early := negb (Pm.arm_cpuidle_suspend p psci =? 0)).
  set (s1 := Pm.record [Pm.PrepareSysPowerdown mode true]
               (Pm.set_is_cp_call s (Pm.is_cp_aud_enabled p))).
  set (s2a := if negb (Pm.test_early_wakeup (Pm.pm_dbg s) =? 0)
              then Pm.record [Pm.SendCallFunctionSingleIpi 0] s1 else s1).
  set (s2b := Pm.set_is_early_wakeup
                (Pm.record [Pm.CpuidleSuspend psci] s2a) early).
  set (s2 := if early then Pm.record [Pm.PrInfo Pm.MsgReturnToOriginator] s2b
             else s2b).
  set (s3a := Pm.record [Pm.WakeupSysPowerdown mode early] s2).
  assert (Hcalls : Pm.calls s2 =
            Pm.calls s1
            ++ (if Pm.test_early_wakeup (Pm.pm_dbg s) =? 0 then []
                else [Pm.SendCallFunctionSingleIpi 0])
            ++ [Pm.CpuidleSuspend psci]
            ++ (if early then [Pm.PrInfo Pm.MsgReturnToOriginator] else [])).
  { subst s2 s2b s2a s1.
    destruct early, (Pm.test_early_wakeup (Pm.pm_dbg s) =? 0);
      cbn [negb Pm.calls Pm.record Pm.set_is_early_wakeup Pm.set_is_cp_call];
      rewrite <- ?app_assoc; reflexivity. }
  assert (Hinfo : Pm.num_eint (Pm.pm_info s3a) = Pm.num_eint (Pm.pm_info s) /\
                  Pm.is_early_wakeup (Pm.pm_info s3a) = early /\
                  Pm.is_early_wakeup (Pm.pm_info s2) = early /\
                  Pm.cp_call_scenario s2 = sc /\
                  Pm.cp_call_mode_idx (Pm.pm_info s2)
                  = Pm.cp_call_mode_idx (Pm.pm_info s) /\
                  Pm.suspend_mode_idx (Pm.pm_info s2)
                  = Pm.suspend_mode_idx (Pm.pm_info s)).
  { subst s3a s2 s2b s2a s1. unfold Pm.cp_call_scenario.
    destruct early, (Pm.test_early_wakeup (Pm.pm_dbg s) =? 0);
      repeat split. }
  destruct Hinfo as (Hne & He3 & He2 & Hsc2 & Hcm & Hsm).
  exists s1, s2.
  split; [|split; [|split; [|split]]].
  - subst s1 mode. destruct sc; reflexivity.
  - reflexivity.
  - subst s2 s2b s2a s1. unfold Pm.exynos_pm_enter, Pm.cp_call_scenario.
    cbn [Pm.is_cp_call Pm.pm_info Pm.pm_dbg Pm.set_is_cp_call Pm.record
         Pm.cp_call_psci_idx Pm.suspend_psci_idx Pm.test_cp_call
         Pm.test_early_wakeup].
    fold sc. fold psci. cbv zeta.
    destruct (Pm.test_early_wakeup (Pm.pm_dbg s) =? 0); cbn [negb];
      cbn [Pm.is_early_wakeup Pm.pm_info Pm.set_is_early_wakeup Pm.record];
      fold early; destruct early; reflexivity.
  - exact Hcalls.
  - intros Hn.
    destruct (show_wakeup_reason_run p early s3a ltac:(rewrite Hne; exact Hn))
      as (rest & Hshow & Hrep).
    exists (Pm.record rest s3a), rest.
    split; [|split].
    + unfold Pm.exynos_pm_syscore_resume. rewrite Hsc2, Hcm, Hsm, He2.
      fold mode.
      replace (if sc
               then Pm.record [Pm.WakeupSysPowerdown
                                 (Pm.cp_call_mode_idx (Pm.pm_info s)) early] s2
               else Pm.record [Pm.WakeupSysPowerdown
                                 (Pm.suspend_mode_idx (Pm.pm_info s)) early] s2)
        with s3a by (subst s3a mode; destruct sc; reflexivity).
      cbv zeta. rewrite He3. exact Hshow.
    + subst s3a. cbn [Pm.calls Pm.record]. rewrite <- app_assoc.
      reflexivity.
    + exact Hrep.
Qed.

Lemma eint_scan_reports_witness :
  let p := Pm.sample_platform 1 false 1 0x0c in
  let s := Pm.sample_state 0 in
  exists s',
    Pm.exynos_show_wakeup_reason_eint p s = Some s' /\
    Pm.calls s' = [Pm.LogWakeupReason 206; Pm.UpdateWakeupReasonStats 206 3;
                   Pm.LogWakeupReason 220; Pm.UpdateWakeupReasonStats 220 10;
                   Pm.LogWakeupReason 222; Pm.UpdateWakeupReasonStats 222 11].
Proof.
  cbv zeta.
  destruct (eint_scan_reports (Pm.sample_platform 1 false 1 0x0c)
              (Pm.sample_state 0)) as (s' & E & _ & H & _).
  - cbn. lia.
  - exists s'. split; [exact E|].
    rewrite H; [reflexivity|].
    exists 3. split; [vm_compute; tauto|]. split; reflexivity.
Defined.

Lemma suspend_cycle_scenario_witness :
  let p := Pm.sample_platform 1 true 2 0 in
  let s := Pm.sample_state 0 in
  exists s1 s2 s3,
    Pm.exynos_pm_syscore_suspend p s = (0, s1) /\
    Pm.exynos_pm_enter p s1 = (0, s2) /\
    Pm.exynos_pm_syscore_resume p s2 = Some s3 /\
    firstn 3 (Pm.calls s3)
    = [Pm.PrepareSysPowerdown 4 true; Pm.CpuidleSuspend 133;
       Pm.WakeupSysPowerdown 4 false].
Proof.
  cbv zeta.
  destruct (suspend_cycle_scenario (Pm.sample_platform 1 true 2 0)
              (Pm.sample_state 0)) as (s1 & s2 & A & A' & B & B' & R).
  - cbn. discriminate.
  - destruct R as (s3 & rest & C & D & _); [cbn; lia|].
    exists s1, s2, s3.
    split; [exact A|]. split; [exact B|]. split; [exact C|].
    rewrite D, B', A'. reflexivity.
Defined.

(** * Sensor configuration from the device tree *)

Section SensorConf.

Context {hdr : exynos_tmu_h}.

(** X25: [exynos_of_sensor_conf] always answers 0 and leaves 8-bit values
    in the six [u8] fields: a property that is there gives its low eight
    bits; a property that is missing gives the value of the property read
    just before it, since the local the reads go through is never reset.
    So a node without ["samsung,tmu_second_point_trim"] yields equal trim
    points, and with them a two-point calibration divides by zero on
    every temperature. *)
Theorem sensor_conf_inherits (np : string -> option Z)
  (pdata0 : exynos_tmu_platform_data) (value0 : Z) :
  let r := exynos_of_sensor_conf np pdata0 value0 in
  let p := snd r in
  fst r = 0 /\
  (is_u8 (gain p) /\ is_u8 (reference_voltage p) /\
   is_u8 (noise_cancel_mode p) /\ is_u8 (first_point_trim p) /\
   is_u8 (second_point_trim p) /\ is_u8 (default_temp_offset p)) /\
  (forall v, np "samsung,tmu_second_point_trim"%string = Some v ->
             second_point_trim p = v mod 2 ^ 8) /\
  (np "samsung,tmu_reference_voltage"%string = None ->
   reference_voltage p = gain p) /\
  (np "samsung,tmu_noise_cancel_mode"%string = None ->
   noise_cancel_mode p = reference_voltage p) /\
  (np "samsung,tmu_first_point_trim"%string = None ->
   first_point_trim p = noise_cancel_mode p) /\
  (np "samsung,tmu_second_point_trim"%string = None ->
   second_point_trim p = first_point_trim p /\
   forall data temp,
     cal_type p = TYPE_TWO_POINT_TRIMMING ->
     temp_to_code (with_pdata data p) temp = Fault DivideByZero) /\
  (np "samsung,tmu_default_temp_offset"%string = None ->
   default_temp_offset p = second_point_trim p).
Proof.
  cbv zeta. unfold exynos_of_sensor_conf. cbv zeta.
  cbn [fst snd gain reference_voltage noise_cancel_mode first_point_trim
       second_point_trim default_temp_offset cal_type].
  split; [reflexivity|].
  split; [repeat split; try apply to_u8_range;
          apply (proj2 (to_u8_range _))|].
  split.
  { intros v Hv. unfold of_property_read_u32 at 1. rewrite Hv.
    unfold to_u8, to_u32.
    apply Z.mod_mod_divide. exists (2 ^ 24). reflexivity. }
  split; [intros H; unfold of_property_read_u32 at 1; rewrite H; reflexivity|].
  split; [intros H; unfold of_property_read_u32 at 1; rewrite H; reflexivity|].
  split; [intros H; unfold of_property_read_u32 at 1; rewrite H; reflexivity|].
  split.
  - intros H.
    assert (E : of_property_read_u32 np "samsung,tmu_second_point_trim"
                  (of_property_read_u32 np "samsung,tmu_first_point_trim"
                     (of_property_read_u32 np "samsung,tmu_noise_cancel_mode"
                        (of_property_read_u32 np
                           "samsung,tmu_reference_voltage"
                           (of_property_read_u32 np "samsung,tmu_gain"
                                                 value0))))
                = of_property_read_u32 np "samsung,tmu_first_point_trim"
                    (of_property_read_u32 np "samsung,tmu_noise_cancel_mode"
                       (of_property_read_u32 np
                          "samsung,tmu_reference_voltage"
                          (of_property_read_u32 np "samsung,tmu_gain"
                                                value0))))
      by (unfold of_property_read_u32 at 1; rewrite H; reflexivity).
    rewrite E. split; [reflexivity|].
    intros data temp Hcal.
    unfold temp_to_code.
    cbn [pdata with_pdata cal_type first_point_trim second_point_trim
         temp_error1 temp_error2].
    rewrite Hcal, Z.eqb_refl.
    match goal with
    | |- context [int_sub ?a ?a] =>
        replace (int_sub a a) with 0
          by (unfold int_sub; rewrite Z.sub_diag; reflexivity)
    end.
    reflexivity.
  - intros H. unfold of_property_read_u32 at 1. rewrite H. reflexivity.
Qed.

End SensorConf.

Lemma sensor_conf_inherits_witness :
  let np := sample_node [("samsung,tmu_gain"%string, 5);
                         ("samsung,tmu_reference_voltage"%string, 16);
                         ("samsung,tmu_first_point_trim"%string, 25);
                         ("samsung,tmu_cal_type"%string, 1)] in
  let p := snd (exynos_of_sensor_conf np (sample_pdata 0 0) 0) in
  second_point_trim p = first_point_trim p /\
  forall data temp,
    @temp_to_code sample_header (with_pdata data p) temp = Fault DivideByZero.
Proof.
  cbv zeta.
  destruct (@sensor_conf_inherits sample_header
              (sample_node [("samsung,tmu_gain"%string, 5);
                            ("samsung,tmu_reference_voltage"%string, 16);
                            ("samsung,tmu_first_point_trim"%string, 25);
                            ("samsung,tmu_cal_type"%string, 1)])
              (sample_pdata 0 0) 0) as (_ & _ & _ & _ & _ & _ & H & _).
  destruct (H eq_refl) as [E F].
  split; [exact E|]. intros data temp. apply F. reflexivity.
Defined.

(** * The control register when the sensor is switched on *)

Lemma testbit_small (x m k : Z) :
  0 <= x < 2 ^ m -> 0 <= m <= k -> Z.testbit x k = false.
Proof.
  intros Hx Hk. rewrite <- (Z.mod_small x (2 ^ m)) by exact Hx.
  apply Z.mod_pow2_bits_high. exact Hk.
Qed.

Lemma testbit_u32_shl (x sh n : Z) :
  0 <= sh -> 0 <= n < 32 -> Z.testbit (u32_shl x sh) n = Z.testbit x (n - sh).
Proof.
  intros Hs Hn. unfold u32_shl.
  rewrite testbit_to_u32, Z.shiftl_spec by lia.
  replace (n <? 32) with true by (symmetry; apply Z.ltb_lt; lia).
  reflexivity.
Qed.

Lemma testbit_clear_field (c mask m sh n : Z) :
  mask = Z.ones m -> 0 <= m -> 0 <= sh -> 0 <= n < 32 ->
  Z.testbit (Z.land c (u32_not (Z.shiftl mask sh))) n
  = Z.testbit c n && negb ((sh <=? n) && (n <? sh + m)).
Proof.
  intros -> Hm Hs Hn.
  rewrite Z.land_spec, testbit_u32_not, Z.shiftl_spec, Z.testbit_ones
    by lia.
  f_equal. f_equal.
  destruct (Z.leb_spec 0 (n - sh)), (Z.ltb_spec (n - sh) m),
    (Z.leb_spec sh n), (Z.ltb_spec n (sh + m)); cbn [andb];
    try reflexivity; lia.
Qed.

Lemma testbit_field_extract (v mask m sh k : Z) :
  mask = Z.ones m -> 0 <= m -> 0 <= sh ->
  Z.testbit (Z.land (Z.shiftr v sh) mask) k
  = (0 <=? k) && (k <? m) && Z.testbit v (k + sh).
Proof.
  intros -> Hm Hs.
  destruct (Z.leb_spec 0 k) as [Hk|Hk]; cbn [andb].
  - rewrite Z.land_spec, Z.shiftr_spec, Z.testbit_ones by lia.
    replace (0 <=? k) with true by (symmetry; apply Z.leb_le; lia).
    cbn [andb]. apply Bool.andb_comm.
  - apply Z.testbit_neg_r. exact Hk.
Qed.

Ltac decide_cmp :=
  repeat match goal with
         | |- context [?a <=? ?b] =>
             first [ replace (a <=? b) with true
                       by (symmetry; apply Z.leb_le; lia)
                   | replace (a <=? b) with false
                       by (symmetry; apply Z.leb_gt; lia) ]
         | |- context [?a <? ?b] =>
             first [ replace (a <? b) with true
                       by (symmetry; apply Z.ltb_lt; lia)
                   | replace (a <? b) with false
                       by (symmetry; apply Z.ltb_ge; lia) ]
         | |- context [?a =? ?b] =>
             first [ replace (a =? b) with true
                       by (symmetry; apply Z.eqb_eq; lia)
                   | replace (a =? b) with false
                       by (symmetry; apply Z.eqb_neq; lia) ]
         end.

(** The bits of the control word for [on], when the platform values fit
    their fields. *)
Lemma enable_con_bits (data : exynos_tmu_data) (c ti ti1 n : Z) :
  0 <= reference_voltage (pdata data) <= 0x1f ->
  0 <= gain (pdata data) <= 0xf ->
  0 <= noise_cancel_mode (pdata data) <= 0x7 ->
  0 <= n < 32 ->
  Z.testbit (enable_con data c ti ti1) n
  = if (n =? 0) || (n =? 12) then true
    else if (24 <=? n) && (n <? 29)
    then Z.testbit (reference_voltage (pdata data)) (n - 24)
         || Z.testbit ti (n - 6)
    else if (8 <=? n) && (n <? 12)
    then Z.testbit (gain (pdata data)) (n - 8) || Z.testbit ti1 (n + 10)
    else if (13 <=? n) && (n <? 16)
            && negb (noise_cancel_mode (pdata data) =? 0)
    then Z.testbit (noise_cancel_mode (pdata data)) (n - 13)
    else Z.testbit c n.
Proof.
  intros Hr Hg Hm Hn.
  unfold enable_con, get_con_reg. cbv zeta.
  unfold EXYNOS_TMU_T_BUF_VREF_SEL_SHIFT, EXYNOS_TMU_T_BUF_VREF_SEL_MASK,
    EXYNOS_TMU_T_BUF_SLOPE_SEL_SHIFT, EXYNOS_TMU_T_BUF_SLOPE_SEL_MASK,
    EXYNOS_TMU_REF_VOLTAGE_SHIFT, EXYNOS_TMU_REF_VOLTAGE_MASK,
    EXYNOS_TMU_BUF_SLOPE_SEL_SHIFT, EXYNOS_TMU_BUF_SLOPE_SEL_MASK,
    EXYNOS_TMU_TRIP_MODE_SHIFT, EXYNOS_TMU_TRIP_MODE_MASK,
    EXYNOS_TMU_CORE_EN_SHIFT, EXYNOS_TMU_THERM_TRIP_EN_SHIFT.
  set (refv := reference_voltage (pdata data)) in *.
  set (gn := gain (pdata data)) in *.
  set (ncm := noise_cancel_mode (pdata data)) in *.
  rewrite !Z.shiftl_1_l.
  destruct (Z.eqb_spec ncm 0) as [E0|N0];
    repeat first [ rewrite Z.lor_spec
                 | rewrite (testbit_clear_field _ 31 5) by first [reflexivity|lia]
                 | rewrite (testbit_clear_field _ 15 4) by first [reflexivity|lia]
                 | rewrite (testbit_clear_field _ 7 3) by first [reflexivity|lia]
                 | rewrite testbit_u32_shl by lia
                 | rewrite (testbit_field_extract _ 31 5) by first [reflexivity|lia]
                 | rewrite (testbit_field_extract _ 15 4) by first [reflexivity|lia]
                 | rewrite Z.pow2_bits_eqb by lia ];
    replace (n - 24 + 18) with (n - 6) by lia;
    replace (n - 8 + 18) with (n + 10) by lia;
    assert (C : n = 0 \/ 1 <= n < 8 \/ 8 <= n < 12 \/ n = 12 \/ 13 <= n < 16
                \/ 16 <= n < 24 \/ 24 <= n < 29 \/ 29 <= n < 32) by lia;
    destruct C as [C|[C|[C|[C|[C|[C|[C|C]]]]]]];
    decide_cmp; cbn [andb orb negb];
    rewrite ?(Z.testbit_neg_r refv (n - 24)), ?(Z.testbit_neg_r gn (n - 8)),
      ?(Z.testbit_neg_r ncm (n - 13)), ?(testbit_small refv 5 (n - 24)),
      ?(testbit_small gn 4 (n - 8)), ?(testbit_small ncm 3 (n - 13)) by lia;
    rewrite ?Bool.andb_true_r, ?Bool.orb_false_r, ?Bool.andb_false_r,
      ?Bool.orb_true_r;
    cbn [andb orb negb]; try reflexivity.
Qed.

(** Switching on writes the control word last computed to the control
    register; the value it is computed from differs from the register's
    initial value at most in the two enable bits. *)
Lemma control_on_value (data : exynos_tmu_data) (tz : thermal_zone_device)
  (w : world) :
  tzd data = Some tz ->
  post False (exynos_tmu_control data true) w
    (fun _ w' =>
       exists c,
         (forall n, n <> 0 -> n <> 12 -> 0 <= n < 32 ->
                    Z.testbit c n
                    = Z.testbit (mmio w (base data + EXYNOS_TMU_REG_CONTROL)) n)
         /\ mmio w' (base data + EXYNOS_TMU_REG_CONTROL)
            = to_u32 (enable_con data c
                        (mmio w (base data + EXYNOS_TMU_REG_TRIMINFO))
                        (mmio w (base data + EXYNOS_TMU_REG_TRIMINFO1)))).
Proof.
  intros Htz. unfold exynos_tmu_control. destruct (soc data).
  - unfold exynos8890_tmu_control, control_bits. rewrite Htz.
    unfold post, bind, readl, deref, ret, writel, store, emit, bind.
    cbv beta iota zeta. cbn [mmio].
    exists (mmio w (base data + EXYNOS_TMU_REG_CONTROL)).
    split; [reflexivity|].
    rewrite Z.eqb_refl. reflexivity.
  - unfold exynos8895_tmu_control.
    simple apply post_bind; simple apply post_readl; cbv beta zeta.
    apply post_bind.
    apply post_conseq
      with (Q := fun _ w1 =>
                   mmio w1 =
                   fun a =>
                     if a =? base data + EXYNOS_TMU_REG_CONTROL
                     then to_u32
                            (Z.land
                               (Z.land
                                  (mmio w (base data + EXYNOS_TMU_REG_CONTROL))
                                  (u32_not
                                     (Z.shiftl 1 EXYNOS_TMU_CORE_EN_SHIFT)))
                               (u32_not
                                  (Z.shiftl 1 EXYNOS_TMU_THERM_TRIP_EN_SHIFT)))
                     else mmio w a);
      [|unfold post, writel, store, emit, bind; reflexivity].
    intros [] w1 M1. cbv beta.
    do 5 (simple apply post_bind; simple apply post_readl; cbv beta zeta).
    rewrite Htz. unfold control_bits.
    rewrite M1. cbv beta.
    unfold EXYNOS_TMU_REG_TRIMINFO, EXYNOS_TMU_REG_TRIMINFO1,
      EXYNOS_TMU_REG_TRIMINFO2, EXYNOS_TMU_REG_AVG_CON,
      EXYNOS_TMU_REG_CONTROL in *.
    decide_cmp.
    apply post_bind, post_bind, post_deref, post_ret. cbv beta iota.
    apply post_bind, post_deref. apply post_bind.
    apply post_conseq with (Q := fun _ _ => True).
    + intros [] w3 _.
      unfold post, writel, store, emit, bind. cbv beta iota. cbn [mmio].
      decide_cmp.
      eexists. split; [|reflexivity].
      intros n N0 N12 Hn.
      rewrite testbit_to_u32, !Z.land_spec, !testbit_u32_not by exact Hn.
      unfold EXYNOS_TMU_CORE_EN_SHIFT, EXYNOS_TMU_THERM_TRIP_EN_SHIFT.
      rewrite !Z.shiftl_1_l, !Z.pow2_bits_eqb by lia.
      decide_cmp. cbn [negb andb]. rewrite !Bool.andb_true_r. reflexivity.
    + destruct (negb (governor_is_power_allocator tz)); [|exact I].
      apply (post_for_each False sensor_indices _ (fun _ _ => True));
        [|exact I].
      intros i [] w3 _ _.
      destruct (sensor_active data i); exact I.
Qed.

(** X26: the control register after the sensor is switched on, on both
    variants, when the platform values fit their fields: the enable bits
    0 and 12 are set; the reference-voltage field (bits 28..24) is the
    platform's reference voltage or-ed with the fused selection (bits
    22..18 of TRIMINFO); the slope field (bits 11..8) is the platform's
    gain or-ed with the fused selection (bits 21..18 of TRIMINFO1); the
    trip-mode field (bits 15..13) is the noise-cancel mode when that is
    not 0; every other bit is as it was. *)
Theorem control_register_on (data : exynos_tmu_data)
  (tz : thermal_zone_device) (w : world) :
  tzd data = Some tz ->
  0 <= reference_voltage (pdata data) <= 0x1f ->
  0 <= gain (pdata data) <= 0xf ->
  0 <= noise_cancel_mode (pdata data) <= 0x7 ->
  exists w',
    exynos_tmu_control data true w = Ok (tt, w') /\
    forall n, 0 <= n < 32 ->
      Z.testbit (mmio w' (base data + EXYNOS_TMU_REG_CONTROL)) n
      = if (n =? 0) || (n =? 12) then true
        else if (24 <=? n) && (n <? 29)
        then Z.testbit (reference_voltage (pdata data)) (n - 24)
             || Z.testbit (mmio w (base data + EXYNOS_TMU_REG_TRIMINFO))
                          (n - 6)
        else if (8 <=? n) && (n <? 12)
        then Z.testbit (gain (pdata data)) (n - 8)
             || Z.testbit (mmio w (base data + EXYNOS_TMU_REG_TRIMINFO1))
                          (n + 10)
        else if (13 <=? n) && (n <? 16)
                && negb (noise_cancel_mode (pdata data) =? 0)
        then Z.testbit (noise_cancel_mode (pdata data)) (n - 13)
        else Z.testbit (mmio w (base data + EXYNOS_TMU_REG_CONTROL)) n.
Proof.
  intros Htz Hr Hg Hm.
  destruct (post_total _ _ _ (control_on_value data tz w Htz))
    as ([] & w' & E & c & Hc & Hv).
  exists w'. split; [exact E|].
  intros n Hn. rewrite Hv, testbit_to_u32.
  replace (n <? 32) with true by (symmetry; apply Z.ltb_lt; lia).
  cbn [andb]. rewrite (enable_con_bits data c _ _ n Hr Hg Hm Hn).
  destruct (Z.eqb_spec n 0) as [->|N0]; [reflexivity|].
  destruct (Z.eqb_spec n 12) as [->|N12]; [reflexivity|].
  cbn [orb]. rewrite (Hc n N0 N12 Hn). reflexivity.
Qed.

Lemma control_register_on_witness :
  let data := sample_data SOC_ARCH_EXYNOS8895 0 1 75 135 7 0 "step_wise" in
  exists w',
    exynos_tmu_control data true (initial_world (fun _ => 0)) = Ok (tt, w') /\
    Z.testbit (mmio w' (base data + EXYNOS_TMU_REG_CONTROL)) 28 = true /\
    Z.testbit (mmio w' (base data + EXYNOS_TMU_REG_CONTROL)) 1 = false.
Proof.
  cbv zeta.
  destruct (control_register_on
              (sample_data SOC_ARCH_EXYNOS8895 0 1 75 135 7 0 "step_wise")
              (sample_zone "step_wise") (initial_world (fun _ => 0)))
    as (w' & E & H).
  - reflexivity.
  - cbn. lia.
  - cbn. lia.
  - cbn. lia.
  - exists w'. split; [exact E|].
    split; [rewrite (H 28) by lia | rewrite (H 1) by lia]; reflexivity.
Defined.

Lemma suspend_resume_8890_witness :
  let data := sample_data SOC_ARCH_EXYNOS8890 0 1 75 135 1 0 "step_wise" in
  exists w1 w2,
    exynos_tmu_suspend data (initial_world (fun _ => 0)) = Ok (0, w1) /\
    @exynos_tmu_resume sample_header data w1 = Ok (0, w2) /\
    Z.testbit (mmio w2 (base data + EXYNOS_TMU_REG_CONTROL))
              EXYNOS_TMU_CORE_EN_SHIFT = true /\
    threshold_field (bit_off 2)
      (mmio w2 (base data + EXYNOS_THD_TEMP_RISE7_6 + reg_off 2)) = 61.
Proof.
  cbv zeta.
  destruct (@suspend_resume_8890 sample_header
              (sample_data SOC_ARCH_EXYNOS8890 0 1 75 135 1 0 "step_wise")
              (sample_zone "step_wise") (initial_world (fun _ => 0))
              (fun i => 51 + 5 * Z.of_nat i) (fun i => 49 + 5 * Z.of_nat i))
    as (w1 & w2 & A & _ & _ & _ & B & C & _ & _ & D).
  - reflexivity.
  - reflexivity.
  - cbn. lia.
  - intros i Hi. cbn in Hi.
    destruct i as [|[|[|i]]]; [| | |lia];
      (split; [reflexivity|]); (split; [cbn; lia|]);
      (split; [reflexivity|]); cbn; lia.
  - exists w1, w2. split; [exact A|]. split; [exact B|]. split; [exact C|].
    apply (proj1 (D 2%nat ltac:(cbn; lia))).
Defined.
